(** * Evolutionary-robots neural networks: layers.py and ann.py

    A shallow embedding of [neural_networks/layers.py] and
    [neural_networks/ann.py], followed by the properties of the layer
    family, of the network graph builder and of the tick executor.

    Numbers are kept abstract behind the class [Scalar]; numpy's float64 is
    the instance [float_scalar] over the kernel's binary64 floats.  Python
    exceptions are values of [exn]; a call that may raise returns a
    [result]. *)

From Stdlib Require Import String Ascii Bool Arith PeanoNat ZArith Lia List.
From Stdlib Require Import DecimalString.
From Stdlib Require Import Floats.PrimFloat.
From Stdlib Require Floats.SpecFloat Floats.FloatAxioms.
Import ListNotations.

Local Open Scope string_scope.
Local Open Scope list_scope.
Local Open Scope nat_scope.

Set Implicit Arguments.

(** ** Python exceptions and fallible calls *)

Inductive exn : Type :=
| ValueError (msg : string)
| TypeError (msg : string)
| NameError (name : string)
| KeyError (key : string)
| IndexError
| AttributeError (msg : string)
| PyException (msg : string).

Inductive result (A : Type) : Type :=
| Ok (a : A)
| Raise (e : exn).

Arguments Ok {A} a.
Arguments Raise {A} e.

Definition bind {A B : Type} (c : result A) (k : A -> result B) : result B :=
  match c with
  | Ok a => k a
  | Raise e => Raise e
  end.

Notation "x <- c ;; k" := (bind c (fun x => k))
  (at level 61, c at next level, right associativity).
Notation "' pat <- c ;; k" := (bind c (fun x => match x with pat => k end))
  (at level 61, pat pattern, c at next level, right associativity).

(** [try: body  except: raise e] -- a bare [except] catches everything.
    A call that raises returns no object: what it had assigned to [self]
    before raising is not observed. *)
Definition try_except_raise {A : Type} (body : result A) (e : exn) : result A :=
  match body with
  | Ok a => Ok a
  | Raise _ => Raise e
  end.

Definition is_ok {A : Type} (c : result A) : bool :=
  match c with Ok _ => true | Raise _ => false end.

(** ** Python dictionaries

    A [dict] keeps its keys in insertion order (the order [keys()] iterates
    in); assigning to a key that is present replaces the value in place. *)

Module PyDict.
Section Dict.
Variable V : Type.

Definition t := list (string * V).

Definition empty : t := [].

Fixpoint get (d : t) (k : string) : option V :=
  match d with
  | [] => None
  | (k', v) :: d' => if String.eqb k' k then Some v else get d' k
  end.

Fixpoint set (d : t) (k : string) (v : V) : t :=
  match d with
  | [] => [(k, v)]
  | (k', v') :: d' =>
      if String.eqb k' k then (k', v) :: d' else (k', v') :: set d' k v
  end.

Definition keys (d : t) : list string := map fst d.

Definition mem (d : t) (k : string) : bool :=
  match get d k with Some _ => true | None => false end.

(** [d[k]], raising [KeyError] when the key is absent. *)
Definition item (d : t) (k : string) : result V :=
  match get d k with
  | Some v => Ok v
  | None => Raise (KeyError k)
  end.
End Dict.

Arguments empty {V}.
End PyDict.

(** [x in l] on a list of names. *)
Definition str_in (x : string) (l : list string) : bool :=
  existsb (String.eqb x) l.

(** [l[i] = x] on a list, for an index in range. *)
Fixpoint replace_nth {A : Type} (l : list A) (i : nat) (x : A) : list A :=
  match l, i with
  | [], _ => []
  | _ :: l', 0 => x :: l'
  | y :: l', S i' => y :: replace_nth l' i' x
  end.

(** [a == b] on two lists of names. *)
Fixpoint names_eqb (a b : list string) : bool :=
  match a, b with
  | [], [] => true
  | x :: a', y :: b' => String.eqb x y && names_eqb a' b'
  | _, _ => false
  end.

(** [str(n)] for a non-negative integer. *)
Definition str (n : nat) : string := NilEmpty.string_of_uint (Nat.to_uint n).

(** ** Scalars *)

Class Scalar (R : Type) : Type := {
  szero : R;
  sone : R;
  sadd : R -> R -> R;
  ssub : R -> R -> R;
  smul : R -> R -> R;
  sdiv : R -> R -> R
}.

(** numpy's float64. *)
#[export] Instance float_scalar : Scalar float := {
  szero := PrimFloat.zero;
  sone := PrimFloat.one;
  sadd := PrimFloat.add;
  ssub := PrimFloat.sub;
  smul := PrimFloat.mul;
  sdiv := PrimFloat.div
}.

(** Exact integers, a model of the semiring laws used below. *)
#[export] Instance Z_scalar : Scalar Z := {
  szero := 0%Z;
  sone := 1%Z;
  sadd := Z.add;
  ssub := Z.sub;
  smul := Z.mul;
  sdiv := Z.div
}.

(** ** The numpy operations the layers use *)

Module np.
Section Numpy.
Context {R : Type} `{Scalar R}.

(** A two-dimensional array: its shape and its elements in row-major
    order, as [flatten()] returns them. *)
Record matrix : Type := {
  shape : nat * nat;
  elems : list R
}.

Definition zeros (n : nat) : list R := repeat szero n.
Definition ones (n : nat) : list R := repeat sone n.

Definition zeros2 (dim : nat * nat) : matrix :=
  {| shape := dim; elems := repeat szero (fst dim * snd dim) |}.

(** [a[lo:hi]] on a one-dimensional array: out-of-range bounds are
    clipped, never an error. *)
Definition slice (a : list R) (lo hi : nat) : list R :=
  firstn (hi - lo) (skipn lo a).

(** [a[i]] on a one-dimensional array. *)
Definition index (a : list R) (i : nat) : result R :=
  match nth_error a i with
  | Some x => Ok x
  | None => Raise IndexError
  end.

(** [a.reshape(dim)] of a one-dimensional array. *)
Definition reshape2 (a : list R) (dim : nat * nat) : result matrix :=
  if length a =? fst dim * snd dim
  then Ok {| shape := dim; elems := a |}
  else Raise (ValueError "cannot reshape array").

Definition reshape1 (a : list R) (n : nat) : result (list R) :=
  if length a =? n then Ok a else Raise (ValueError "cannot reshape array").

Definition flatten (m : matrix) : list R := elems m.

(** Row [r] of a matrix. *)
Definition row (m : matrix) (r : nat) : list R :=
  firstn (snd (shape m)) (skipn (r * snd (shape m)) (elems m)).

Definition rows (m : matrix) : list (list R) :=
  map (row m) (seq 0 (fst (shape m))).

(** Inner product of two vectors of one length. *)
Fixpoint inner (u v : list R) : R :=
  match u, v with
  | a :: u', b :: v' => sadd (smul a b) (inner u' v')
  | _, _ => szero
  end.

(** [np.dot(m, v)], matrix times vector. *)
Definition dot (m : matrix) (v : list R) : result (list R) :=
  if snd (shape m) =? length v
  then Ok (map (fun r => inner r v) (rows m))
  else Raise (ValueError "shapes not aligned").

(** Column [c] of a matrix. *)
Definition col (m : matrix) (c : nat) : list R :=
  map (fun r => nth c r szero) (rows m).

(** [np.dot(a, b)], matrix times matrix. *)
Definition dot2 (a b : matrix) : result matrix :=
  if snd (shape a) =? fst (shape b)
  then Ok {| shape := (fst (shape a), snd (shape b));
             elems := flat_map (fun r => map (fun c => inner r (col b c))
                                            (seq 0 (snd (shape b))))
                               (rows a) |}
  else Raise (ValueError "shapes not aligned").

Fixpoint map2 (f : R -> R -> R) (u v : list R) : list R :=
  match u, v with
  | a :: u', b :: v' => f a b :: map2 f u' v'
  | _, _ => []
  end.

(** An element-wise binary operation on one-dimensional arrays, with
    numpy's broadcasting of a length-one operand. *)
Definition elementwise (f : R -> R -> R) (u v : list R) : result (list R) :=
  if length u =? length v then Ok (map2 f u v)
  else match u, v with
       | [a], _ => Ok (map (f a) v)
       | _, [b] => Ok (map (fun x => f x b) u)
       | _, _ => Raise (ValueError "operands could not be broadcast together")
       end.

Definition add (u v : list R) : result (list R) := elementwise sadd u v.
Definition multiply (u v : list R) : result (list R) := elementwise smul u v.

(** [np.insert(m, 0, v, axis=0)]. *)
Definition insert_row0 (m : matrix) (v : list R) : result matrix :=
  if (length v =? snd (shape m)) || (length v =? 1)
  then Ok {| shape := (S (fst (shape m)), snd (shape m));
             elems := (if length v =? snd (shape m) then v
                       else flat_map (fun x => repeat x (snd (shape m))) v)
                      ++ elems m |}
  else Raise (ValueError "could not broadcast input array").

(** [np.delete(m, r, axis=0)]. *)
Definition delete_row (m : matrix) (r : nat) : result matrix :=
  if r <? fst (shape m)
  then Ok {| shape := (fst (shape m) - 1, snd (shape m));
             elems := firstn (r * snd (shape m)) (elems m)
                      ++ skipn (S r * snd (shape m)) (elems m) |}
  else Raise IndexError.


End Numpy.

Arguments matrix R : clear implicits.
End np.

(** [np.random.rand]: the generator is a stream of scalars and a position
    in it; every draw advances the position. *)
Record RandomState (R : Type) : Type := {
  stream : nat -> R;
  position : nat
}.

Section Random.
Context {R : Type}.

Definition random_rand (n : nat) (g : RandomState R) : list R * RandomState R :=
  (map (stream g) (seq (position g) n),
   {| stream := stream g; position := position g + n |}).

Definition random_rand2 (dim : nat * nat) (g : RandomState R)
  : np.matrix R * RandomState R :=
  let '(v, g') := random_rand (fst dim * snd dim) g in
  ({| np.shape := dim; np.elems := v |}, g').
End Random.

(** * layers.py *)

(** The names bound at module level in layers.py: its imports and its
    classes.  A bare name in a method body that is neither a local of the
    method nor one of these (nor a builtin) raises [NameError] when it is
    evaluated; subscripting a module or a class raises [TypeError]. *)
Definition layers_globals : list string :=
  ["np"; "ActivationFunction"; "warnings"; "StaticLayer"; "TimeDelay";
   "TimeRecurrence"; "DynamicLayer"; "CTRNNLayer"; "RBFLayer"].

(** [name[0]] for a bare [name] that is not a local. *)
Definition global_subscript (name : string) : result nat :=
  if str_in name layers_globals
  then Raise (TypeError "object is not subscriptable")
  else Raise (NameError name).

(** [name] for a bare [name] that is not a local, used as a slice bound. *)
Definition global_load (name : string) : result nat :=
  if str_in name layers_globals
  then Raise (TypeError "slice indices must be integers")
  else Raise (NameError name).

Definition too_short : string :=
  "The parameter_vector consists of elements less than required".
Definition too_long : string :=
  "The parameter vector consists of elements greater than required".

(** [if len(parameter_vector) > counter: warnings.warn(...)]: the warnings
    the call emits. *)
Definition warn_if_longer (len counter : nat) : list string :=
  if counter <? len then [too_long] else [].

(** Modelled from the spec: the module [activation_functions] is not part of
    the sources.  An [ActivationFunction] is consumed through its capability
    contract only: it computes an activated vector from a vector and its two
    scalar parameters (gain, bias), and the two parameters can be read and
    set.  The parameters are held per layer here. *)
Module ActivationFunction.
Section Activation.
Context {R : Type}.

Record t : Type := {
  compute : R -> R -> list R -> list R;
  beta : R;
  theta : R
}.

Definition calculate_activation (self : t) (x : list R) : list R :=
  compute self (beta self) (theta self) x.

Definition set_parameters (self : t) (b th : R) : t :=
  {| compute := compute self; beta := b; theta := th |}.

Definition get_parameters (self : t) : list R := [beta self; theta self].

(** The identity activation: the parameters are ignored. *)
Definition identity (b th : R) : t :=
  {| compute := fun _ _ x => x; beta := b; theta := th |}.
End Activation.

Arguments t R : clear implicits.
End ActivationFunction.

(** Values passed where Python checks the type only when the value is used. *)
Inductive pyval (R : Type) : Type :=
| PyInt (n : nat)
| PyFloat (x : R)
| PyArray (v : list R)
| PyIntList (l : list nat)
| PyActivation (af : ActivationFunction.t R).

Arguments PyInt {R} n.
Arguments PyFloat {R} x.
Arguments PyArray {R} v.
Arguments PyIntList {R} l.
Arguments PyActivation {R} af.

(** ** StaticLayer *)

Module StaticLayer.
Section Static.
Context {R : Type} `{Scalar R}.

Record t : Type := {
  layer_name : string;
  weight_dim : nat * nat;
  bias_dim : nat;
  weight_matrix : np.matrix R;
  bias_vector : list R;
  activation_function : ActivationFunction.t R
}.

(** [__init__]: the weights and the bias are drawn at random.  The check
    that the activation function is an instance of [ActivationFunction]
    holds by the type of the argument. *)
Definition init (input_dim output_dim : nat)
    (activation : ActivationFunction.t R) (name : string)
    (g : RandomState R) : t * RandomState R :=
  let '(w, g1) := random_rand2 (output_dim, input_dim) g in
  let '(b, g2) := random_rand output_dim g1 in
  ({| layer_name := name;
      weight_dim := (output_dim, input_dim);
      bias_dim := output_dim;
      weight_matrix := w;
      bias_vector := b;
      activation_function := activation |}, g2).

Definition forward_propagate (self : t) (input_vector : list R)
  : result (list R) :=
  if negb (length input_vector =? snd (weight_dim self))
  then Raise (ValueError "The dimensions of input vector do not match!")
  else
    d <- np.dot (weight_matrix self) input_vector ;;
    output_vector <- np.add d (bias_vector self) ;;
    Ok (ActivationFunction.calculate_activation
          (activation_function self) output_vector).

Definition set_weight_matrix (self : t) (w : np.matrix R) : result t :=
  if negb ((fst (np.shape w) =? fst (weight_dim self))
           && (snd (np.shape w) =? snd (weight_dim self)))
  then Raise (ValueError "The dimensions of weight matrix do not match!")
  else Ok {| layer_name := layer_name self;
             weight_dim := weight_dim self;
             bias_dim := bias_dim self;
             weight_matrix := w;
             bias_vector := bias_vector self;
             activation_function := activation_function self |}.

Definition get_weight_matrix (self : t) : np.matrix R := weight_matrix self.

Definition set_bias_vector (self : t) (b : list R) : result t :=
  if negb (length b =? bias_dim self)
  then Raise (ValueError "The dimensions of bias vector do not match!")
  else Ok {| layer_name := layer_name self;
             weight_dim := weight_dim self;
             bias_dim := bias_dim self;
             weight_matrix := weight_matrix self;
             bias_vector := b;
             activation_function := activation_function self |}.

Definition get_bias_vector (self : t) : list R := bias_vector self.

Definition set_activation_parameters (self : t) (b th : R) : t :=
  {| layer_name := layer_name self;
     weight_dim := weight_dim self;
     bias_dim := bias_dim self;
     weight_matrix := weight_matrix self;
     bias_vector := bias_vector self;
     activation_function :=
       ActivationFunction.set_parameters (activation_function self) b th |}.

Definition get_activation_parameters (self : t) : list R :=
  ActivationFunction.get_parameters (activation_function self).

(** The body of the [try] block of [update_parameters]. *)
Definition update_parameters_body (self : t) (parameter_vector : list R)
    (weight_interval bias_interval : nat) : result (t * nat) :=
  let interval_counter := 0 in
  w <- np.reshape2 (np.slice parameter_vector interval_counter
                      (interval_counter + weight_interval))
                   (weight_dim self) ;;
  self1 <- set_weight_matrix self w ;;
  let interval_counter := interval_counter + weight_interval in
  b <- np.reshape1 (np.slice parameter_vector interval_counter
                      (interval_counter + bias_interval))
                   (bias_dim self) ;;
  self2 <- set_bias_vector self1 b ;;
  let interval_counter := interval_counter + bias_interval in
  a0 <- np.index parameter_vector interval_counter ;;
  a1 <- np.index parameter_vector (interval_counter + 1) ;;
  let self3 := set_activation_parameters self2 a0 a1 in
  Ok (self3, interval_counter + 2).

(** [update_parameters]: the updated layer and the warnings emitted.
    The bias interval is read from the bare name [bias_dim], before the
    [try] block. *)
Definition update_parameters (self : t) (parameter_vector : list R)
  : result (t * list string) :=
  let weight_interval := fst (weight_dim self) * snd (weight_dim self) in
  bias_interval <- global_subscript "bias_dim" ;;
  '(self', interval_counter) <-
    try_except_raise
      (update_parameters_body self parameter_vector
         weight_interval bias_interval)
      (ValueError too_short) ;;
  Ok (self', warn_if_longer (length parameter_vector) interval_counter).

Definition return_parameters (self : t) : list R :=
  let output := [] in
  let weight_vector := np.flatten (get_weight_matrix self) in
  let bias_vector := get_bias_vector self in
  let activation_vector := get_activation_parameters self in
  output ++ weight_vector ++ bias_vector ++ activation_vector.
End Static.

Arguments t R : clear implicits.
End StaticLayer.

(** ** TimeDelay *)

Module TimeDelay.
Section Delay.
Context {R : Type} `{Scalar R}.

Record t : Type := {
  weight_dim : nat * nat;
  input_matrix_dim : nat * nat;
  weight_vector : np.matrix R;
  input_matrix : np.matrix R
}.

(** [delay_dim] reaches [np.random.rand] and [np.zeros] as a dimension:
    anything but an integer is a [TypeError] there. *)
Definition init (input_dim : nat) (delay_dim : pyval R)
    (g : RandomState R) : result (t * RandomState R) :=
  match delay_dim with
  | PyInt d =>
      let '(w, g1) := random_rand2 (1, d) g in
      Ok ({| weight_dim := (1, d);
             input_matrix_dim := (d, input_dim);
             weight_vector := w;
             input_matrix := np.zeros2 (d, input_dim) |}, g1)
  | _ => Raise (TypeError "object cannot be interpreted as an integer")
  end.

Definition forward_propagate (self : t) (input_vector : list R)
  : result (list R * t) :=
  if negb (length input_vector =? snd (input_matrix_dim self))
  then Raise (ValueError "The dimensions of the input vector do not match!")
  else
    m1 <- np.insert_row0 (input_matrix self) input_vector ;;
    m2 <- np.delete_row m1 (fst (np.shape m1) - 1) ;;
    out <- np.dot2 (weight_vector self) m2 ;;
    Ok (np.flatten out,
        {| weight_dim := weight_dim self;
           input_matrix_dim := input_matrix_dim self;
           weight_vector := weight_vector self;
           input_matrix := m2 |}).

Definition get_weight_vector (self : t) : np.matrix R := weight_vector self.

Definition set_weight_vector (self : t) (w : np.matrix R) : result t :=
  if negb ((fst (np.shape w) =? fst (weight_dim self))
           && (snd (np.shape w) =? snd (weight_dim self)))
  then Raise (ValueError "THe dimensions of the weight vector do not match!")
  else Ok {| weight_dim := weight_dim self;
             input_matrix_dim := input_matrix_dim self;
             weight_vector := w;
             input_matrix := input_matrix self |}.

Definition get_weight_vector_dim (self : t) : nat * nat := weight_dim self.
End Delay.

Arguments t R : clear implicits.
End TimeDelay.

(** ** TimeRecurrence *)

Module TimeRecurrence.
Section Recurrence.
Context {R : Type} `{Scalar R}.

Record t : Type := {
  weight_dim : nat * nat;
  weight_matrix : np.matrix R;
  input_vector : list R
}.

Definition init (input_dim output_dim : nat) (g : RandomState R)
  : t * RandomState R :=
  let '(w, g1) := random_rand2 (output_dim, input_dim) g in
  ({| weight_dim := (output_dim, input_dim);
      weight_matrix := w;
      input_vector := np.zeros input_dim |}, g1).

Definition forward_propagate (self : t) : result (list R) :=
  np.dot (weight_matrix self) (input_vector self).

Definition get_weight_matrix (self : t) : np.matrix R := weight_matrix self.

Definition set_weight_matrix (self : t) (w : np.matrix R) : result t :=
  if negb ((fst (np.shape w) =? fst (weight_dim self))
           && (snd (np.shape w) =? snd (weight_dim self)))
  then Raise (ValueError "THe dimensions of the weight matrix do not match!")
  else Ok {| weight_dim := weight_dim self;
             weight_matrix := w;
             input_vector := input_vector self |}.

Definition set_input_vector (self : t) (v : list R) : result t :=
  if negb (length v =? snd (weight_dim self))
  then Raise (ValueError "The dimensions of the input vector are not correct!")
  else Ok {| weight_dim := weight_dim self;
             weight_matrix := weight_matrix self;
             input_vector := v |}.

Definition get_weight_matrix_dim (self : t) : nat * nat := weight_dim self.
End Recurrence.

Arguments t R : clear implicits.
End TimeRecurrence.

(** ** DynamicLayer *)

Module DynamicLayer.
Section Dynamic.
Context {R : Type} `{Scalar R}.

Record t : Type := {
  layer_name : string;
  weight_dim : nat * nat;
  bias_dim : nat;
  weight_matrix : np.matrix R;
  bias_vector : list R;
  delay_system : TimeDelay.t R;
  recurrent_system : list (TimeRecurrence.t R);
  activation_function : ActivationFunction.t R
}.

(** [for dimension in recurrent_dim]: the value has to be iterable. *)
Definition iterate (recurrent_dim : pyval R) : result (list (pyval R)) :=
  match recurrent_dim with
  | PyIntList l => Ok (map PyInt l)
  | PyArray v => Ok (map PyFloat v)
  | _ => Raise (TypeError "object is not iterable")
  end.

(** [self.recurrent_system.append(TimeRecurrence(dimension, output_dim))]
    for every [dimension]; a dimension reaches [np.random.rand] and has to
    be an integer. *)
Fixpoint init_recurrent (dims : list (pyval R)) (output_dim : nat)
    (g : RandomState R)
  : result (list (TimeRecurrence.t R) * RandomState R) :=
  match dims with
  | [] => Ok ([], g)
  | PyInt d :: dims' =>
      let '(r, g1) := TimeRecurrence.init d output_dim g in
      '(rs, g2) <- init_recurrent dims' output_dim g1 ;;
      Ok (r :: rs, g2)
  | _ :: _ => Raise (TypeError "object cannot be interpreted as an integer")
  end.

Definition init (input_dim output_dim : nat)
    (delay_dim recurrent_dim activation : pyval R) (name : string)
    (g : RandomState R) : result (t * RandomState R) :=
  let '(w, g1) := random_rand2 (output_dim, input_dim) g in
  let '(b, g2) := random_rand output_dim g1 in
  '(delay, g3) <- TimeDelay.init input_dim delay_dim g2 ;;
  dims <- iterate recurrent_dim ;;
  '(rec, g4) <- init_recurrent dims output_dim g3 ;;
  match activation with
  | PyActivation af =>
      Ok ({| layer_name := name;
             weight_dim := (output_dim, input_dim);
             bias_dim := output_dim;
             weight_matrix := w;
             bias_vector := b;
             delay_system := delay;
             recurrent_system := rec;
             activation_function := af |}, g4)
  | _ => Raise (TypeError
      "The activation function has to be an instance of ActivationFunction class")
  end.

Definition with_weight_matrix (self : t) (w : np.matrix R) : t :=
  {| layer_name := layer_name self; weight_dim := weight_dim self;
     bias_dim := bias_dim self; weight_matrix := w;
     bias_vector := bias_vector self; delay_system := delay_system self;
     recurrent_system := recurrent_system self;
     activation_function := activation_function self |}.

Definition with_bias_vector (self : t) (b : list R) : t :=
  {| layer_name := layer_name self; weight_dim := weight_dim self;
     bias_dim := bias_dim self; weight_matrix := weight_matrix self;
     bias_vector := b; delay_system := delay_system self;
     recurrent_system := recurrent_system self;
     activation_function := activation_function self |}.

Definition with_delay_system (self : t) (d : TimeDelay.t R) : t :=
  {| layer_name := layer_name self; weight_dim := weight_dim self;
     bias_dim := bias_dim self; weight_matrix := weight_matrix self;
     bias_vector := bias_vector self; delay_system := d;
     recurrent_system := recurrent_system self;
     activation_function := activation_function self |}.

Definition with_recurrent_system (self : t) (rs : list (TimeRecurrence.t R)) : t :=
  {| layer_name := layer_name self; weight_dim := weight_dim self;
     bias_dim := bias_dim self; weight_matrix := weight_matrix self;
     bias_vector := bias_vector self; delay_system := delay_system self;
     recurrent_system := rs;
     activation_function := activation_function self |}.

(** The loop over the recurrent systems in [forward_propagate]. *)
Fixpoint add_recurrent (rs : list (TimeRecurrence.t R))
    (intermediate_output : list R) : result (list R) :=
  match rs with
  | [] => Ok intermediate_output
  | recurrence :: rs' =>
      r <- TimeRecurrence.forward_propagate recurrence ;;
      s <- np.add intermediate_output r ;;
      add_recurrent rs' s
  end.

Definition forward_propagate (self : t) (input_vector : list R)
  : result (list R * t) :=
  if negb (length input_vector =? snd (weight_dim self))
  then Raise (ValueError "THe input dimensions do not match as specified earlier!")
  else
    '(delayed, delay') <-
      TimeDelay.forward_propagate (delay_system self) input_vector ;;
    let self' := with_delay_system self delay' in
    d <- np.dot (weight_matrix self') delayed ;;
    s <- np.add d (bias_vector self') ;;
    intermediate_output <- add_recurrent (recurrent_system self') s ;;
    Ok (ActivationFunction.calculate_activation
          (activation_function self') intermediate_output, self').

Definition set_weight_matrix (self : t) (w : np.matrix R) : result t :=
  if negb ((fst (np.shape w) =? fst (weight_dim self))
           && (snd (np.shape w) =? snd (weight_dim self)))
  then Raise (ValueError "THe dimensions of the weight matrix do not match!")
  else Ok (with_weight_matrix self w).

Definition get_weight_matrix (self : t) : np.matrix R := weight_matrix self.

Definition set_bias_vector (self : t) (b : list R) : result t :=
  if negb (length b =? bias_dim self)
  then Raise (ValueError "The dimensions of the bias vector do not match!")
  else Ok (with_bias_vector self b).

Definition get_bias_vector (self : t) : list R := bias_vector self.

Definition get_delay_weight_dim (self : t) : nat * nat :=
  TimeDelay.get_weight_vector_dim (delay_system self).

Definition set_delay_weight_vector (self : t) (w : np.matrix R) : result t :=
  let correct_dimensions := TimeDelay.get_weight_vector_dim (delay_system self) in
  if negb ((fst (np.shape w) =? fst correct_dimensions)
           && (snd (np.shape w) =? snd correct_dimensions))
  then Raise (ValueError "The dimensions of delay weight vector do not match!")
  else
    d <- TimeDelay.set_weight_vector (delay_system self) w ;;
    Ok (with_delay_system self d).

Definition get_delay_weight_vector (self : t) : np.matrix R :=
  TimeDelay.get_weight_vector (delay_system self).

(** [self.recurrent_system[index]]. *)
Definition recurrent_item (self : t) (index : nat)
  : result (TimeRecurrence.t R) :=
  match nth_error (recurrent_system self) index with
  | Some r => Ok r
  | None => Raise IndexError
  end.

Definition get_recurrent_weight_dim (self : t) (index : nat)
  : result (nat * nat) :=
  r <- recurrent_item self index ;;
  Ok (TimeRecurrence.get_weight_matrix_dim r).

(** [self.get_recurrent_weight_dim()]: the call of [update_parameters],
    which leaves the parameter [index] out. *)
Definition get_recurrent_weight_dim_no_index (self : t)
  : result (nat * nat) :=
  Raise (TypeError
    "get_recurrent_weight_dim() missing 1 required positional argument: 'index'").

Definition set_recurrent_weight_matrix (self : t) (w : np.matrix R)
    (index : nat) : result t :=
  r <- recurrent_item self index ;;
  let correct_dimensions := TimeRecurrence.get_weight_matrix_dim r in
  if negb ((fst (np.shape w) =? fst correct_dimensions)
           && (snd (np.shape w) =? snd correct_dimensions))
  then Raise (ValueError "The dimensions of weight matrix do not match!")
  else
    r' <- TimeRecurrence.set_weight_matrix r w ;;
    Ok (with_recurrent_system self
          (replace_nth (recurrent_system self) index r')).

Definition get_recurrent_weight_matrix (self : t) (index : nat)
  : result (np.matrix R) :=
  r <- recurrent_item self index ;;
  Ok (TimeRecurrence.get_weight_matrix r).

Definition set_activation_parameters (self : t) (b th : R) : t :=
  {| layer_name := layer_name self; weight_dim := weight_dim self;
     bias_dim := bias_dim self; weight_matrix := weight_matrix self;
     bias_vector := bias_vector self; delay_system := delay_system self;
     recurrent_system := recurrent_system self;
     activation_function :=
       ActivationFunction.set_parameters (activation_function self) b th |}.

Definition get_activation_parameters (self : t) : list R :=
  ActivationFunction.get_parameters (activation_function self).

Definition set_recurrent_input (self : t) (input_vector : list R)
    (index : nat) : result t :=
  r <- recurrent_item self index ;;
  let correct_dimensions := TimeRecurrence.get_weight_matrix_dim r in
  if negb (length input_vector =? snd correct_dimensions)
  then Raise (ValueError "THe dimensions do not match!")
  else
    r' <- TimeRecurrence.set_input_vector r input_vector ;;
    Ok (with_recurrent_system self
          (replace_nth (recurrent_system self) index r')).

(** The loop [for index in range(len(self.recurrent_system))] of
    [update_parameters]. *)
Fixpoint update_recurrent (indices : list nat) (parameter_vector : list R)
    (st : t * nat) : result (t * nat) :=
  match indices with
  | [] => Ok st
  | index :: indices' =>
      let '(self, interval_counter) := st in
      recurrent_dim <- get_recurrent_weight_dim_no_index self ;;
      let recurrent_interval := fst recurrent_dim * snd recurrent_dim in
      w <- np.reshape2 (np.slice parameter_vector interval_counter
                          (interval_counter + recurrent_interval))
                       recurrent_dim ;;
      self1 <- set_recurrent_weight_matrix self w index ;;
      update_recurrent indices' parameter_vector
        (self1, interval_counter + recurrent_interval)
  end.

(** The body of the [try] block of [update_parameters]. *)
Definition update_parameters_body (self : t) (parameter_vector : list R)
  : result (t * nat) :=
  let interval_counter := 0 in
  let delay_dim := get_delay_weight_dim self in
  let delay_interval := fst delay_dim * snd delay_dim in
  dw <- np.reshape2 (np.slice parameter_vector interval_counter
                       (interval_counter + delay_interval)) delay_dim ;;
  self1 <- set_delay_weight_vector self dw ;;
  let interval_counter := interval_counter + delay_interval in
  '(self2, interval_counter) <-
    update_recurrent (seq 0 (length (recurrent_system self1)))
      parameter_vector (self1, interval_counter) ;;
  let weight_interval := fst (weight_dim self2) * snd (weight_dim self2) in
  w <- np.reshape2 (np.slice parameter_vector interval_counter
                      (interval_counter + weight_interval))
                   (weight_dim self2) ;;
  self3 <- set_weight_matrix self2 w ;;
  let interval_counter := interval_counter + weight_interval in
  let bias_interval := bias_dim self3 in
  b <- np.reshape1 (np.slice parameter_vector interval_counter
                      (interval_counter + bias_interval))
                   (bias_dim self3) ;;
  self4 <- set_bias_vector self3 b ;;
  let interval_counter := interval_counter + bias_interval in
  let activation_interval := 2 in
  a0 <- np.index parameter_vector interval_counter ;;
  a1 <- np.index parameter_vector (interval_counter + 1) ;;
  let self5 := set_activation_parameters self4 a0 a1 in
  Ok (self5, interval_counter + activation_interval).

Definition update_parameters (self : t) (parameter_vector : list R)
  : result (t * list string) :=
  '(self', interval_counter) <-
    try_except_raise (update_parameters_body self parameter_vector)
      (ValueError too_short) ;;
  Ok (self', warn_if_longer (length parameter_vector) interval_counter).

(** The loop of [return_parameters] over the recurrent systems. *)
Fixpoint collect_recurrent (self : t) (indices : list nat)
    (weight_vector_recurrent : list R) : result (list R) :=
  match indices with
  | [] => Ok weight_vector_recurrent
  | index :: indices' =>
      w <- get_recurrent_weight_matrix self index ;;
      collect_recurrent self indices'
        (weight_vector_recurrent ++ np.flatten w)
  end.

(** The vector [return_parameters] builds in its local [output]. *)
Definition return_parameters_output (self : t) : result (list R) :=
  let output := [] in
  let weight_vector_delay := np.flatten (get_delay_weight_vector self) in
  weight_vector_recurrent <-
    collect_recurrent self (seq 0 (length (recurrent_system self))) [] ;;
  let weight_vector_static := np.flatten (get_weight_matrix self) in
  let bias_vector := get_bias_vector self in
  let activation_vector := get_activation_parameters self in
  Ok (output ++ weight_vector_delay ++ weight_vector_recurrent
      ++ weight_vector_static ++ bias_vector ++ activation_vector).

(** [return_parameters]: the method ends after the assignment to
    [output], without a [return] statement, so the caller receives
    [None]. *)
Definition return_parameters (self : t) : result (option (list R)) :=
  output <- return_parameters_output self ;;
  Ok None.
End Dynamic.

Arguments t R : clear implicits.
End DynamicLayer.

(** ** CTRNNLayer *)

Module CTRNNLayer.
Section CTRNN.
Context {R : Type} `{Scalar R}.

Record t : Type := {
  layer_name : string;
  weight_dim : nat * nat;
  bias_dim : nat;
  time_dim : nat;
  weight_matrix : np.matrix R;
  bias_vector : list R;
  time_interval : R;
  time_constant : list R;
  time_weight : list R;
  activation_function : ActivationFunction.t R;
  previous_output : list R
}.

(** [float(time_interval) / np.array(time_constant)], for a list of time
    constants. *)
Definition weights_of (dt : R) (tc : list R) : list R := map (sdiv dt) tc.

Definition init (input_dim output_dim : nat) (dt : R) (tc : list R)
    (activation : ActivationFunction.t R) (name : string)
    (g : RandomState R) : result (t * RandomState R) :=
  let '(w, g1) := random_rand2 (output_dim, input_dim) g in
  let '(b, g2) := random_rand output_dim g1 in
  let tw := weights_of dt tc in
  if negb (length tw =? output_dim)
  then Raise (ValueError "The dimension of time constant list is incorrect")
  else Ok ({| layer_name := name;
              weight_dim := (output_dim, input_dim);
              bias_dim := output_dim;
              time_dim := output_dim;
              weight_matrix := w;
              bias_vector := b;
              time_interval := dt;
              time_constant := tc;
              time_weight := tw;
              activation_function := activation;
              previous_output := np.zeros output_dim |}, g2).

Definition with_previous_output (self : t) (out : list R) : t :=
  {| layer_name := layer_name self; weight_dim := weight_dim self;
     bias_dim := bias_dim self; time_dim := time_dim self;
     weight_matrix := weight_matrix self; bias_vector := bias_vector self;
     time_interval := time_interval self;
     time_constant := time_constant self; time_weight := time_weight self;
     activation_function := activation_function self;
     previous_output := out |}.

(** [euler_step]: the output, and the layer with the output stored. *)
Definition euler_step (self : t) (input_vector : list R)
  : result (list R * t) :=
  if negb (length input_vector =? snd (weight_dim self))
  then Raise (ValueError "The dimensions of input vector do not match!")
  else
    d <- np.dot (weight_matrix self) input_vector ;;
    s <- np.add d (bias_vector self) ;;
    let current_activation :=
      ActivationFunction.calculate_activation (activation_function self) s in
    keep <- np.multiply (previous_output self)
              (map (ssub sone) (time_weight self)) ;;
    fresh <- np.multiply current_activation (time_weight self) ;;
    current_output <- np.add keep fresh ;;
    Ok (current_output, with_previous_output self current_output).

Definition set_weight_matrix (self : t) (w : np.matrix R) : result t :=
  if negb ((fst (np.shape w) =? fst (weight_dim self))
           && (snd (np.shape w) =? snd (weight_dim self)))
  then Raise (ValueError "The dimensions of the weight matrix do not match")
  else Ok {| layer_name := layer_name self; weight_dim := weight_dim self;
             bias_dim := bias_dim self; time_dim := time_dim self;
             weight_matrix := w; bias_vector := bias_vector self;
             time_interval := time_interval self;
             time_constant := time_constant self;
             time_weight := time_weight self;
             activation_function := activation_function self;
             previous_output := previous_output self |}.

Definition get_weight_matrix (self : t) : np.matrix R := weight_matrix self.

Definition set_bias_vector (self : t) (b : list R) : result t :=
  if negb (length b =? bias_dim self)
  then Raise (ValueError "The dimensions of the bias vector do not match!")
  else Ok {| layer_name := layer_name self; weight_dim := weight_dim self;
             bias_dim := bias_dim self; time_dim := time_dim self;
             weight_matrix := weight_matrix self; bias_vector := b;
             time_interval := time_interval self;
             time_constant := time_constant self;
             time_weight := time_weight self;
             activation_function := activation_function self;
             previous_output := previous_output self |}.

Definition get_bias_vector (self : t) : list R := bias_vector self.

Definition set_time_constant (self : t) (tc : list R) : result t :=
  if negb (length tc =? time_dim self)
  then Raise (ValueError "The dimension of time constant list is not correct!")
  else Ok {| layer_name := layer_name self; weight_dim := weight_dim self;
             bias_dim := bias_dim self; time_dim := time_dim self;
             weight_matrix := weight_matrix self;
             bias_vector := bias_vector self;
             time_interval := time_interval self;
             time_constant := tc;
             time_weight := weights_of (time_interval self) tc;
             activation_function := activation_function self;
             previous_output := previous_output self |}.

Definition get_time_constant (self : t) : list R := time_constant self.

Definition set_activation_parameters (self : t) (b th : R) : t :=
  {| layer_name := layer_name self; weight_dim := weight_dim self;
     bias_dim := bias_dim self; time_dim := time_dim self;
     weight_matrix := weight_matrix self; bias_vector := bias_vector self;
     time_interval := time_interval self;
     time_constant := time_constant self; time_weight := time_weight self;
     activation_function :=
       ActivationFunction.set_parameters (activation_function self) b th;
     previous_output := previous_output self |}.

Definition get_activation_parameters (self : t) : list R :=
  ActivationFunction.get_parameters (activation_function self).

(** The body of the [try] block of [update_parameters]. *)
Definition update_parameters_body (self : t) (parameter_vector : list R)
    (time_interval weight_interval bias_interval : nat) : result (t * nat) :=
  let interval_counter := 0 in
  tc <- np.reshape1 (np.slice parameter_vector interval_counter
                       (interval_counter + time_interval))
                    (time_dim self) ;;
  self0 <- set_time_constant self tc ;;
  let interval_counter := interval_counter + time_interval in
  w <- np.reshape2 (np.slice parameter_vector interval_counter
                      (interval_counter + weight_interval))
                   (weight_dim self0) ;;
  self1 <- set_weight_matrix self0 w ;;
  let interval_counter := interval_counter + weight_interval in
  b <- np.reshape1 (np.slice parameter_vector interval_counter
                      (interval_counter + bias_interval))
                   (bias_dim self1) ;;
  self2 <- set_bias_vector self1 b ;;
  let interval_counter := interval_counter + bias_interval in
  a0 <- np.index parameter_vector interval_counter ;;
  a1 <- np.index parameter_vector (interval_counter + 1) ;;
  let self3 := set_activation_parameters self2 a0 a1 in
  Ok (self3, interval_counter + 2).

(** As in [StaticLayer], the bias interval is read from the bare name
    [bias_dim], before the [try] block. *)
Definition update_parameters (self : t) (parameter_vector : list R)
  : result (t * list string) :=
  let time_interval := time_dim self in
  let weight_interval := fst (weight_dim self) * snd (weight_dim self) in
  bias_interval <- global_subscript "bias_dim" ;;
  '(self', interval_counter) <-
    try_except_raise
      (update_parameters_body self parameter_vector
         time_interval weight_interval bias_interval)
      (ValueError too_short) ;;
  Ok (self', warn_if_longer (length parameter_vector) interval_counter).

(** [self.get_time_constant.flatten()]: the method itself, not its
    result, is asked for [flatten]. *)
Definition return_parameters (self : t) : result (list R) :=
  time_vector <- (Raise (AttributeError
      "'function' object has no attribute 'flatten'") : result (list R)) ;;
  let weight_vector := np.flatten (get_weight_matrix self) in
  let bias_vector := get_bias_vector self in
  let activation_vector := get_activation_parameters self in
  Ok ([] ++ time_vector ++ weight_vector ++ bias_vector ++ activation_vector).
End CTRNN.

Arguments t R : clear implicits.
End CTRNNLayer.

(** ** RBFLayer *)

Module RBFLayer.
Section RBF.
Context {R : Type} `{Scalar R}.

Record t : Type := {
  layer_name : string;
  center_dim : nat * nat;
  center_matrix : np.matrix R;
  distance_function : list R -> np.matrix R -> list R;
  basis_function : list R -> R -> list R;
  parameter : R
}.

Definition init (input_dim output_dim : nat)
    (distance : list R -> np.matrix R -> list R)
    (basis : list R -> R -> list R) (param : R) (name : string)
    (g : RandomState R) : t * RandomState R :=
  let '(c, g1) := random_rand2 (output_dim, input_dim) g in
  ({| layer_name := name;
      center_dim := (output_dim, input_dim);
      center_matrix := c;
      distance_function := distance;
      basis_function := basis;
      parameter := param |}, g1).

Definition forward_propagate (self : t) (input_vector : list R)
  : result (list R) :=
  if negb (length input_vector =? snd (center_dim self))
  then Raise (ValueError "The dimensions of input vector do not match!")
  else
    let distance_vector :=
      distance_function self input_vector (center_matrix self) in
    Ok (basis_function self distance_vector (parameter self)).

Definition set_center_matrix (self : t) (c : np.matrix R) : result t :=
  if negb ((fst (np.shape c) =? fst (center_dim self))
           && (snd (np.shape c) =? snd (center_dim self)))
  then Raise (ValueError "The dimensions of the center matrix do not match!")
  else Ok {| layer_name := layer_name self; center_dim := center_dim self;
             center_matrix := c;
             distance_function := distance_function self;
             basis_function := basis_function self;
             parameter := parameter self |}.

Definition get_center_matrix (self : t) : np.matrix R := center_matrix self.

(** The slice bound is the bare name [interval], inside the [try]. *)
Definition update_parameters (self : t) (parameter_vector : list R)
  : result (t * list string) :=
  self' <-
    try_except_raise
      (interval <- global_load "interval" ;;
       c <- np.reshape2 (np.slice parameter_vector 0 interval)
              (center_dim self) ;;
       set_center_matrix self c)
      (ValueError "The parameter vector consists of elements less than required") ;;
  Ok (self', warn_if_longer (length parameter_vector)
               (fst (center_dim self) * snd (center_dim self))).

(** [self.rbf_layer.get_center_matrix().flatten()]: the layer has no
    attribute [rbf_layer]. *)
Definition return_parameters (self : t) : result (list R) :=
  rbf_layer <- (Raise (AttributeError
      "'RBFLayer' object has no attribute 'rbf_layer'") : result t) ;;
  Ok (np.flatten (get_center_matrix rbf_layer)).
End RBF.

Arguments t R : clear implicits.
End RBFLayer.

(** * ann.py *)

Module ArtificialNeuralNetwork.
Section ANN.
Context {R : Type} `{Scalar R}.

(** An element of [layer_vector]: the tuple
    [(name, size, kind, activation, sensor, outputs, delayed)],
    indices 0 to 6. *)
Record LayerSpec : Type := {
  name : string;
  size : nat;
  kind : string;
  activation : ActivationFunction.t R;
  sensor : string;
  outputs : list string;
  delayed : list string
}.

(** The objects [__layer_map] can hold: ann.py imports [StaticLayer] and
    [DynamicLayer] only. *)
Inductive Layer : Type :=
| Static (l : StaticLayer.t R)
| Dynamic (l : DynamicLayer.t R).

(** The nodes of the TensorFlow graph the builder creates. *)
Inductive tensor : Type :=
| constant (v : list R)
| placeholder (id : nat)
| variable (layer : string)
| concat (a b : tensor)
| numpy_function (layer : string) (input_vector sensor_input : tensor).

Record t : Type := {
  number_of_layers : nat;
  order_of_execution : list LayerSpec;
  time_interval : R;
  input_connections : PyDict.t (list (string * bool));
  output_connections : PyDict.t (list string);
  sensor_inputs : PyDict.t nat;
  output_layers : list string;
  input_layers : list string;
  level_vector : list (list string);
  output_matrix : PyDict.t tensor;
  state_matrix : PyDict.t tensor;
  state : PyDict.t (list R);
  layer_map : PyDict.t Layer;
  neuron_map : PyDict.t nat;
  placeholders : nat;
  random_state : RandomState R
}.

(** ** _construct_layers *)

(** Lines 163-170: the output connections of one layer, inverted. *)
Fixpoint invert_outputs (layer : LayerSpec) (outs : list string)
    (ic : PyDict.t (list (string * bool))) : PyDict.t (list (string * bool)) :=
  match outs with
  | [] => ic
  | output_layer :: outs' =>
      let layer_tuple := (name layer, str_in output_layer (delayed layer)) in
      let ic' :=
        match PyDict.get ic output_layer with
        | Some l => PyDict.set ic output_layer (l ++ [layer_tuple])
        | None => PyDict.set ic output_layer [layer_tuple]
        end in
      invert_outputs layer outs' ic'
  end.

(** The three dictionaries the first loop fills. *)
Record connections : Type := {
  c_neuron_map : PyDict.t nat;
  c_output : PyDict.t (list string);
  c_input : PyDict.t (list (string * bool))
}.

(** Lines 155-170. *)
Fixpoint record_connections (layer_vector : list LayerSpec) (c : connections)
  : connections :=
  match layer_vector with
  | [] => c
  | layer :: rest =>
      record_connections rest
        {| c_neuron_map := PyDict.set (c_neuron_map c) (name layer) (size layer);
           c_output := PyDict.set (c_output c) (name layer) (outputs layer);
           c_input := invert_outputs layer (outputs layer) (c_input c) |}
  end.

(** The loop [input_dimension = input_dimension + neuron_map[connection[0]]]. *)
Fixpoint sum_sizes (nm : PyDict.t nat) (conns : list (string * bool))
    (input_dimension : nat) : result nat :=
  match conns with
  | [] => Ok input_dimension
  | connection :: conns' =>
      n <- PyDict.item nm (fst connection) ;;
      sum_sizes nm conns' (input_dimension + n)
  end.

(** What the second loop mutates. *)
Record built : Type := {
  b_layer_map : PyDict.t Layer;
  b_input_layers : list string;
  b_level_vector : list (list string);
  b_random : RandomState R
}.

(** [self.__level_vector[0].append(x)]. *)
Definition append_level (lv : list (list string)) (i : nat) (x : string)
  : result (list (list string)) :=
  match nth_error lv i with
  | Some l => Ok (replace_nth lv i (l ++ [x]))
  | None => Raise IndexError
  end.

(** The [try] / [except] that computes the input dimension of a layer:
    the dimension, and the input layers and levels after it. *)
Definition input_dimension_of (c : connections) (layer : LayerSpec) (b : built)
  : result (nat * list string * list (list string)) :=
  match (conns <- PyDict.item (c_input c) (name layer) ;;
         sum_sizes (c_neuron_map c) conns 0) with
  | Ok input_dimension =>
      Ok (input_dimension, b_input_layers b, b_level_vector b)
  | Raise _ =>
      lv <- append_level (b_level_vector b) 0 (name layer) ;;
      Ok (size layer, b_input_layers b ++ [name layer], lv)
  end.

(** Lines 174-219: one iteration of the loop that generates the layers. *)
Definition generate_layer (dt : R) (c : connections) (layer : LayerSpec)
    (b : built) : result built :=
  if String.eqb (kind layer) "STATIC" then
    '(input_dimension, il, lv) <- input_dimension_of c layer b ;;
    let output_dimension := size layer in
    let '(l, g) := StaticLayer.init input_dimension output_dimension
                     (activation layer) (name layer) (b_random b) in
    Ok {| b_layer_map := PyDict.set (b_layer_map b) (name layer) (Static l);
          b_input_layers := il;
          b_level_vector := lv;
          b_random := g |}
  else if String.eqb (kind layer) "DYNAMIC" then
    '(input_dimension, il, lv) <- input_dimension_of c layer b ;;
    let output_dimension := size layer in
    '(l, g) <- DynamicLayer.init input_dimension output_dimension
                 (PyActivation (activation layer)) (PyFloat dt)
                 (PyArray (np.ones output_dimension)) (name layer)
                 (b_random b) ;;
    Ok {| b_layer_map := PyDict.set (b_layer_map b) (name layer) (Dynamic l);
          b_input_layers := il;
          b_level_vector := lv;
          b_random := g |}
  else Ok b.

Fixpoint generate_layers (dt : R) (c : connections)
    (layer_vector : list LayerSpec) (b : built) : result built :=
  match layer_vector with
  | [] => Ok b
  | layer :: rest =>
      b' <- generate_layer dt c layer b ;;
      generate_layers dt c rest b'
  end.

(** Lines 222-227: the names that receive a connection and are no key of
    [__output_connections]. *)
Definition hardware_layers (c : connections) : list string :=
  filter (fun layers => negb (str_in layers (PyDict.keys (c_output c))))
         (PyDict.keys (c_input c)).

Definition _construct_layers (self : t) (layer_vector : list LayerSpec)
  : result t :=
  let c := record_connections layer_vector
             {| c_neuron_map := PyDict.empty;
                c_output := output_connections self;
                c_input := input_connections self |} in
  b <- generate_layers (time_interval self) c layer_vector
         {| b_layer_map := PyDict.empty;
            b_input_layers := input_layers self;
            b_level_vector := level_vector self;
            b_random := random_state self |} ;;
  Ok {| number_of_layers := number_of_layers self;
        order_of_execution := order_of_execution self;
        time_interval := time_interval self;
        input_connections := c_input c;
        output_connections := c_output c;
        sensor_inputs := sensor_inputs self;
        output_layers := output_layers self ++ hardware_layers c;
        input_layers := b_input_layers b;
        level_vector := b_level_vector b;
        output_matrix := output_matrix self;
        state_matrix := state_matrix self;
        state := state self;
        layer_map := b_layer_map b;
        neuron_map := c_neuron_map c;
        placeholders := placeholders self;
        random_state := b_random b |}.

(** ** _construct_graph *)

(** The attributes and the locals the loops of [_construct_graph] mutate. *)
Record locals : Type := {
  l_level_vector : list (list string);
  l_sensor_inputs : PyDict.t nat;
  l_output_matrix : PyDict.t tensor;
  l_placeholders : nat;
  new_error_queue : list string;
  layers_generated : nat;
  layers_done : PyDict.t bool
}.

Definition with_queue (st : locals) (q : list string) : locals :=
  {| l_level_vector := l_level_vector st;
     l_sensor_inputs := l_sensor_inputs st;
     l_output_matrix := l_output_matrix st;
     l_placeholders := l_placeholders st;
     new_error_queue := q;
     layers_generated := layers_generated st;
     layers_done := layers_done st |}.

Definition with_done (st : locals) (d : PyDict.t bool) : locals :=
  {| l_level_vector := l_level_vector st;
     l_sensor_inputs := l_sensor_inputs st;
     l_output_matrix := l_output_matrix st;
     l_placeholders := l_placeholders st;
     new_error_queue := new_error_queue st;
     layers_generated := layers_generated st;
     layers_done := d |}.

(** [self.__sensor_inputs[layer] = tf.compat.v1.placeholder(tf.float64)]:
    a fresh placeholder. *)
Definition new_placeholder (st : locals) (layer : string) : locals :=
  {| l_level_vector := l_level_vector st;
     l_sensor_inputs := PyDict.set (l_sensor_inputs st) layer (l_placeholders st);
     l_output_matrix := l_output_matrix st;
     l_placeholders := S (l_placeholders st);
     new_error_queue := new_error_queue st;
     layers_generated := layers_generated st;
     layers_done := layers_done st |}.

(** [self.__level_vector[current_level + 1].append(connection)] in its
    [try], with the handler that opens a new level and appends again. *)
Definition push_level (lv : list (list string)) (current_level : nat)
    (connection : string) : result (list (list string)) :=
  match append_level lv (current_level + 1) connection with
  | Ok lv' => Ok lv'
  | Raise _ => append_level (lv ++ [[]]) (current_level + 1) connection
  end.

(** Lines 298-309: the loop over the input connections of [layer].  A
    non-delayed source that is no key of the output matrix appends
    [layer] to the new error queue, and the loop goes on with the next
    connection. *)
Fixpoint gather_inputs (self : t) (om : PyDict.t tensor) (layer : string)
    (conns : list (string * bool)) (input_vector : tensor)
    (queue : list string) : result (tensor * list string) :=
  match conns with
  | [] => Ok (input_vector, queue)
  | connection :: conns' =>
      if snd connection then
        s <- PyDict.item (state_matrix self) (fst connection) ;;
        gather_inputs self om layer conns' (concat input_vector s) queue
      else
        match PyDict.get om (fst connection) with
        | Some o =>
            gather_inputs self om layer conns' (concat input_vector o) queue
        | None =>
            gather_inputs self om layer conns' input_vector (queue ++ [layer])
        end
  end.

(** Lines 321-330: the output connections of a generated layer enter the
    next level, unless they are hardware or already done. *)
Fixpoint push_outputs (self : t) (current_level : nat) (outs : list string)
    (lv : list (list string)) (done : PyDict.t bool)
  : result (list (list string) * PyDict.t bool) :=
  match outs with
  | [] => Ok (lv, done)
  | connection :: outs' =>
      if negb (str_in connection (output_layers self)) then
        d <- PyDict.item done connection ;;
        if negb d then
          lv' <- push_level lv current_level connection ;;
          push_outputs self current_level outs' lv'
            (PyDict.set done connection true)
        else push_outputs self current_level outs' lv done
      else push_outputs self current_level outs' lv done
  end.

(** Lines 317-330 and 363-374: the entry in the output matrix, the count,
    and the output connections pushed by [push]. *)
Definition emit (self : t) (current_level : nat) (layer : string)
    (input_vector : tensor) (st : locals)
    (push : list string -> list (list string) -> PyDict.t bool ->
            result (list (list string) * PyDict.t bool))
  : result locals :=
  _ <- PyDict.item (layer_map self) layer ;;
  p <- PyDict.item (l_sensor_inputs st) layer ;;
  let om := PyDict.set (l_output_matrix st) layer
              (numpy_function layer input_vector (placeholder p)) in
  outs <- PyDict.item (output_connections self) layer ;;
  '(lv, done) <- push outs (l_level_vector st) (layers_done st) ;;
  Ok {| l_level_vector := lv;
        l_sensor_inputs := l_sensor_inputs st;
        l_output_matrix := om;
        l_placeholders := l_placeholders st;
        new_error_queue := new_error_queue st;
        layers_generated := layers_generated st + 1;
        layers_done := done |}.

(** Lines 285-330: one iteration of [for layer in error_queue]. *)
Definition visit (self : t) (current_level : nat) (st : locals)
    (layer : string) : result locals :=
  let st1 := new_placeholder st layer in
  if str_in layer (input_layers self) then
    n <- PyDict.item (neuron_map self) layer ;;
    emit self current_level layer (constant (np.zeros n)) st1
      (push_outputs self current_level)
  else
    conns <- PyDict.item (input_connections self) layer ;;
    '(input_vector, queue) <-
      gather_inputs self (l_output_matrix st1) layer conns (constant [])
        (new_error_queue st1) ;;
    let st2 := with_queue st1 queue in
    if negb (length queue =? 0) then Ok st2
    else emit self current_level layer input_vector st2
           (push_outputs self current_level).

Fixpoint pass (self : t) (current_level : nat) (error_queue : list string)
    (st : locals) : result locals :=
  match error_queue with
  | [] => Ok st
  | layer :: rest =>
      st' <- visit self current_level st layer ;;
      pass self current_level rest st'
  end.

(** Lines 350-359: the input connections in the forced pass; a
    non-delayed source that is no key of the output matrix is read from
    the state matrix. *)
Fixpoint gather_inputs_forced (self : t) (om : PyDict.t tensor)
    (conns : list (string * bool)) (input_vector : tensor) : result tensor :=
  match conns with
  | [] => Ok input_vector
  | connection :: conns' =>
      if snd connection then
        s <- PyDict.item (state_matrix self) (fst connection) ;;
        gather_inputs_forced self om conns' (concat input_vector s)
      else
        match PyDict.get om (fst connection) with
        | Some o => gather_inputs_forced self om conns' (concat input_vector o)
        | None =>
            s <- PyDict.item (state_matrix self) (fst connection) ;;
            gather_inputs_forced self om conns' (concat input_vector s)
        end
  end.

(** Lines 367-374: the output connections pushed in the forced pass;
    [layers_done] is neither read nor written. *)
Fixpoint push_outputs_forced (self : t) (current_level : nat)
    (outs : list string) (lv : list (list string)) (done : PyDict.t bool)
  : result (list (list string) * PyDict.t bool) :=
  match outs with
  | [] => Ok (lv, done)
  | connection :: outs' =>
      if negb (str_in connection (output_layers self)) then
        lv' <- push_level lv current_level connection ;;
        push_outputs_forced self current_level outs' lv' done
      else push_outputs_forced self current_level outs' lv done
  end.

(** Lines 336-374: one iteration of the forced pass. *)
Definition visit_forced (self : t) (current_level : nat) (st : locals)
    (layer : string) : result locals :=
  let st1 := new_placeholder st layer in
  if str_in layer (input_layers self) then
    n <- PyDict.item (neuron_map self) layer ;;
    emit self current_level layer (constant (np.zeros n)) st1
      (push_outputs_forced self current_level)
  else
    conns <- PyDict.item (input_connections self) layer ;;
    input_vector <-
      gather_inputs_forced self (l_output_matrix st1) conns (constant []) ;;
    emit self current_level layer input_vector st1
      (push_outputs_forced self current_level).

Fixpoint forced_pass (self : t) (current_level : nat)
    (error_queue : list string) (st : locals) : result locals :=
  match error_queue with
  | [] => Ok st
  | layer :: rest =>
      st' <- visit_forced self current_level st layer ;;
      forced_pass self current_level rest st'
  end.

(** Lines 281-377: [while(len(error_queue) != 0)].  [None] when the fuel
    runs out before the loop ends. *)
Fixpoint drain (fuel : nat) (self : t) (current_level : nat)
    (error_queue : list string) (st : locals) : option (result locals) :=
  match fuel with
  | 0 => None
  | S fuel' =>
      if length error_queue =? 0 then Some (Ok st)
      else
        match pass self current_level error_queue (with_queue st []) with
        | Raise e => Some (Raise e)
        | Ok st1 =>
            if names_eqb (new_error_queue st1) error_queue then
              match forced_pass self current_level error_queue
                      (with_queue st1 []) with
              | Raise e => Some (Raise e)
              | Ok st2 =>
                  drain fuel' self current_level (new_error_queue st2) st2
              end
            else drain fuel' self current_level (new_error_queue st1) st1
        end
  end.

(** Lines 278-279: [layers_done[layer] = True] for the current level. *)
Definition tick_done (error_queue : list string) (done : PyDict.t bool)
  : PyDict.t bool :=
  fold_left (fun d layer => PyDict.set d layer true) error_queue done.

(** Lines 272-379: [while layers_generated != self.__number_of_layers]. *)
Fixpoint levels (fuel : nat) (self : t) (current_level : nat) (st : locals)
  : option (result locals) :=
  match fuel with
  | 0 => None
  | S fuel' =>
      if layers_generated st =? number_of_layers self then Some (Ok st)
      else
        match nth_error (l_level_vector st) current_level with
        | None => Some (Raise IndexError)
        | Some error_queue =>
            let st1 := with_done (with_queue st [])
                         (tick_done error_queue (layers_done st)) in
            match drain fuel' self current_level error_queue st1 with
            | None => None
            | Some (Raise e) => Some (Raise e)
            | Some (Ok st2) => levels fuel' self (current_level + 1) st2
            end
        end
  end.

(** The locals at the entry of the outer loop. *)
Definition entry (self : t) : locals :=
  {| l_level_vector := level_vector self;
     l_sensor_inputs := sensor_inputs self;
     l_output_matrix := PyDict.empty;
     l_placeholders := placeholders self;
     new_error_queue := [];
     layers_generated := 0;
     layers_done :=
       fold_left (fun d layer => PyDict.set d (name layer) false)
                 (order_of_execution self) PyDict.empty |}.

Definition store (self : t) (st : locals) : t :=
  {| number_of_layers := number_of_layers self;
     order_of_execution := order_of_execution self;
     time_interval := time_interval self;
     input_connections := input_connections self;
     output_connections := output_connections self;
     sensor_inputs := l_sensor_inputs st;
     output_layers := output_layers self;
     input_layers := input_layers self;
     level_vector := l_level_vector st;
     output_matrix := l_output_matrix st;
     state_matrix := state_matrix self;
     state := state self;
     layer_map := layer_map self;
     neuron_map := neuron_map self;
     placeholders := l_placeholders st;
     random_state := random_state self |}.

Definition _construct_graph (fuel : nat) (self : t) : option (result t) :=
  match levels fuel self 0 (entry self) with
  | None => None
  | Some (Raise e) => Some (Raise e)
  | Some (Ok st) => Some (Ok (store self st))
  end.

(** [__init__], lines 95-116: the attributes before the layers and the
    graph are constructed. *)
Definition attributes (layer_vector : list LayerSpec) (dt : R)
    (g : RandomState R) : t :=
  {| number_of_layers := length layer_vector;
     order_of_execution := layer_vector;
     time_interval := dt;
     input_connections := PyDict.empty;
     output_connections := PyDict.empty;
     sensor_inputs := PyDict.empty;
     output_layers := [];
     input_layers := [];
     level_vector := [[]];
     output_matrix := PyDict.empty;
     state_matrix :=
       fold_left (fun d layer => PyDict.set d (name layer) (variable (name layer)))
                 layer_vector PyDict.empty;
     state :=
       fold_left (fun d layer => PyDict.set d (name layer) (np.zeros (size layer)))
                 layer_vector PyDict.empty;
     layer_map := PyDict.empty;
     neuron_map := PyDict.empty;
     placeholders := 0;
     random_state := g |}.

(** [__init__], lines 119-120. *)
Definition init (fuel : nat) (layer_vector : list LayerSpec) (dt : R)
    (g : RandomState R) : option (result t) :=
  match _construct_layers (attributes layer_vector dt g) layer_vector with
  | Raise e => Some (Raise e)
  | Ok self => _construct_graph fuel self
  end.

(** ** forward_propagate *)

(** The feed dictionary of a session run: placeholders to values. *)
Definition feed : Type := list (nat * list R).

Fixpoint feed_get (f : feed) (p : nat) : option (list R) :=
  match f with
  | [] => None
  | (q, v) :: f' => if q =? p then Some v else feed_get f' p
  end.

Fixpoint feed_set (f : feed) (p : nat) (v : list R) : feed :=
  match f with
  | [] => [(p, v)]
  | (q, w) :: f' => if q =? p then (q, v) :: f' else (q, w) :: feed_set f' p v
  end.

(** Lines 415-418: the sensor value of one layer.  The value is read
    from [input_dict] under the layer's sensor name, [layer[4]]; on any
    exception a zero vector of the layer's size is fed instead. *)
Definition feed_layer (self : t) (input_dict : PyDict.t (list R))
    (sensor_input : feed) (layer : LayerSpec) : result feed :=
  match (v <- PyDict.item input_dict (sensor layer) ;;
         p <- PyDict.item (sensor_inputs self) (name layer) ;;
         Ok (feed_set sensor_input p v)) with
  | Ok f => Ok f
  | Raise _ =>
      n <- PyDict.item (neuron_map self) (name layer) ;;
      p <- PyDict.item (sensor_inputs self) (name layer) ;;
      Ok (feed_set sensor_input p (np.zeros n))
  end.

(** Lines 411-418 of [forward_propagate]: the loop that fills
    [sensor_input]. *)
Fixpoint feed_layers (self : t) (input_dict : PyDict.t (list R))
    (layers : list LayerSpec) (sensor_input : feed) : result feed :=
  match layers with
  | [] => Ok sensor_input
  | layer :: rest =>
      f <- feed_layer self input_dict sensor_input layer ;;
      feed_layers self input_dict rest f
  end.

Definition forward_propagate_sensor_input (self : t)
    (input_dict : PyDict.t (list R)) : result feed :=
  feed_layers self input_dict (order_of_execution self) [].

(** The truth value of [output_vector == None] in the [if]: [True] for
    [None]; for an array the comparison is element-wise, and the truth
    value of an array with more than one element is an error. *)
Definition equals_None (output_vector : option (list R)) : result bool :=
  match output_vector with
  | None => Ok true
  | Some v =>
      if length v <=? 1 then Ok false
      else Raise (ValueError
        "The truth value of an array with more than one element is ambiguous")
  end.

(** [np.sum(a, b)]: the second positional parameter of [np.sum] is
    [axis], and an array of floats is no axis. *)
Definition np_sum (a : list R) (axis : list R) : result (list R) :=
  Raise (TypeError "only integer scalar arrays can be converted to a scalar index").

(** Lines 439-443: the body of the [try] for one contributing layer. *)
Definition contribute (output : PyDict.t (list R))
    (output_vector : option (list R)) (connection : string * bool)
  : result (option (list R)) :=
  b <- equals_None output_vector ;;
  if b then
    o <- PyDict.item output (fst connection) ;;
    Ok (Some o)
  else
    o <- PyDict.item output (fst connection) ;;
    match output_vector with
    | Some v => s <- np_sum v o ;; Ok (Some s)
    | None => Ok (Some o)
    end.

(** Lines 438-445: the contributions to one hardware layer. *)
Fixpoint collect (layer : string) (output : PyDict.t (list R))
    (conns : list (string * bool)) (output_vector : option (list R))
  : result (option (list R)) :=
  match conns with
  | [] => Ok output_vector
  | connection :: conns' =>
      v <- try_except_raise (contribute output output_vector connection)
             (PyException
                (String.append "There is something wrong with the configuration of "
                               layer)) ;;
      collect layer output conns' v
  end.

Fixpoint assemble (self : t) (output : PyDict.t (list R))
    (layers : list string) (output_dict : PyDict.t (option (list R)))
  : result (PyDict.t (option (list R))) :=
  match layers with
  | [] => Ok output_dict
  | layer :: rest =>
      conns <- PyDict.item (input_connections self) layer ;;
      v <- collect layer output conns None ;;
      assemble self output rest (PyDict.set output_dict layer v)
  end.

(** Lines 434-449 of [forward_propagate]: the returned dictionary, from
    the outputs [output] of the session run. *)
Definition forward_propagate_output_dict (self : t)
    (output : PyDict.t (list R)) : result (PyDict.t (option (list R))) :=
  assemble self output (output_layers self) PyDict.empty.

(** ** return_parameters_as_vector, load_parameters_from_vector *)

(** [self.__layer_map[key].return_parameters()]. *)
Definition layer_return_parameters (l : Layer) : result (option (list R)) :=
  match l with
  | Static s => Ok (Some (StaticLayer.return_parameters s))
  | Dynamic d => DynamicLayer.return_parameters d
  end.

Fixpoint return_parameters_loop (self : t) (indices : list nat)
    (output_dict : PyDict.t (option (list R)))
  : result (PyDict.t (option (list R))) :=
  match indices with
  | [] => Ok output_dict
  | index :: rest =>
      let layer_key := String.append "layer_" (str index) in
      if negb (str_in layer_key (input_layers self)) then
        l <- PyDict.item (layer_map self) layer_key ;;
        v <- layer_return_parameters l ;;
        return_parameters_loop self rest (PyDict.set output_dict layer_key v)
      else return_parameters_loop self rest output_dict
  end.

Definition return_parameters_as_vector (self : t)
  : result (PyDict.t (option (list R))) :=
  return_parameters_loop self (seq 0 (number_of_layers self)) PyDict.empty.



End ANN.

Arguments LayerSpec R : clear implicits.
Arguments Layer R : clear implicits.
Arguments tensor R : clear implicits.
Arguments t R : clear implicits.
Arguments locals R : clear implicits.
Arguments connections : clear implicits.
Arguments built R : clear implicits.
End ArtificialNeuralNetwork.

(** * interfaces/infrared.py *)

Module Infrared.
Section Infrared.
Context {R : Type} `{Scalar R}.

(** The builtins the module calls, and its one literal: [int] on a string
    (which raises for a string that is no integer literal), [float] of an
    integer as the mixed arithmetic of [secs + nsecs * 1e-9] applies it,
    and the float [1e-9]. *)
Variable int_of_str : string -> result Z.
Variable float_of_int : Z -> R.
Variable nano : R.

(** Number of sensors in the array. *)
Definition ARRAY_LENGTH : nat := 8.

Record InfraredData : Type := {
  values : list R;
  timeStamp : R
}.

(** [InfraredData.__init__]: [[0] * ARRAY_LENGTH] and the time stamp 0;
    the integer 0 is the scalar zero. *)
Definition InfraredData_init : InfraredData :=
  {| values := repeat szero ARRAY_LENGTH; timeStamp := szero |}.

(** The fields of a [sensor_msgs/Range] message that are read. *)
Record Range : Type := {
  frame_id : string;
  secs : Z;
  nsecs : Z;
  range : R
}.

(** [s[3:]]. *)
Definition from3 (s : string) : string :=
  String.substring 3 (String.length s - 3) s.

(** [l[i] = x] on a list: a negative index counts from the end, an index
    out of range raises [IndexError]. *)
Definition list_setitem {A : Type} (l : list A) (i : Z) (x : A)
  : result (list A) :=
  let n := Z.of_nat (length l) in
  if ((0 <=? i) && (i <? n))%Z then Ok (replace_nth l (Z.to_nat i) x)
  else if ((- n <=? i) && (i <? 0))%Z
       then Ok (replace_nth l (Z.to_nat (i + n)) x)
       else Raise IndexError.

Definition message2InfraredData (infra : Range) : result InfraredData :=
  let infrared := InfraredData_init in
  let frame_id := frame_id infra in
  i <- int_of_str (from3 frame_id) ;;
  let index := (i - 1)%Z in
  vs <- list_setitem (values infrared) index (range infra) ;;
  Ok {| values := vs;
        timeStamp := sadd (float_of_int (secs infra))
                          (smul (float_of_int (nsecs infra)) nano) |}.

(** [ListenerInfrared]: the subscription belongs to rospy; the attribute
    the methods of the class read and write is [data].  The lock is held
    around the one assignment and the one read. *)
Record ListenerInfrared : Type := {
  topic : string;
  data : InfraredData
}.

Definition ListenerInfrared_init (topic : string) : ListenerInfrared :=
  {| topic := topic; data := InfraredData_init |}.

(** [__callback]: a message that cannot be converted raises before the
    assignment. *)
Definition callback (self : ListenerInfrared) (message : Range)
  : result ListenerInfrared :=
  sensor <- message2InfraredData message ;;
  Ok {| topic := topic self; data := sensor |}.

Definition getSensorData (self : ListenerInfrared) : InfraredData :=
  data self.

(** The callbacks for the messages of a topic, in the order of arrival. *)
Fixpoint callbacks (self : ListenerInfrared) (messages : list Range)
  : result ListenerInfrared :=
  match messages with
  | [] => Ok self
  | message :: rest =>
      self' <- callback self message ;;
      callbacks self' rest
  end.
End Infrared.

Arguments InfraredData R : clear implicits.
Arguments Range R : clear implicits.
Arguments ListenerInfrared R : clear implicits.
End Infrared.

(** * Specification *)

(** The layer equations as the design states them, coordinate by
    coordinate, to compare with what the methods compute. *)
Module Spec.
Section Equations.
Context {R : Type} `{Scalar R}.

(** [W·x + b]: coordinate [r] is the inner product of row [r] of [W]
    with [x], plus [b[r]]. *)
Definition affine (W : np.matrix R) (x b : list R) : list R :=
  map (fun r => sadd (np.inner (np.row W r) x) (nth r b szero))
      (seq 0 (fst (np.shape W))).

(** [prev·(1 − time_weight) + activated·time_weight]. *)
Definition euler (prev tw activated : list R) : list R :=
  map (fun r => sadd (smul (nth r prev szero) (ssub sone (nth r tw szero)))
                     (smul (nth r activated szero) (nth r tw szero)))
      (seq 0 (length prev)).

(** The states of a [TimeRecurrence] of dimensions [(o, i)] on which
    [set_input_vector] has not been called: the constructed one, and any
    state reached from it by [set_weight_matrix]. *)
Inductive untouched (i o : nat) : TimeRecurrence.t R -> Prop :=
| untouched_init (g : RandomState R) :
    untouched i o (fst (TimeRecurrence.init i o g))
| untouched_set_weight (r r' : TimeRecurrence.t R) (w : np.matrix R) :
    untouched i o r ->
    TimeRecurrence.set_weight_matrix r w = Ok r' ->
    untouched i o r'.
End Equations.
End Spec.

(** * Concrete layers and networks *)

Module Example.
(** A generator for the initial weights. *)
Definition g0 : RandomState float :=
  {| stream := fun _ => 0.25%float; position := 0 |}.

Definition identity : ActivationFunction.t float :=
  ActivationFunction.identity 1%float 0%float.

(** A StaticLayer with two inputs and one output, [W = [[1, 1]]],
    [b = [0]]. *)
Definition static21 : result (StaticLayer.t float) :=
  let '(l, _) := StaticLayer.init 2 1 identity "L2" g0 in
  l1 <- StaticLayer.set_weight_matrix l
          {| np.shape := (1, 2); np.elems := [1; 1]%float |} ;;
  StaticLayer.set_bias_vector l1 [0%float].

(** A freshly constructed StaticLayer with one input and one output. *)
Definition static11 : StaticLayer.t float :=
  fst (StaticLayer.init 1 1 identity "L" g0).

(** The CTRNN layer with [τ = [1.0]], [Δt = 0.5], identity activation,
    [W = [[1]]] and [b = [0]]. *)
Definition ctrnn : result (CTRNNLayer.t float) :=
  '(l, _) <- CTRNNLayer.init 1 1 0.5%float [1%float] identity "ctrnn" g0 ;;
  l1 <- CTRNNLayer.set_weight_matrix l
          {| np.shape := (1, 1); np.elems := [1%float] |} ;;
  CTRNNLayer.set_bias_vector l1 [0%float].

(** Two calls of [euler_step] in a row: the two outputs. *)
Definition two_steps (l : CTRNNLayer.t float) (x1 x2 : list float)
  : result (list float * list float) :=
  '(o1, l1) <- CTRNNLayer.euler_step l x1 ;;
  '(o2, _) <- CTRNNLayer.euler_step l1 x2 ;;
  Ok (o1, o2).

(** A freshly constructed CTRNN layer with one input and one output. *)
Definition ctrnn11 : result (CTRNNLayer.t float) :=
  '(l, _) <- CTRNNLayer.init 1 1 0.5%float [1%float] identity "ctrnn" g0 ;;
  Ok l.

(** A generator over the integers. *)
Definition gZ : RandomState Z :=
  {| stream := fun n => Z.of_nat n; position := 0 |}.



(** A TimeRecurrence with one input and two outputs, and weights for it
    of which one is infinite. *)
Definition recurrence12 : TimeRecurrence.t float :=
  fst (TimeRecurrence.init 1 2 g0).

Definition w21_infinite : np.matrix float :=
  {| np.shape := (2, 1); np.elems := [infinity; 0]%float |}.

(** A layer specification with the identity activation. *)
Definition layer (n : string) (sz : nat) (k s : string)
    (outs dl : list string) : ArtificialNeuralNetwork.LayerSpec float :=
  {| ArtificialNeuralNetwork.name := n;
     ArtificialNeuralNetwork.size := sz;
     ArtificialNeuralNetwork.kind := k;
     ArtificialNeuralNetwork.activation := identity;
     ArtificialNeuralNetwork.sensor := s;
     ArtificialNeuralNetwork.outputs := outs;
     ArtificialNeuralNetwork.delayed := dl |}.

Definition network (layer_vector : list (ArtificialNeuralNetwork.LayerSpec float))
  : option (result (ArtificialNeuralNetwork.t float)) :=
  ArtificialNeuralNetwork.init 32 layer_vector 0.125%float g0.

(** Two input layers of one neuron that drive the same hardware layer. *)
Definition two_drivers : list (ArtificialNeuralNetwork.LayerSpec float) :=
  [layer "L1" 1 "STATIC" "s1" ["motor"] [];
   layer "L2" 1 "STATIC" "s2" ["motor"] []].

(** The same with two neurons per layer. *)
Definition two_wide_drivers : list (ArtificialNeuralNetwork.LayerSpec float) :=
  [layer "L1" 2 "STATIC" "s1" ["motor"] [];
   layer "L2" 2 "STATIC" "s2" ["motor"] []].

(** An input layer of size three, named "L1", that reads the sensor "IR". *)
Definition one_sensor : list (ArtificialNeuralNetwork.LayerSpec float) :=
  [layer "L1" 3 "STATIC" "IR" ["motor"] []].

(** An input layer "in" that feeds the layer "out". *)
Definition in_out : list (ArtificialNeuralNetwork.LayerSpec float) :=
  [layer "in" 1 "STATIC" "s" ["out"] [];
   layer "out" 1 "STATIC" "" ["motor"] []].

(** The same network with the layers named "layer_0" and "layer_1". *)
Definition numbered : list (ArtificialNeuralNetwork.LayerSpec float) :=
  [layer "layer_0" 1 "STATIC" "s" ["layer_1"] [];
   layer "layer_1" 1 "STATIC" "" ["motor"] []].

(** [a == b] on the keys and values of two dictionaries of vectors is not
    needed below; the first element of a vector is compared instead. *)
Definition head_is_zero (v : list float) : bool :=
  match v with
  | x :: _ => PrimFloat.eqb x 0%float
  | [] => true
  end.

(** The network [__init__] returns for a layer vector (the bare
    attributes when it raises). *)
Definition built (layer_vector : list (ArtificialNeuralNetwork.LayerSpec float))
  : ArtificialNeuralNetwork.t float :=
  match network layer_vector with
  | Some (Ok self) => self
  | _ => ArtificialNeuralNetwork.attributes layer_vector 0.125%float g0
  end.

(** An input layer of two neurons, a hidden layer of three and a layer of
    the kind "CTRNN". *)
Definition mixed : list (ArtificialNeuralNetwork.LayerSpec float) :=
  [layer "in" 2 "STATIC" "s" ["hid"] [];
   layer "hid" 3 "STATIC" "" ["out"] [];
   layer "out" 1 "CTRNN" "" ["motor"] []].

(** A single layer of the kind "CTRNN", with no upstream source. *)
Definition one_ctrnn : list (ArtificialNeuralNetwork.LayerSpec float) :=
  [layer "c" 2 "CTRNN" "s" ["motor"] []].

(** A network without cycles: "A" feeds "B" and "C", and "B" feeds "C". *)
Definition dag : list (ArtificialNeuralNetwork.LayerSpec float) :=
  [layer "A" 1 "STATIC" "s" ["B"; "C"] [];
   layer "B" 1 "STATIC" "" ["C"] [];
   layer "C" 1 "STATIC" "" ["motor"] []].


(** The same cycle next to a layer "C" that is ready at once: "A" feeds
    "B" and "C", "B" and "D" feed each other. *)
Definition stuck : list (ArtificialNeuralNetwork.LayerSpec float) :=
  [layer "A" 1 "STATIC" "s" ["B"; "C"] [];
   layer "B" 1 "STATIC" "" ["D"] [];
   layer "C" 1 "STATIC" "" ["motor"] [];
   layer "D" 1 "STATIC" "" ["B"] []].

(** A freshly constructed TimeDelay with two inputs and the delay [d]. *)
Definition delay2 (d : nat) : result (TimeDelay.t float) :=
  '(td, _) <- TimeDelay.init 2 (PyInt d) g0 ;;
  Ok td.

(** A TimeDelay over the integers, with two inputs, the delay one and the
    weight [w]. *)
Definition delay_scaled (w : Z) : result (TimeDelay.t Z) :=
  '(td, _) <- TimeDelay.init 2 (PyInt 1) gZ ;;
  TimeDelay.set_weight_vector td {| np.shape := (1, 1); np.elems := [w] |}.

(** A DynamicLayer with one input, one output, the delay one and one
    recurrent system. *)
Definition dynamic_recurrent : result (DynamicLayer.t float) :=
  '(d, _) <- DynamicLayer.init 1 1 (PyInt 1) (PyIntList [1])
               (PyActivation identity) "dyn" g0 ;;
  Ok d.

(** A DynamicLayer with two inputs, one output, the delay two and no
    recurrent system: seven parameters. *)
Definition dynamic_plain : result (DynamicLayer.t float) :=
  '(d, _) <- DynamicLayer.init 2 1 (PyInt 2) (PyIntList [])
               (PyActivation identity) "dyn" g0 ;;
  Ok d.

(** A network whose second layer is of the kind "DYNAMIC". *)
Definition with_dynamic : list (ArtificialNeuralNetwork.LayerSpec float) :=
  [layer "in" 2 "STATIC" "s" ["hid"] [];
   layer "hid" 3 "DYNAMIC" "" ["out"] [];
   layer "out" 1 "STATIC" "" ["motor"] []].

(** Two layers that feed each other: no layer is without an upstream
    source. *)
Definition ring : list (ArtificialNeuralNetwork.LayerSpec float) :=
  [layer "A" 1 "STATIC" "s" ["B"] [];
   layer "B" 1 "STATIC" "" ["A"; "motor"] []].

(** Two layers that drive two hardware layers, one of them shared, and a
    connection between the layers. *)
Definition two_motors : list (ArtificialNeuralNetwork.LayerSpec float) :=
  [layer "A" 1 "STATIC" "s" ["left"; "B"; "right"] [];
   layer "B" 1 "STATIC" "" ["right"] []].

(** A hidden layer "hid" that names the sensor "IR" of the input layer
    "in". *)
Definition shared_sensor : list (ArtificialNeuralNetwork.LayerSpec float) :=
  [layer "in" 2 "STATIC" "IR" ["hid"] [];
   layer "hid" 1 "STATIC" "IR" ["motor"] []].

(** [int] on the decimal numerals, with an optional minus sign. *)
Definition int_of_str (s : string) : result Z :=
  let invalid := Raise (ValueError "invalid literal for int() with base 10") in
  match s with
  | EmptyString => invalid
  | String "-" EmptyString => invalid
  | String "-" digits =>
      match NilEmpty.uint_of_string digits with
      | Some d => Ok (- Z.of_nat (Nat.of_uint d))%Z
      | None => invalid
      end
  | _ =>
      match NilEmpty.uint_of_string s with
      | Some d => Ok (Z.of_nat (Nat.of_uint d))
      | None => invalid
      end
  end.

(** [float] of a positive integer below 2^53. *)
Fixpoint float_of_positive (p : positive) : float :=
  match p with
  | xH => 1%float
  | xO q => PrimFloat.mul 2%float (float_of_positive q)
  | xI q => PrimFloat.add (PrimFloat.mul 2%float (float_of_positive q)) 1%float
  end.

Definition float_of_int (z : Z) : float :=
  match z with
  | Z0 => 0%float
  | Zpos p => float_of_positive p
  | Zneg p => PrimFloat.opp (float_of_positive p)
  end.

(** The float [1e-9]. *)
Definition nano : float := 0x1.12e0be826d695p-30%float.

(** The message of the sensor [k], read at 5.5 s. *)
Definition ir_message (id : string) (r : float) : Infrared.Range float :=
  {| Infrared.frame_id := id;
     Infrared.secs := 5;
     Infrared.nsecs := 500000000;
     Infrared.range := r |}.

(** Two sensor layers that drive the two motors: every layer is an input
    layer. *)
Definition sensors_to_motors : list (ArtificialNeuralNetwork.LayerSpec float) :=
  [layer "left_eye" 2 "STATIC" "IR_left" ["right_motor"] [];
   layer "right_eye" 2 "STATIC" "IR_right" ["left_motor"; "right_motor"] []].

End Example.

(** The network as the construction input declares it. *)
Module Declared.
Section Declared.
Context {R : Type}.

Import ArtificialNeuralNetwork.

(** The upstream sources of [target], in declaration order: one entry
    [(source, delayed)] for every occurrence of [target] in the outputs of
    a layer. *)
Definition upstream (layer_vector : list (LayerSpec R)) (target : string)
  : list (string * bool) :=
  flat_map (fun src =>
              map (fun _ => (name src, str_in target (delayed src)))
                  (filter (String.eqb target) (outputs src)))
           layer_vector.

(** The declared size of the layer called [n]. *)
Definition size_of (layer_vector : list (LayerSpec R)) (n : string) : nat :=
  match find (fun l => String.eqb (name l) n) layer_vector with
  | Some l => size l
  | None => 0
  end.

(** The input dimension of a layer: the sum of the sizes of its upstream
    sources, or its own size when it has none. *)
Definition input_dimension (layer_vector : list (LayerSpec R))
    (l : LayerSpec R) : nat :=
  match upstream layer_vector (name l) with
  | [] => size l
  | ups => list_sum (map (fun c => size_of layer_vector (fst c)) ups)
  end.
End Declared.
End Declared.

(** Auxiliary notions for the proofs about [_construct_layers]. *)
Module Aux.
Section Aux.
Context {R : Type}.

Import ArtificialNeuralNetwork.

(** A dictionary entry that is a list, after appending [l] to it (the
    entry is created by the first append). *)
Definition extend {A : Type} (o : option (list A)) (l : list A)
  : option (list A) :=
  match l with
  | [] => o
  | _ => Some (match o with Some l0 => l0 | None => [] end ++ l)
  end.

(** The connections the first loop records, from the empty dictionaries. *)
Definition recorded (layer_vector : list (LayerSpec R)) : connections :=
  record_connections layer_vector
    {| c_neuron_map := PyDict.empty;
       c_output := PyDict.empty;
       c_input := PyDict.empty |}.

Definition has_no_upstream (layer_vector : list (LayerSpec R))
    (l : LayerSpec R) : bool :=
  match Declared.upstream layer_vector (name l) with
  | [] => true
  | _ => false
  end.

(** The names of the layers of [rest] that the second loop of
    [_construct_layers] registers as input layers, when no layer is of the
    kind "DYNAMIC". *)
Definition input_names (layer_vector rest : list (LayerSpec R)) : list string :=
  map name (filter (fun l => String.eqb (kind l) "STATIC"
                             && has_no_upstream layer_vector l) rest).

End Aux.
End Aux.

(** The graph the builder creates, read back from its tensors. *)
Module Graph.
Section Graph.
Context {R : Type}.

Import ArtificialNeuralNetwork.

(** The sources concatenated into an input vector, in order: [(u, true)]
    for the output of [u] of this tick, [(u, false)] for the stored state
    of [u]. *)
Fixpoint sources (input_vector : tensor R) : list (string * bool) :=
  match input_vector with
  | concat a (numpy_function u _ _) => sources a ++ [(u, true)]
  | concat a (variable u) => sources a ++ [(u, false)]
  | _ => []
  end.


(** [n] is in level [j]. *)
Definition in_level (lv : list (list string)) (j : nat) (n : string) : Prop :=
  In n (nth j lv []).


(** A read [r] resolves the connection [c]: it reads the source of the
    connection, and a delayed connection is read from the stored state. *)
Definition resolves (c r : string * bool) : Prop :=
  fst r = fst c /\ (snd c = true -> snd r = false).

(** The reads [srcs] of the layer [v] are its input connections, in
    order. *)
Definition matches (ic : PyDict.t (list (string * bool))) (v : string)
    (srcs : list (string * bool)) : Prop :=
  match PyDict.get ic v with
  | Some conns => Forall2 resolves conns srcs
  | None => srcs = []
  end.

(** The names with a layer specification. *)
Definition declared (self : t R) (n : string) : Prop :=
  In n (PyDict.keys (output_connections self)).

(** What [_construct_layers] establishes when every layer is of the kind
    "STATIC". *)
Record wf_net (self : t R) : Prop := {
  wf_declared : forall n, declared self n ->
    (exists l, PyDict.get (layer_map self) n = Some l) /\
    (exists k, PyDict.get (neuron_map self) n = Some k) /\
    PyDict.get (state_matrix self) n = Some (variable n);
  wf_outputs : forall n outs c,
    PyDict.get (output_connections self) n = Some outs -> In c outs ->
    (exists conns, PyDict.get (input_connections self) c = Some conns) /\
    (str_in c (output_layers self) = false -> declared self c);
  wf_inputs : forall c conns x,
    PyDict.get (input_connections self) c = Some conns -> In x conns ->
    declared self (fst x);
  wf_input_layers : forall n, In n (input_layers self) ->
    declared self n /\ PyDict.get (input_connections self) n = None
}.

(** The invariant of the loops of [_construct_graph], at the level [k]. *)
Record inv (self : t R) (k : nat) (st : locals R) : Prop := {
  inv_members : forall j n, in_level (l_level_vector st) j n ->
    declared self n /\
    (In n (input_layers self) \/
     exists conns, PyDict.get (input_connections self) n = Some conns);
  inv_done : forall n, declared self n ->
    exists d, PyDict.get (layers_done st) n = Some d;
  inv_nodes : forall v node, PyDict.get (l_output_matrix st) v = Some node ->
    exists input_vector p,
      node = numpy_function v input_vector (placeholder p) /\
      matches (input_connections self) v (sources input_vector) /\
      exists j', j' <= k /\ in_level (l_level_vector st) j' v /\
        forall u, In (u, true) (sources input_vector) ->
          exists j, j <= j' /\ in_level (l_level_vector st) j u
}.

(** Every level of [lv] is kept in [lv']. *)
Definition grows (lv lv' : list (list string)) : Prop :=
  length lv <= length lv' /\
  forall j n, in_level lv j n -> in_level lv' j n.

(** What the two loops over the output connections of a generated layer
    have in common: they return, keep every level, add only output
    connections that are not hardware, to the level [k + 1], and keep the
    keys of [layers_done]. *)
Definition pushes (self : t R) (k : nat)
    (push : list string -> list (list string) -> PyDict.t bool ->
            result (list (list string) * PyDict.t bool)) : Prop :=
  forall outs lv done,
    k < length lv ->
    (forall c, In c outs -> str_in c (output_layers self) = false ->
               exists d, PyDict.get done c = Some d) ->
    exists lv' done',
      push outs lv done = Ok (lv', done') /\
      grows lv lv' /\
      (forall j n, in_level lv' j n ->
         in_level lv j n \/
         (j = k + 1 /\ In n outs /\ str_in n (output_layers self) = false)) /\
      (forall n d, PyDict.get done n = Some d ->
         exists d', PyDict.get done' n = Some d').

(** The input connections of [v]; an input layer has none. *)
Definition connections (self : t R) (v : string) : list (string * bool) :=
  match PyDict.get (input_connections self) v with
  | Some conns => conns
  | None => []
  end.

(** [u] is a key of the output matrix: its node has been generated. *)
Definition generated_in (om : PyDict.t (tensor R)) (u : string) : bool :=
  match PyDict.get om u with
  | Some _ => true
  | None => false
  end.

(** The reads of a layer that a pass over the frontier generates: its
    connections in order, a delayed one from the stored state and a
    non-delayed one from this tick's output. *)
Definition fresh_reads (conns : list (string * bool))
  : list (string * bool) :=
  map (fun c => (fst c, negb (snd c))) conns.

(** The reads of a layer that the forced pass generates: a non-delayed
    connection is read from the stored state as well when its source has
    no node in [om]. *)
Definition forced_reads (om : PyDict.t (tensor R))
    (conns : list (string * bool)) : list (string * bool) :=
  map (fun c => (fst c, negb (snd c) && generated_in om (fst c))) conns.

(** The non-delayed connections whose source has no node in [om]. *)
Definition missing (om : PyDict.t (tensor R))
    (conns : list (string * bool)) : list (string * bool) :=
  filter (fun c => negb (snd c) && negb (generated_in om (fst c))) conns.

(** From [st] to [st'] the layer [v] is generated with the reads [srcs]:
    its node enters the output matrix with the placeholder created for
    it, and the count goes up by one. *)
Definition generated (st st' : locals R) (v : string)
    (srcs : list (string * bool)) : Prop :=
  exists input_vector,
    sources input_vector = srcs /\
    l_output_matrix st'
    = PyDict.set (l_output_matrix st) v
        (numpy_function v input_vector (placeholder (l_placeholders st))) /\
    layers_generated st' = layers_generated st + 1 /\
    new_error_queue st' = new_error_queue st.

(** One iteration of a pass over the frontier, from [st] to [st'].  An
    input layer is generated; another layer is generated when none of
    its non-delayed sources is missing and the new error queue is empty,
    and reads every non-delayed source from this tick's output.
    Otherwise the output matrix stays as it is and the layer enters the
    new error queue once for every missing source. *)
Definition pass_step (self : t R) (st : locals R) (v : string)
    (st' : locals R) : Prop :=
  let conns := connections self v in
  let lost := missing (l_output_matrix st) conns in
  if str_in v (input_layers self)
     || ((length (new_error_queue st) =? 0) && (length lost =? 0))
  then generated st st' v (fresh_reads conns)
  else l_output_matrix st' = l_output_matrix st /\
       layers_generated st' = layers_generated st /\
       new_error_queue st' = new_error_queue st ++ repeat v (length lost).

(** One iteration of the forced pass: the layer is generated, and reads
    from the stored state the delayed sources and the missing ones. *)
Definition forced_step (self : t R) (st : locals R) (v : string)
    (st' : locals R) : Prop :=
  generated st st' v
    (forced_reads (l_output_matrix st) (connections self v)).
End Graph.

Section Loops.
Context {R : Type} `{Scalar R}.

Import ArtificialNeuralNetwork.

(** The locals in the loops of [_construct_graph] while the level [k] is
    the current one: the entry of the outer loop; the start of a level
    (lines 274-279); the start of a pass (lines 282 and 335); an
    iteration of either pass over a layer of the level; the next level
    (line 379). *)
Inductive reached (self : t R) : nat -> locals R -> Prop :=
| reached_entry : reached self 0 (entry self)
| reached_level (k : nat) (st : locals R) (error_queue : list string) :
    reached self k st ->
    nth_error (l_level_vector st) k = Some error_queue ->
    reached self k (with_done (with_queue st [])
                      (tick_done error_queue (layers_done st)))
| reached_pass (k : nat) (st : locals R) :
    reached self k st -> reached self k (with_queue st [])
| reached_visit (k : nat) (st st' : locals R) (v : string) :
    reached self k st ->
    in_level (l_level_vector st) k v ->
    visit self k st v = Ok st' ->
    reached self k st'
| reached_visit_forced (k : nat) (st st' : locals R) (v : string) :
    reached self k st ->
    in_level (l_level_vector st) k v ->
    visit_forced self k st v = Ok st' ->
    reached self k st'
| reached_next (k : nat) (st : locals R) :
    reached self k st -> reached self (k + 1) st.
End Loops.
End Graph.

(** The states a layer object can be in: what its constructor returns, and
    what its methods make of such a state. *)
Module Reach.
Section Reach.
Context {R : Type} `{Scalar R}.

(** A two-dimensional array holds as many elements as its shape says. *)
Definition consistent (m : np.matrix R) : Prop :=
  length (np.elems m) = fst (np.shape m) * snd (np.shape m).

Inductive static : StaticLayer.t R -> Prop :=
| static_init (i o : nat) (af : ActivationFunction.t R) (nm : string)
    (g : RandomState R) :
    static (fst (StaticLayer.init i o af nm g))
| static_set_weight (l l' : StaticLayer.t R) (w : np.matrix R) :
    static l -> consistent w ->
    StaticLayer.set_weight_matrix l w = Ok l' -> static l'
| static_set_bias (l l' : StaticLayer.t R) (b : list R) :
    static l -> StaticLayer.set_bias_vector l b = Ok l' -> static l'
| static_set_activation (l : StaticLayer.t R) (b th : R) :
    static l -> static (StaticLayer.set_activation_parameters l b th).

(** The shapes a StaticLayer keeps. *)
Definition static_shaped (l : StaticLayer.t R) : Prop :=
  np.shape (StaticLayer.weight_matrix l) = StaticLayer.weight_dim l /\
  consistent (StaticLayer.weight_matrix l) /\
  StaticLayer.bias_dim l = fst (StaticLayer.weight_dim l) /\
  length (StaticLayer.bias_vector l) = StaticLayer.bias_dim l.

(** The shapes a TimeDelay with the delay [d] and the input dimension [i]
    keeps. *)
Definition delay_shaped (d i : nat) (td : TimeDelay.t R) : Prop :=
  TimeDelay.weight_dim td = (1, d) /\
  TimeDelay.input_matrix_dim td = (d, i) /\
  np.shape (TimeDelay.weight_vector td) = (1, d) /\
  length (np.elems (TimeDelay.weight_vector td)) = d /\
  np.shape (TimeDelay.input_matrix td) = (d, i) /\
  length (np.elems (TimeDelay.input_matrix td)) = d * i.

(** [forward_propagate] on one input after the other: the TimeDelay
    after the last one. *)
Fixpoint delay_run (td : TimeDelay.t R) (inputs : list (list R))
  : result (TimeDelay.t R) :=
  match inputs with
  | [] => Ok td
  | x :: rest =>
      '(_, td') <- TimeDelay.forward_propagate td x ;;
      delay_run td' rest
  end.

(** The shapes a CTRNNLayer keeps. *)
Definition ctrnn_shaped (l : CTRNNLayer.t R) : Prop :=
  np.shape (CTRNNLayer.weight_matrix l) = CTRNNLayer.weight_dim l /\
  consistent (CTRNNLayer.weight_matrix l) /\
  CTRNNLayer.bias_dim l = fst (CTRNNLayer.weight_dim l) /\
  CTRNNLayer.time_dim l = fst (CTRNNLayer.weight_dim l) /\
  length (CTRNNLayer.bias_vector l) = fst (CTRNNLayer.weight_dim l) /\
  length (CTRNNLayer.time_weight l) = fst (CTRNNLayer.weight_dim l) /\
  length (CTRNNLayer.previous_output l) = fst (CTRNNLayer.weight_dim l).

(** [set_time_constant] assigns [self.time_constant] before its check: a
    caller that catches the [ValueError] is left with this layer, the time
    constants assigned and the time weights as they were. *)
Definition refused_time_constant (self : CTRNNLayer.t R) (tc : list R)
  : CTRNNLayer.t R :=
  {| CTRNNLayer.layer_name := CTRNNLayer.layer_name self;
     CTRNNLayer.weight_dim := CTRNNLayer.weight_dim self;
     CTRNNLayer.bias_dim := CTRNNLayer.bias_dim self;
     CTRNNLayer.time_dim := CTRNNLayer.time_dim self;
     CTRNNLayer.weight_matrix := CTRNNLayer.weight_matrix self;
     CTRNNLayer.bias_vector := CTRNNLayer.bias_vector self;
     CTRNNLayer.time_interval := CTRNNLayer.time_interval self;
     CTRNNLayer.time_constant := tc;
     CTRNNLayer.time_weight := CTRNNLayer.time_weight self;
     CTRNNLayer.activation_function := CTRNNLayer.activation_function self;
     CTRNNLayer.previous_output := CTRNNLayer.previous_output self |}.

(** The states of a CTRNNLayer whose activation function keeps the length
    of its argument. *)
Inductive ctrnn : CTRNNLayer.t R -> Prop :=
| ctrnn_init (i o : nat) (dt : R) (tc : list R)
    (af : ActivationFunction.t R) (nm : string) (g g' : RandomState R)
    (l : CTRNNLayer.t R) :
    (forall b th v, length (ActivationFunction.compute af b th v) = length v) ->
    CTRNNLayer.init i o dt tc af nm g = Ok (l, g') -> ctrnn l
| ctrnn_set_weight (l l' : CTRNNLayer.t R) (w : np.matrix R) :
    ctrnn l -> consistent w ->
    CTRNNLayer.set_weight_matrix l w = Ok l' -> ctrnn l'
| ctrnn_set_bias (l l' : CTRNNLayer.t R) (b : list R) :
    ctrnn l -> CTRNNLayer.set_bias_vector l b = Ok l' -> ctrnn l'
| ctrnn_set_time (l l' : CTRNNLayer.t R) (tc : list R) :
    ctrnn l -> CTRNNLayer.set_time_constant l tc = Ok l' -> ctrnn l'
| ctrnn_set_time_refused (l : CTRNNLayer.t R) (tc : list R) (e : exn) :
    ctrnn l -> CTRNNLayer.set_time_constant l tc = Raise e ->
    ctrnn (refused_time_constant l tc)
| ctrnn_set_activation (l : CTRNNLayer.t R) (b th : R) :
    ctrnn l -> ctrnn (CTRNNLayer.set_activation_parameters l b th)
| ctrnn_step (l l' : CTRNNLayer.t R) (x out : list R) :
    ctrnn l -> CTRNNLayer.euler_step l x = Ok (out, l') -> ctrnn l'.

(** The shapes a TimeRecurrence that feeds a layer of [o] outputs
    keeps. *)
Definition recurrence_shaped (o : nat) (r : TimeRecurrence.t R) : Prop :=
  fst (TimeRecurrence.weight_dim r) = o /\
  np.shape (TimeRecurrence.weight_matrix r) = TimeRecurrence.weight_dim r /\
  length (TimeRecurrence.input_vector r) = snd (TimeRecurrence.weight_dim r).

(** The shapes a DynamicLayer keeps. *)
Definition dynamic_shaped (l : DynamicLayer.t R) : Prop :=
  np.shape (DynamicLayer.weight_matrix l) = DynamicLayer.weight_dim l /\
  DynamicLayer.bias_dim l = fst (DynamicLayer.weight_dim l) /\
  length (DynamicLayer.bias_vector l) = fst (DynamicLayer.weight_dim l) /\
  (exists d, delay_shaped d (snd (DynamicLayer.weight_dim l))
                          (DynamicLayer.delay_system l)) /\
  Forall (recurrence_shaped (fst (DynamicLayer.weight_dim l)))
         (DynamicLayer.recurrent_system l).

(** The states of a DynamicLayer constructed with an integer delay, a
    list of integer dimensions and an activation function.
    [update_parameters] acts through the setters listed here, also when
    it raises half-way. *)
Inductive dynamic : DynamicLayer.t R -> Prop :=
| dynamic_init (i o d : nat) (dims : list nat)
    (af : ActivationFunction.t R) (nm : string) (g g' : RandomState R)
    (l : DynamicLayer.t R) :
    DynamicLayer.init i o (PyInt d) (PyIntList dims) (PyActivation af) nm g
    = Ok (l, g') -> dynamic l
| dynamic_set_weight (l l' : DynamicLayer.t R) (w : np.matrix R) :
    dynamic l -> consistent w ->
    DynamicLayer.set_weight_matrix l w = Ok l' -> dynamic l'
| dynamic_set_bias (l l' : DynamicLayer.t R) (b : list R) :
    dynamic l -> DynamicLayer.set_bias_vector l b = Ok l' -> dynamic l'
| dynamic_set_delay_weight (l l' : DynamicLayer.t R) (w : np.matrix R) :
    dynamic l -> consistent w ->
    DynamicLayer.set_delay_weight_vector l w = Ok l' -> dynamic l'
| dynamic_set_recurrent_weight (l l' : DynamicLayer.t R) (w : np.matrix R)
    (index : nat) :
    dynamic l -> consistent w ->
    DynamicLayer.set_recurrent_weight_matrix l w index = Ok l' -> dynamic l'
| dynamic_set_recurrent_input (l l' : DynamicLayer.t R) (v : list R)
    (index : nat) :
    dynamic l ->
    DynamicLayer.set_recurrent_input l v index = Ok l' -> dynamic l'
| dynamic_set_activation (l : DynamicLayer.t R) (b th : R) :
    dynamic l -> dynamic (DynamicLayer.set_activation_parameters l b th)
| dynamic_forward (l l' : DynamicLayer.t R) (x out : list R) :
    dynamic l -> DynamicLayer.forward_propagate l x = Ok (out, l') ->
    dynamic l'.

(** What the loop over the recurrent systems adds to the static output
    [s]: for every system the product of its weight matrix and its stored
    input vector. *)
Definition recurrent_sum (rs : list (TimeRecurrence.t R)) (s : list R)
  : list R :=
  fold_left
    (fun acc r =>
       np.map2 sadd acc
         (map (fun row => np.inner row (TimeRecurrence.input_vector r))
              (np.rows (TimeRecurrence.weight_matrix r))))
    rs s.
End Reach.
End Reach.

(** Networks in which every layer is an input layer. *)
Module InputOnly.
Section InputOnly.
Context {R : Type} `{Scalar R}.

Import ArtificialNeuralNetwork.

(** The node of an input layer: the layer applied to a constant zero
    vector of its size and to its sensor placeholder. *)
Definition input_node (l : LayerSpec R) (p : nat) : tensor R :=
  numpy_function (name l) (constant (np.zeros (size l))) (placeholder p).

(** The locals of [_construct_graph] after the layers [pre] of the level
    0 have been generated, in this order. *)
Definition generated (lv : list (list string)) (pre : list (LayerSpec R))
    (st : locals R) : Prop :=
  l_placeholders st = length pre /\
  layers_generated st = length pre /\
  new_error_queue st = [] /\
  l_level_vector st = lv /\
  forall k l, nth_error pre k = Some l ->
    PyDict.get (l_sensor_inputs st) (name l) = Some k /\
    PyDict.get (l_output_matrix st) (name l) = Some (input_node l k).
End InputOnly.
End InputOnly.

(** * Properties of the layers *)

Section NumpyFacts.
Context {R : Type} `{Scalar R}.

Lemma map2_length (f : R -> R -> R) (u v : list R) :
  length u = length v -> length (np.map2 f u v) = length u.
Proof.
  revert v; induction u as [|a u IH]; intros [|b v] E; simpl in *;
    try discriminate; auto.
Qed.

Lemma map2_nth (f : R -> R -> R) (u v : list R) (d : R) :
  length u = length v ->
  np.map2 f u v = map (fun r => f (nth r u d) (nth r v d)) (seq 0 (length u)).
Proof.
  revert v; induction u as [|a u IH]; intros [|b v] E; simpl in *;
    try discriminate; auto.
  f_equal. rewrite <- seq_shift, map_map. apply IH. lia.
Qed.

Lemma nth_map_seq (g : nat -> R) (n r : nat) (d : R) :
  r < n -> nth r (map g (seq 0 n)) d = g r.
Proof.
  intros Hr. rewrite nth_indep with (d' := g 0)
    by (rewrite length_map, length_seq; lia).
  rewrite (map_nth g), seq_nth by lia. reflexivity.
Qed.

Lemma nth_map_any (f : R -> R) (l : list R) (r : nat) (d d' : R) :
  r < length l -> nth r (map f l) d = f (nth r l d').
Proof.
  intros Hr. rewrite nth_indep with (d' := f d')
    by (rewrite length_map; lia).
  apply map_nth.
Qed.

Lemma elementwise_same_length (f : R -> R -> R) (u v : list R) :
  length u = length v -> np.elementwise f u v = Ok (np.map2 f u v).
Proof.
  intros E. unfold np.elementwise. rewrite E, Nat.eqb_refl. reflexivity.
Qed.

Lemma rows_length (m : np.matrix R) :
  length (np.rows m) = fst (np.shape m).
Proof. unfold np.rows. now rewrite length_map, length_seq. Qed.

Lemma dot_rows (m : np.matrix R) (x : list R) :
  length x = snd (np.shape m) ->
  np.dot m x = Ok (map (fun r => np.inner (np.row m r) x)
                       (seq 0 (fst (np.shape m)))).
Proof.
  intros E. unfold np.dot, np.rows. rewrite E, Nat.eqb_refl, map_map.
  reflexivity.
Qed.

(** [np.add(np.dot(W, x), b)] is [W·x + b] when the shapes agree. *)
Lemma rows_add_affine (W : np.matrix R) (x b : list R) :
  length b = fst (np.shape W) ->
  np.add (map (fun r => np.inner (np.row W r) x) (seq 0 (fst (np.shape W)))) b
  = Ok (Spec.affine W x b).
Proof.
  intros Eb.
  unfold np.add. rewrite elementwise_same_length
    by (now rewrite length_map, length_seq).
  f_equal. rewrite map2_nth with (d := szero)
    by (now rewrite length_map, length_seq).
  rewrite length_map, length_seq. unfold Spec.affine.
  apply map_ext_in. intros r Hr. apply in_seq in Hr.
  f_equal.
  rewrite nth_indep with (d' := np.inner (np.row W 0) x)
    by (rewrite length_map, length_seq; lia).
  rewrite (map_nth (fun r => np.inner (np.row W r) x)), seq_nth by lia.
  reflexivity.
Qed.

Lemma affine_length (W : np.matrix R) (x b : list R) :
  length (Spec.affine W x b) = fst (np.shape W).
Proof. unfold Spec.affine. now rewrite length_map, length_seq. Qed.
End NumpyFacts.

Section StaticLayerFacts.
Context {R : Type} `{Scalar R}.

(** C2.  For a StaticLayer whose weight matrix has the shape (o, i) of
    its [weight_dim] and whose bias vector has length o, and for an input
    vector of length i, [forward_propagate] returns the activation of
    [W·x + b]. *)
Theorem static_forward_is_activated_affine
    (self : StaticLayer.t R) (x : list R) :
  np.shape (StaticLayer.weight_matrix self) = StaticLayer.weight_dim self ->
  length (StaticLayer.bias_vector self) = fst (StaticLayer.weight_dim self) ->
  length x = snd (StaticLayer.weight_dim self) ->
  StaticLayer.forward_propagate self x
  = Ok (ActivationFunction.calculate_activation
          (StaticLayer.activation_function self)
          (Spec.affine (StaticLayer.weight_matrix self) x
                       (StaticLayer.bias_vector self))).
Proof.
  intros HW Hb Hx. unfold StaticLayer.forward_propagate.
  rewrite Hx, Nat.eqb_refl. simpl.
  rewrite dot_rows by (now rewrite HW). simpl.
  rewrite rows_add_affine by (now rewrite HW). reflexivity.
Qed.
End StaticLayerFacts.

(** A StaticLayer with [W = [[1, 1]]] and [b = [0]] maps [[3, 4]] to
    [[7]]. *)
Lemma static_forward_witness :
  exists l, Example.static21 = Ok l /\
    StaticLayer.forward_propagate l [3; 4]%float
    = Ok (ActivationFunction.calculate_activation
            (StaticLayer.activation_function l)
            (Spec.affine (StaticLayer.weight_matrix l) [3; 4]%float
                         (StaticLayer.bias_vector l))) /\
    StaticLayer.forward_propagate l [3; 4]%float = Ok [7%float].
Proof.
  eexists. split; [reflexivity|]. split.
  - apply static_forward_is_activated_affine; reflexivity.
  - reflexivity.
Defined.

Section CTRNNLayerFacts.
Context {R : Type} `{Scalar R}.

Lemma euler_same_length (prev tw act : list R) :
  length tw = length prev ->
  length act = length prev ->
  (keep <- np.multiply prev (map (ssub sone) tw) ;;
   fresh <- np.multiply act tw ;;
   np.add keep fresh) = Ok (Spec.euler prev tw act).
Proof.
  intros Et Ea. unfold np.multiply, np.add.
  rewrite elementwise_same_length by (now rewrite length_map). simpl.
  rewrite elementwise_same_length by congruence. simpl.
  rewrite elementwise_same_length
    by (rewrite !map2_length; rewrite ?length_map; congruence).
  f_equal.
  rewrite map2_nth with (d := szero)
    by (rewrite !map2_length; rewrite ?length_map; congruence).
  rewrite map2_length by (now rewrite length_map).
  unfold Spec.euler. apply map_ext_in. intros r Hr. apply in_seq in Hr.
  rewrite map2_nth with (d := szero) by (now rewrite length_map).
  rewrite map2_nth with (d := szero) (u := act) by congruence.
  rewrite !nth_map_seq by lia.
  rewrite nth_map_any with (d' := szero) by lia.
  reflexivity.
Qed.

(** The general part of C3: [euler_step] returns
    [prev·(1 − time_weight) + activation(W·x + b)·time_weight] and stores
    it as the previous output. *)
Lemma euler_step_equation (self : CTRNNLayer.t R) (x : list R) :
  np.shape (CTRNNLayer.weight_matrix self) = CTRNNLayer.weight_dim self ->
  length (CTRNNLayer.bias_vector self) = fst (CTRNNLayer.weight_dim self) ->
  length (CTRNNLayer.time_weight self) = fst (CTRNNLayer.weight_dim self) ->
  length (CTRNNLayer.previous_output self) = fst (CTRNNLayer.weight_dim self) ->
  (forall v, length (ActivationFunction.calculate_activation
                       (CTRNNLayer.activation_function self) v) = length v) ->
  length x = snd (CTRNNLayer.weight_dim self) ->
  let activated :=
    ActivationFunction.calculate_activation
      (CTRNNLayer.activation_function self)
      (Spec.affine (CTRNNLayer.weight_matrix self) x
                   (CTRNNLayer.bias_vector self)) in
  let output :=
    Spec.euler (CTRNNLayer.previous_output self)
               (CTRNNLayer.time_weight self) activated in
  CTRNNLayer.euler_step self x
  = Ok (output, CTRNNLayer.with_previous_output self output).
Proof.
  intros HW Hb Ht Hp Ha Hx activated output.
  unfold CTRNNLayer.euler_step.
  rewrite Hx, Nat.eqb_refl. simpl.
  rewrite dot_rows by (now rewrite HW). simpl.
  rewrite rows_add_affine by (now rewrite HW). simpl.
  fold activated.
  pose proof (euler_same_length (CTRNNLayer.previous_output self)
                (CTRNNLayer.time_weight self) activated) as E.
  assert (La : length activated = length (CTRNNLayer.previous_output self)).
  { unfold activated. rewrite Ha, affine_length, HW. congruence. }
  specialize (E ltac:(congruence) La).
  destruct (np.multiply (CTRNNLayer.previous_output self)
              (map (ssub sone) (CTRNNLayer.time_weight self)))
    as [keep|e]; simpl in *; [|discriminate].
  destruct (np.multiply activated (CTRNNLayer.time_weight self))
    as [fresh|e]; simpl in *; [|discriminate].
  rewrite E. reflexivity.
Qed.
End CTRNNLayerFacts.

(** C3.  [euler_step] computes [activated = activation(W·x + b)], returns
    [prev_output·(1 − time_weight) + activated·time_weight] and stores the
    result as the previous output of the next call; the CTRNN layer with
    [τ = [1.0]], [Δt = 0.5], identity activation, [W = [[1]]], [b = [0]],
    called with [[2]] twice, returns [1.0] and then [1.5]. *)
Theorem ctrnn_euler_step :
  (forall (R : Type) (S : Scalar R) (self : CTRNNLayer.t R) (x : list R),
      np.shape (CTRNNLayer.weight_matrix self) = CTRNNLayer.weight_dim self ->
      length (CTRNNLayer.bias_vector self) = fst (CTRNNLayer.weight_dim self) ->
      length (CTRNNLayer.time_weight self) = fst (CTRNNLayer.weight_dim self) ->
      length (CTRNNLayer.previous_output self) = fst (CTRNNLayer.weight_dim self) ->
      (forall v, length (ActivationFunction.calculate_activation
                           (CTRNNLayer.activation_function self) v) = length v) ->
      length x = snd (CTRNNLayer.weight_dim self) ->
      exists output self',
        CTRNNLayer.euler_step self x = Ok (output, self') /\
        output = Spec.euler (CTRNNLayer.previous_output self)
                   (CTRNNLayer.time_weight self)
                   (ActivationFunction.calculate_activation
                      (CTRNNLayer.activation_function self)
                      (Spec.affine (CTRNNLayer.weight_matrix self) x
                                   (CTRNNLayer.bias_vector self))) /\
        CTRNNLayer.previous_output self' = output /\
        self' = CTRNNLayer.with_previous_output self output) /\
  (exists l, Example.ctrnn = Ok l /\
     CTRNNLayer.time_weight l = [0.5%float] /\
     Example.two_steps l [2%float] [2%float] = Ok ([1%float], [1.5%float])).
Proof.
  split.
  - intros R S self x HW Hb Ht Hp Ha Hx.
    eexists. eexists. split.
    + apply euler_step_equation; assumption.
    + repeat split.
  - eexists. split; [reflexivity|]. split; reflexivity.
Qed.

(** The general equation of [ctrnn_euler_step] at the layer of its
    example, on the input [[2]]. *)
Lemma ctrnn_euler_step_witness :
  exists l, Example.ctrnn = Ok l /\
  exists output self',
    CTRNNLayer.euler_step l [2%float] = Ok (output, self') /\
    output = [1%float] /\
    CTRNNLayer.previous_output self' = [1%float].
Proof.
  eexists. split; [reflexivity|].
  destruct (proj1 ctrnn_euler_step float float_scalar
              {| CTRNNLayer.layer_name := "ctrnn";
                 CTRNNLayer.weight_dim := (1, 1);
                 CTRNNLayer.bias_dim := 1;
                 CTRNNLayer.time_dim := 1;
                 CTRNNLayer.weight_matrix :=
                   {| np.shape := (1, 1); np.elems := [1%float] |};
                 CTRNNLayer.bias_vector := [0%float];
                 CTRNNLayer.time_interval := 0.5%float;
                 CTRNNLayer.time_constant := [1%float];
                 CTRNNLayer.time_weight := [0.5%float];
                 CTRNNLayer.activation_function := Example.identity;
                 CTRNNLayer.previous_output := [0%float] |}
              [2%float]
              eq_refl eq_refl eq_refl eq_refl (fun v => eq_refl) eq_refl)
    as (output & self' & E & Eo & Ep & _).
  exists output, self'. split; [exact E|]. split.
  - rewrite Eo. reflexivity.
  - rewrite Ep, Eo. reflexivity.
Defined.

Section TimeRecurrenceFacts.
Context {R : Type} `{Scalar R}.


End TimeRecurrenceFacts.

Section Float64.


End Float64.


(** A recurrence with one input and two outputs whose weights were
    replaced by an infinity and a zero returns a nan in the first place:
    the infinity times the stored zero. *)
Lemma recurrence_forward_not_zero :
  exists r,
    TimeRecurrence.set_weight_matrix Example.recurrence12
      Example.w21_infinite = Ok r /\
    Spec.untouched 1 2 r /\
    TimeRecurrence.forward_propagate r = Ok [nan; 0]%float /\
    TimeRecurrence.forward_propagate r <> Ok (np.zeros 2).
Proof.
  eexists. split; [reflexivity|]. split; [|split].
  - apply Spec.untouched_set_weight
      with (r := Example.recurrence12) (w := Example.w21_infinite).
    + apply (Spec.untouched_init 1 2 Example.g0).
    + reflexivity.
  - vm_compute. reflexivity.
  - intros E.
    apply (f_equal (fun out => match out with
                               | Ok (a :: _) => is_nan a
                               | _ => false
                               end)) in E.
    vm_compute in E. discriminate E.
Qed.

Section ParameterVectors.
Context {R : Type} `{Scalar R}.

(** [StaticLayer.update_parameters] stops at the bare name [bias_dim],
    whatever the vector. *)
Lemma static_update_stops (self : StaticLayer.t R) (v : list R) :
  StaticLayer.update_parameters self v = Raise (NameError "bias_dim").
Proof. reflexivity. Qed.

Lemma ctrnn_update_stops (self : CTRNNLayer.t R) (v : list R) :
  CTRNNLayer.update_parameters self v = Raise (NameError "bias_dim").
Proof. reflexivity. Qed.

Lemma rbf_update_stops (self : RBFLayer.t R) (v : list R) :
  RBFLayer.update_parameters self v
  = Raise (ValueError
      "The parameter vector consists of elements less than required").
Proof. reflexivity. Qed.

Lemma dynamic_return_is_None (d : DynamicLayer.t R) (v : list R) :
  DynamicLayer.return_parameters d <> Ok (Some v).
Proof.
  unfold DynamicLayer.return_parameters.
  destruct (DynamicLayer.return_parameters_output d); simpl; discriminate.
Qed.

Lemma slice_app_left (a b : list R) :
  np.slice (a ++ b) 0 (0 + length a) = a.
Proof.
  unfold np.slice. simpl. rewrite Nat.sub_0_r, firstn_app, Nat.sub_diag.
  simpl. rewrite firstn_all. apply app_nil_r.
Qed.

Lemma slice_app_right (a b c : list R) (n : nat) :
  n = length a ->
  np.slice (a ++ b ++ c) n (n + length b) = b.
Proof.
  intros ->. unfold np.slice.
  rewrite skipn_app, skipn_all, Nat.sub_diag. simpl.
  replace (length a + length b - length a) with (length b) by lia.
  rewrite firstn_app, Nat.sub_diag. simpl.
  rewrite firstn_all. apply app_nil_r.
Qed.

Lemma index_app (a : list R) (x : R) (b : list R) (n : nat) :
  n = length a -> np.index (a ++ x :: b) n = Ok x.
Proof.
  intros ->. unfold np.index.
  rewrite nth_error_app2, Nat.sub_diag by lia. reflexivity.
Qed.

(** The [try] block of [StaticLayer.update_parameters], run with the
    bias interval the layer declares, consumes exactly what
    [return_parameters] produces and reproduces the layer. *)
Lemma static_body_round_trip (self : StaticLayer.t R) :
  np.shape (StaticLayer.weight_matrix self) = StaticLayer.weight_dim self ->
  length (np.elems (StaticLayer.weight_matrix self))
    = fst (StaticLayer.weight_dim self) * snd (StaticLayer.weight_dim self) ->
  length (StaticLayer.bias_vector self) = StaticLayer.bias_dim self ->
  StaticLayer.update_parameters_body self (StaticLayer.return_parameters self)
    (fst (StaticLayer.weight_dim self) * snd (StaticLayer.weight_dim self))
    (StaticLayer.bias_dim self)
  = Ok (self, length (StaticLayer.return_parameters self)).
Proof.
  destruct self as [nm [o i] bd [sh el] b [cmp be th]]. simpl.
  intros Hs Hl Hb. subst sh.
  unfold StaticLayer.update_parameters_body, StaticLayer.return_parameters.
  simpl.
  unfold StaticLayer.get_activation_parameters,
    ActivationFunction.get_parameters. simpl.
  rewrite <- Hl at 1. rewrite slice_app_left.
  unfold np.reshape2. simpl. rewrite Hl, Nat.eqb_refl. simpl.
  unfold StaticLayer.set_weight_matrix. simpl.
  rewrite !Nat.eqb_refl. simpl.
  rewrite <- Hb at 1. rewrite slice_app_right by (symmetry; exact Hl).
  unfold np.reshape1. rewrite Hb, Nat.eqb_refl. simpl.
  unfold StaticLayer.set_bias_vector. simpl. rewrite Hb, Nat.eqb_refl. simpl.
  assert (E0 : np.index (el ++ b ++ [be; th]) (o * i + bd) = Ok be).
  { rewrite app_assoc. apply index_app. rewrite length_app; lia. }
  assert (E1 : np.index (el ++ b ++ [be; th]) (o * i + bd + 1) = Ok th).
  { replace (el ++ b ++ [be; th]) with ((el ++ b ++ [be]) ++ th :: [])
      by (now rewrite <- !app_assoc).
    apply index_app. rewrite !length_app; simpl; lia. }
  rewrite E0. simpl. rewrite E1. simpl.
  unfold StaticLayer.set_activation_parameters,
    ActivationFunction.set_parameters. simpl.
  rewrite !length_app. simpl.
  do 2 f_equal. lia.
Qed.
End ParameterVectors.

(** C7.  On a freshly constructed StaticLayer, [update_parameters] applied
    to the vector [return_parameters] returns does not reproduce the
    parameters: it raises [NameError] at the bare name [bias_dim], for
    every StaticLayer; and [DynamicLayer.return_parameters] never returns a
    vector. *)
Theorem round_trip_raises :
  StaticLayer.return_parameters Example.static11
    = [0.25; 0.25; 1; 0]%float /\
  StaticLayer.update_parameters Example.static11
    (StaticLayer.return_parameters Example.static11)
    = Raise (NameError "bias_dim") /\
  (forall (R : Type) (S : Scalar R) (self : StaticLayer.t R),
      StaticLayer.update_parameters self (StaticLayer.return_parameters self)
      = Raise (NameError "bias_dim")) /\
  (forall (R : Type) (S : Scalar R) (d : DynamicLayer.t R) (v : list R),
      DynamicLayer.return_parameters d <> Ok (Some v)).
Proof.
  split; [reflexivity|]. split; [reflexivity|]. split.
  - intros. apply static_update_stops.
  - intros. apply dynamic_return_is_None.
Qed.

(** C8.  On a StaticLayer that requires four parameters, a vector of seven
    does not succeed with a warning, and an empty vector does not raise the
    dimension error: both calls raise [NameError]; so does every call of
    [update_parameters] of a StaticLayer or of a CTRNNLayer. *)
Theorem update_parameters_raises_name_error :
  length (StaticLayer.return_parameters Example.static11) = 4 /\
  StaticLayer.update_parameters Example.static11
    [0.5; 0.5; 1; 0; 9; 9; 9]%float = Raise (NameError "bias_dim") /\
  StaticLayer.update_parameters Example.static11 []
    = Raise (NameError "bias_dim") /\
  (exists l, Example.ctrnn11 = Ok l /\
     CTRNNLayer.update_parameters l [1; 0.5; 0.5; 1; 0; 9; 9; 9]%float
     = Raise (NameError "bias_dim")) /\
  (forall (R : Type) (S : Scalar R) (self : StaticLayer.t R) (v : list R),
      StaticLayer.update_parameters self v = Raise (NameError "bias_dim")) /\
  (forall (R : Type) (S : Scalar R) (self : CTRNNLayer.t R) (v : list R),
      CTRNNLayer.update_parameters self v = Raise (NameError "bias_dim")).
Proof.
  split; [reflexivity|]. split; [reflexivity|]. split; [reflexivity|]. split.
  - eexists. split; reflexivity.
  - split; intros.
    + apply static_update_stops.
    + apply ctrnn_update_stops.
Qed.

(** * Properties of the network *)

Section ExecutorFacts.
Context {R : Type} `{Scalar R}.

Import ArtificialNeuralNetwork.

(** With two contributing layers or more, the first of which produced an
    output, the assembly of a hardware layer raises: either the truth value
    of the comparison with [None] is ambiguous, or [np.sum] rejects the
    second array as an axis. *)
Lemma collect_two_raises (layer : string) (output : PyDict.t (list R))
    (c1 c2 : string * bool) (rest : list (string * bool)) (v1 : list R) :
  PyDict.get output (fst c1) = Some v1 ->
  collect layer output (c1 :: c2 :: rest) None
  = Raise (PyException
      (String.append "There is something wrong with the configuration of "
                     layer)).
Proof.
  intros E. cbn [collect].
  assert (E1 : contribute output None c1 = Ok (Some v1)).
  { unfold contribute, PyDict.item. cbn. rewrite E. reflexivity. }
  rewrite E1. cbn [try_except_raise bind].
  assert (E2 : exists e, contribute output (Some v1) c2 = Raise e).
  { unfold contribute, equals_None, PyDict.item.
    destruct (length v1 <=? 1); cbn; [|eauto].
    destruct (PyDict.get output (fst c2)); cbn; eauto. }
  destruct E2 as [e ->]. reflexivity.
Qed.

Lemma collect_one (layer : string) (output : PyDict.t (list R))
    (c1 : string * bool) (v1 : list R) :
  PyDict.get output (fst c1) = Some v1 ->
  collect layer output [c1] None = Ok (Some v1).
Proof.
  intros E. cbn [collect]. unfold contribute, PyDict.item. cbn.
  rewrite E. reflexivity.
Qed.
End ExecutorFacts.

(** C4.  With two layers of one neuron (or of two neurons) that list the
    hardware layer "motor" as a destination, the returned dictionary is not
    built: the assembly raises the configuration exception although the
    dimensions agree.  It does so for every hardware layer with two
    contributions or more. *)
Theorem output_dict_of_two_drivers_raises :
  (Example.network Example.two_drivers
     = Some (Ok (Example.built Example.two_drivers)) /\
   ArtificialNeuralNetwork.output_layers (Example.built Example.two_drivers)
     = ["motor"] /\
   PyDict.get (ArtificialNeuralNetwork.input_connections
                 (Example.built Example.two_drivers)) "motor"
     = Some [("L1", false); ("L2", false)] /\
   ArtificialNeuralNetwork.forward_propagate_output_dict
     (Example.built Example.two_drivers)
     [("L1", [1%float]); ("L2", [2%float])]
   = Raise (PyException
       "There is something wrong with the configuration of motor")) /\
  (Example.network Example.two_wide_drivers
     = Some (Ok (Example.built Example.two_wide_drivers)) /\
   ArtificialNeuralNetwork.forward_propagate_output_dict
     (Example.built Example.two_wide_drivers)
     [("L1", [1; 2]%float); ("L2", [3; 4]%float)]
   = Raise (PyException
       "There is something wrong with the configuration of motor")) /\
  (forall (R : Type) (S : Scalar R) (layer : string)
          (output : PyDict.t (list R)) (c1 c2 : string * bool)
          (rest : list (string * bool)) (v1 : list R),
      PyDict.get output (fst c1) = Some v1 ->
      ArtificialNeuralNetwork.collect layer output (c1 :: c2 :: rest) None
      = Raise (PyException
          (String.append "There is something wrong with the configuration of "
                         layer))).
Proof.
  split; [|split].
  - split; [|split; [|split]]; vm_compute; reflexivity.
  - split; vm_compute; reflexivity.
  - intros. eapply collect_two_raises; eassumption.
Qed.

(** C9.  On the network of the layers "in" and "out",
    [return_parameters_as_vector] returns no mapping for the non-input
    layer "out": it looks the layers up under the keys "layer_0",
    "layer_1", ... and raises [KeyError].  It returns the mapping when the
    layers carry exactly these names. *)
Theorem return_parameters_as_vector_key_error :
  (Example.network Example.in_out = Some (Ok (Example.built Example.in_out)) /\
   ArtificialNeuralNetwork.input_layers (Example.built Example.in_out)
     = ["in"] /\
   PyDict.keys (ArtificialNeuralNetwork.layer_map (Example.built Example.in_out))
     = ["in"; "out"] /\
   ArtificialNeuralNetwork.return_parameters_as_vector
     (Example.built Example.in_out)
   = Raise (KeyError "layer_0")) /\
  (Example.network Example.numbered
     = Some (Ok (Example.built Example.numbered)) /\
   ArtificialNeuralNetwork.return_parameters_as_vector
     (Example.built Example.numbered)
   = Ok [("layer_1", Some [0.25; 0.25; 1; 0]%float)]).
Proof.
  split.
  - split; [|split; [|split]]; vm_compute; reflexivity.
  - split; vm_compute; reflexivity.
Qed.

Section SensorFacts.
Context {R : Type} `{Scalar R}.

Import ArtificialNeuralNetwork.

Lemma feed_get_set_eq (f : feed) (p : nat) (v : list R) :
  feed_get (feed_set f p v) p = Some v.
Proof.
  induction f as [|[q w] f IH]; simpl.
  - now rewrite Nat.eqb_refl.
  - destruct (q =? p) eqn:E; simpl; rewrite E; auto.
Qed.

Lemma feed_get_set_ne (f : feed) (p q : nat) (v : list R) :
  p <> q -> feed_get (feed_set f p v) q = feed_get f q.
Proof.
  intros N. induction f as [|[q' w] f IH]; simpl.
  - destruct (p =? q) eqn:E; auto. apply Nat.eqb_eq in E. contradiction.
  - destruct (q' =? p) eqn:E; simpl.
    + apply Nat.eqb_eq in E. subst q'.
      destruct (p =? q) eqn:E'; auto. apply Nat.eqb_eq in E'. contradiction.
    + destruct (q' =? q); auto.
Qed.

(** What [feed_layer] writes: under the layer's placeholder, the value
    found under the layer's sensor name, or the zero vector. *)
Lemma feed_layer_writes (self : t R) (input_dict : PyDict.t (list R))
    (f : feed) (l : LayerSpec R) (p n : nat) :
  PyDict.get (sensor_inputs self) (name l) = Some p ->
  PyDict.get (neuron_map self) (name l) = Some n ->
  feed_layer self input_dict f l
  = Ok (feed_set f p match PyDict.get input_dict (sensor l) with
                     | Some v => v
                     | None => np.zeros n
                     end).
Proof.
  intros Ep En. unfold feed_layer, PyDict.item. rewrite Ep, En.
  destruct (PyDict.get input_dict (sensor l)); reflexivity.
Qed.

Lemma feed_layers_default (self : t R) (input_dict : PyDict.t (list R))
    (l : LayerSpec R) (p n : nat) (layers : list (LayerSpec R)) :
  (forall l', In l' layers ->
     exists p' n', PyDict.get (sensor_inputs self) (name l') = Some p' /\
                   PyDict.get (neuron_map self) (name l') = Some n') ->
  PyDict.get input_dict (sensor l) = None ->
  PyDict.get (sensor_inputs self) (name l) = Some p ->
  PyDict.get (neuron_map self) (name l) = Some n ->
  (forall l', In l' layers ->
     PyDict.get (sensor_inputs self) (name l') = Some p -> l' = l) ->
  forall f0,
    In l layers \/ feed_get f0 p = Some (np.zeros n) ->
    exists f, feed_layers self input_dict layers f0 = Ok f /\
              feed_get f p = Some (np.zeros n).
Proof.
  intros Hall Hmiss Hp Hn. induction layers as [|a layers IH];
    intros Hinj f0 Hin.
  - destruct Hin as [[]|Hin]. exists f0. now split.
  - destruct (Hall a (or_introl eq_refl)) as (p' & n' & Ep' & En').
    cbn [feed_layers]. rewrite (feed_layer_writes self input_dict f0 a Ep' En').
    cbn [bind]. apply IH.
    + intros l' Hl'. apply Hall. now right.
    + intros l' Hl'. apply Hinj. now right.
    + destruct (Nat.eq_dec p' p) as [->|Np].
      * right. assert (a = l) by (apply Hinj; [now left|assumption]).
        subst a. rewrite Hmiss. rewrite feed_get_set_eq.
        congruence.
      * rewrite feed_get_set_ne by exact Np.
        destruct Hin as [[->|Hin]|Hin]; auto. congruence.
Qed.

Lemma feed_layers_total (self : t R) (input_dict : PyDict.t (list R))
    (layers : list (LayerSpec R)) :
  (forall l', In l' layers ->
     exists p' n', PyDict.get (sensor_inputs self) (name l') = Some p' /\
                   PyDict.get (neuron_map self) (name l') = Some n') ->
  forall f0, exists f, feed_layers self input_dict layers f0 = Ok f.
Proof.
  induction layers as [|a layers IH]; intros Hall f0.
  - now exists f0.
  - destruct (Hall a (or_introl eq_refl)) as (p' & n' & Ep' & En').
    cbn [feed_layers]. rewrite (feed_layer_writes self input_dict f0 a Ep' En').
    cbn [bind]. apply IH. intros l' Hl'. apply Hall. now right.
Qed.

(** C6, as the code has it.  When every layer of the network has its
    placeholder and its size, the loop that fills the sensor feed raises no
    error; a layer whose sensor name, [layer[4]], is no key of the input
    dictionary is fed the zero vector of the layer's size, and for the
    size 3 this vector is [[0, 0, 0]]. *)
Theorem missing_sensor_feeds_zeros (self : t R)
    (input_dict : PyDict.t (list R)) :
  (forall l, In l (order_of_execution self) ->
     exists p n, PyDict.get (sensor_inputs self) (name l) = Some p /\
                 PyDict.get (neuron_map self) (name l) = Some n) ->
  (exists f, forward_propagate_sensor_input self input_dict = Ok f) /\
  (forall l p n,
     In l (order_of_execution self) ->
     PyDict.get input_dict (sensor l) = None ->
     PyDict.get (sensor_inputs self) (name l) = Some p ->
     PyDict.get (neuron_map self) (name l) = Some n ->
     (forall l', In l' (order_of_execution self) ->
        PyDict.get (sensor_inputs self) (name l') = Some p -> l' = l) ->
     exists f, forward_propagate_sensor_input self input_dict = Ok f /\
               feed_get f p = Some (np.zeros n)) /\
  np.zeros 3 = [szero; szero; szero].
Proof.
  intros Hall. split; [|split].
  - apply feed_layers_total. exact Hall.
  - intros l p n Hin Hmiss Hp Hn Hinj.
    unfold forward_propagate_sensor_input.
    eapply feed_layers_default; eauto.
  - reflexivity.
Qed.
End SensorFacts.

(** [missing_sensor_feeds_zeros] at the network of one input layer "L1" of
    size 3 that reads the sensor "IR", with an empty input dictionary. *)
Lemma missing_sensor_witness :
  Example.network Example.one_sensor
    = Some (Ok (Example.built Example.one_sensor)) /\
  exists f,
    ArtificialNeuralNetwork.forward_propagate_sensor_input
      (Example.built Example.one_sensor) [] = Ok f /\
    ArtificialNeuralNetwork.feed_get f 0 = Some [0; 0; 0]%float.
Proof.
  split; [vm_compute; reflexivity|].
  assert (Hall : forall l,
    In l (ArtificialNeuralNetwork.order_of_execution
            (Example.built Example.one_sensor)) ->
    exists p n,
      PyDict.get (ArtificialNeuralNetwork.sensor_inputs
                    (Example.built Example.one_sensor))
                 (ArtificialNeuralNetwork.name l) = Some p /\
      PyDict.get (ArtificialNeuralNetwork.neuron_map
                    (Example.built Example.one_sensor))
                 (ArtificialNeuralNetwork.name l) = Some n).
  { intros l [<-|[]]. exists 0, 3. split; vm_compute; reflexivity. }
  destruct (missing_sensor_feeds_zeros (Example.built Example.one_sensor)
              [] Hall) as (_ & Hd & _).
  apply (Hd (Example.layer "L1" 3 "STATIC" "IR" ["motor"] []) 0 3).
  - left. reflexivity.
  - reflexivity.
  - vm_compute; reflexivity.
  - vm_compute; reflexivity.
  - intros l' [<-|[]] _. reflexivity.
Defined.

(** The input layer "L1" reads the sensor "IR".  With the input dictionary
    [{"IR": [1, 2, 3]}] the name "L1" is missing from the dictionary, and
    the layer is fed [[1, 2, 3]], not the zero vector: C6, read with the
    layer's name as the key, does not hold. *)
Lemma sensor_lookup_is_not_by_layer_name :
  ~ (forall (self : ArtificialNeuralNetwork.t float)
            (input_dict : PyDict.t (list float))
            (l : ArtificialNeuralNetwork.LayerSpec float),
        In l (ArtificialNeuralNetwork.order_of_execution self) ->
        In (ArtificialNeuralNetwork.name l)
           (ArtificialNeuralNetwork.input_layers self) ->
        PyDict.get input_dict (ArtificialNeuralNetwork.name l) = None ->
        exists f p,
          ArtificialNeuralNetwork.forward_propagate_sensor_input self input_dict
            = Ok f /\
          PyDict.get (ArtificialNeuralNetwork.sensor_inputs self)
                     (ArtificialNeuralNetwork.name l) = Some p /\
          ArtificialNeuralNetwork.feed_get f p
            = Some (np.zeros (ArtificialNeuralNetwork.size l))).
Proof.
  intros C.
  destruct (C (Example.built Example.one_sensor)
              [("IR", [1; 2; 3]%float)]
              (Example.layer "L1" 3 "STATIC" "IR" ["motor"] []))
    as (f & p & Ef & Ep & Eg).
  - left. reflexivity.
  - left. reflexivity.
  - reflexivity.
  - vm_compute in Ef. injection Ef as <-.
    vm_compute in Ep. injection Ep as <-.
    apply (f_equal (fun o => match o with
                             | Some v => Example.head_is_zero v
                             | None => true
                             end)) in Eg.
    vm_compute in Eg. discriminate.
Qed.

(** ** Dictionaries *)

Section DictFacts.
Context {V : Type}.

Lemma get_set_eq (d : PyDict.t V) (k : string) (v : V) :
  PyDict.get (PyDict.set d k v) k = Some v.
Proof.
  induction d as [|[k' v'] d IH]; simpl.
  - now rewrite String.eqb_refl.
  - destruct (String.eqb k' k) eqn:E; simpl; rewrite E; auto.
Qed.

Lemma get_set_ne (d : PyDict.t V) (k k' : string) (v : V) :
  k <> k' -> PyDict.get (PyDict.set d k v) k' = PyDict.get d k'.
Proof.
  intros N. induction d as [|[k0 v0] d IH]; simpl.
  - destruct (String.eqb k k') eqn:E; auto.
    apply String.eqb_eq in E. contradiction.
  - destruct (String.eqb k0 k) eqn:E; simpl.
    + apply String.eqb_eq in E. subst k0.
      destruct (String.eqb k k') eqn:E'; auto.
      apply String.eqb_eq in E'. contradiction.
    + destruct (String.eqb k0 k'); auto.
Qed.

Lemma get_set (d : PyDict.t V) (k k' : string) (v : V) :
  PyDict.get (PyDict.set d k v) k'
  = if String.eqb k k' then Some v else PyDict.get d k'.
Proof.
  destruct (String.eqb k k') eqn:E.
  - apply String.eqb_eq in E. subst. apply get_set_eq.
  - apply String.eqb_neq in E. now apply get_set_ne.
Qed.

Lemma in_keys_get (d : PyDict.t V) (k : string) :
  In k (PyDict.keys d) <-> exists v, PyDict.get d k = Some v.
Proof.
  induction d as [|[k' v'] d IH]; simpl.
  - split; [intros []|intros [v E]; discriminate].
  - destruct (String.eqb k' k) eqn:E.
    + apply String.eqb_eq in E. subst. split; eauto.
    + apply String.eqb_neq in E. rewrite IH. split; auto.
      intros [C|C]; [contradiction|exact C].
Qed.

Lemma str_in_In (x : string) (l : list string) :
  str_in x l = true <-> In x l.
Proof.
  unfold str_in. rewrite existsb_exists. split.
  - intros (y & Hy & E). apply String.eqb_eq in E. now subst.
  - intros Hx. exists x. split; auto. apply String.eqb_refl.
Qed.

Lemma str_in_false (x : string) (l : list string) :
  str_in x l = false <-> ~ In x l.
Proof.
  rewrite <- str_in_In. destruct (str_in x l); split; congruence.
Qed.

Lemma item_get (d : PyDict.t V) (k : string) (v : V) :
  PyDict.get d k = Some v -> PyDict.item d k = Ok v.
Proof. unfold PyDict.item. now intros ->. Qed.
End DictFacts.

(** ** _construct_layers *)

Section ConstructLayersFacts.
Context {R : Type} `{Scalar R}.

Import ArtificialNeuralNetwork.

Lemma extend_nil {A : Type} (o : option (list A)) : Aux.extend o [] = o.
Proof. reflexivity. Qed.

Lemma extend_app {A : Type} (o : option (list A)) (l1 l2 : list A) :
  Aux.extend (Aux.extend o l1) l2 = Aux.extend o (l1 ++ l2).
Proof.
  destruct l1 as [|x l1]; [reflexivity|].
  destruct l2 as [|y l2]; simpl.
  - now rewrite app_nil_r.
  - now rewrite <- app_assoc.
Qed.

Lemma invert_outputs_get (layer : LayerSpec R) (outs : list string)
    (ic : PyDict.t (list (string * bool))) (target : string) :
  PyDict.get (invert_outputs layer outs ic) target
  = Aux.extend (PyDict.get ic target)
      (map (fun _ => (name layer, str_in target (delayed layer)))
           (filter (String.eqb target) outs)).
Proof.
  revert ic. induction outs as [|o outs IH]; intros ic; [reflexivity|].
  cbn [invert_outputs filter].
  rewrite IH. clear IH.
  destruct (String.eqb target o) eqn:E.
  - apply String.eqb_eq in E. subst o. cbn [map].
    change ((name layer, str_in target (delayed layer)) :: ?l)
      with ([(name layer, str_in target (delayed layer))] ++ l).
    rewrite <- extend_app. f_equal.
    destruct (PyDict.get ic target); now rewrite get_set_eq.
  - apply String.eqb_neq in E. f_equal.
    destruct (PyDict.get ic o); rewrite get_set_ne; auto.
Qed.

Lemma record_connections_input (layer_vector : list (LayerSpec R))
    (c : connections) (target : string) :
  PyDict.get (c_input (record_connections layer_vector c)) target
  = Aux.extend (PyDict.get (c_input c) target)
               (Declared.upstream layer_vector target).
Proof.
  revert c. induction layer_vector as [|l lv IH]; intros c; [reflexivity|].
  cbn [record_connections]. rewrite IH. cbn [c_input].
  rewrite invert_outputs_get, extend_app. reflexivity.
Qed.

Lemma record_connections_other (layer_vector : list (LayerSpec R))
    (c : connections) (n : string) :
  ~ In n (map name layer_vector) ->
  PyDict.get (c_neuron_map (record_connections layer_vector c)) n
    = PyDict.get (c_neuron_map c) n /\
  PyDict.get (c_output (record_connections layer_vector c)) n
    = PyDict.get (c_output c) n.
Proof.
  revert c. induction layer_vector as [|l lv IH]; intros c N; [now split|].
  cbn [record_connections]. simpl in N.
  destruct (IH {| c_neuron_map := PyDict.set (c_neuron_map c) (name l) (size l);
                  c_output := PyDict.set (c_output c) (name l) (outputs l);
                  c_input := invert_outputs l (outputs l) (c_input c) |})
    as [E1 E2]; [tauto|].
  rewrite E1, E2. cbn [c_neuron_map c_output].
  rewrite !get_set_ne by tauto. now split.
Qed.

Lemma record_connections_declared (layer_vector : list (LayerSpec R))
    (c : connections) (l : LayerSpec R) :
  NoDup (map name layer_vector) ->
  In l layer_vector ->
  PyDict.get (c_neuron_map (record_connections layer_vector c)) (name l)
    = Some (size l) /\
  PyDict.get (c_output (record_connections layer_vector c)) (name l)
    = Some (outputs l).
Proof.
  revert c. induction layer_vector as [|a lv IH]; intros c ND Hin; [easy|].
  cbn [record_connections]. simpl in ND. inversion ND as [|? ? Na ND']; subst.
  destruct Hin as [->|Hin].
  - destruct (record_connections_other lv
        {| c_neuron_map := PyDict.set (c_neuron_map c) (name l) (size l);
           c_output := PyDict.set (c_output c) (name l) (outputs l);
           c_input := invert_outputs l (outputs l) (c_input c) |}
        (name l) Na) as [E1 E2].
    rewrite E1, E2. cbn [c_neuron_map c_output].
    now rewrite !get_set_eq.
  - now apply IH.
Qed.

Lemma size_of_declared (layer_vector : list (LayerSpec R)) (l : LayerSpec R) :
  NoDup (map name layer_vector) ->
  In l layer_vector ->
  Declared.size_of layer_vector (name l) = size l.
Proof.
  unfold Declared.size_of.
  induction layer_vector as [|a lv IH]; intros ND Hin; [easy|].
  simpl in ND. inversion ND as [|? ? Na ND']; subst. cbn [find].
  destruct Hin as [->|Hin].
  - now rewrite String.eqb_refl.
  - destruct (String.eqb (name a) (name l)) eqn:E.
    + apply String.eqb_eq in E. exfalso. apply Na. rewrite E.
      now apply in_map.
    + now apply IH.
Qed.

Lemma upstream_sources (layer_vector : list (LayerSpec R)) (target : string)
    (c : string * bool) :
  In c (Declared.upstream layer_vector target) ->
  exists src, In src layer_vector /\ fst c = name src /\
              In target (outputs src) /\
              snd c = str_in target (delayed src).
Proof.
  unfold Declared.upstream. rewrite in_flat_map.
  intros (src & Hsrc & Hc). apply in_map_iff in Hc.
  destruct Hc as (o & <- & Ho). apply filter_In in Ho.
  destruct Ho as [Ho E]. apply String.eqb_eq in E. subst o.
  exists src. auto.
Qed.

Lemma sum_sizes_declared (nm : PyDict.t nat) (f : string -> nat)
    (conns : list (string * bool)) (acc : nat) :
  (forall c, In c conns -> PyDict.get nm (fst c) = Some (f (fst c))) ->
  sum_sizes nm conns acc
  = Ok (acc + list_sum (map (fun c => f (fst c)) conns)).
Proof.
  revert acc. induction conns as [|c conns IH]; intros acc Hall.
  - simpl. f_equal. lia.
  - cbn [sum_sizes]. rewrite (item_get _ _ (Hall c (or_introl eq_refl))).
    cbn [bind]. rewrite IH by (intros; apply Hall; now right).
    simpl. f_equal. lia.
Qed.
End ConstructLayersFacts.

Section GenerateLayersFacts.
Context {R : Type} `{Scalar R}.

Import ArtificialNeuralNetwork.

Lemma static_init_fields (i o : nat) (af : ActivationFunction.t R)
    (nm : string) (g g' : RandomState R) (s : StaticLayer.t R) :
  StaticLayer.init i o af nm g = (s, g') ->
  StaticLayer.weight_dim s = (o, i) /\
  StaticLayer.bias_dim s = o /\
  StaticLayer.activation_function s = af /\
  StaticLayer.layer_name s = nm /\
  np.shape (StaticLayer.weight_matrix s) = (o, i) /\
  length (StaticLayer.bias_vector s) = o.
Proof.
  unfold StaticLayer.init, random_rand2, random_rand. simpl.
  intros [= <- <-]. simpl. rewrite length_map, length_seq. auto 6.
Qed.

Lemma recorded_input (layer_vector : list (LayerSpec R)) (target : string) :
  PyDict.get (c_input (Aux.recorded layer_vector)) target
  = match Declared.upstream layer_vector target with
    | [] => None
    | ups => Some ups
    end.
Proof.
  unfold Aux.recorded. rewrite record_connections_input. simpl.
  now destruct (Declared.upstream layer_vector target).
Qed.

Lemma input_dimension_of_declared (layer_vector : list (LayerSpec R))
    (l : LayerSpec R) (b : built R) :
  NoDup (map name layer_vector) ->
  input_dimension_of (Aux.recorded layer_vector) l b
  = if Aux.has_no_upstream layer_vector l
    then lv <- append_level (b_level_vector b) 0 (name l) ;;
         Ok (size l, b_input_layers b ++ [name l], lv)
    else Ok (Declared.input_dimension layer_vector l,
             b_input_layers b, b_level_vector b).
Proof.
  intros ND. unfold input_dimension_of, PyDict.item.
  rewrite recorded_input.
  unfold Aux.has_no_upstream, Declared.input_dimension.
  destruct (Declared.upstream layer_vector (name l)) as [|u ups] eqn:E;
    [reflexivity|].
  cbn [bind].
  rewrite sum_sizes_declared with (f := Declared.size_of layer_vector).
  - reflexivity.
  - intros c Hc. rewrite <- E in Hc.
    apply upstream_sources in Hc as (src & Hsrc & -> & _).
    unfold Aux.recorded.
    rewrite (proj1 (record_connections_declared layer_vector _ src ND Hsrc)).
    f_equal. symmetry.
    now apply size_of_declared.
Qed.

Lemma input_names_cons (layer_vector rest : list (LayerSpec R))
    (a : LayerSpec R) :
  Aux.input_names layer_vector (a :: rest)
  = (if String.eqb (kind a) "STATIC" && Aux.has_no_upstream layer_vector a
     then [name a] else []) ++ Aux.input_names layer_vector rest.
Proof.
  unfold Aux.input_names. cbn [filter].
  destruct (String.eqb (kind a) "STATIC" && Aux.has_no_upstream layer_vector a);
    reflexivity.
Qed.

Lemma generate_layers_static (layer_vector : list (LayerSpec R)) (dt : R)
    (rest : list (LayerSpec R)) :
  NoDup (map name layer_vector) ->
  Forall (fun l => kind l <> "DYNAMIC") rest ->
  forall (b : built R) (l0 : list string),
    b_level_vector b = [l0] ->
    exists b',
      generate_layers dt (Aux.recorded layer_vector) rest b = Ok b' /\
      b_level_vector b' = [l0 ++ Aux.input_names layer_vector rest] /\
      b_input_layers b'
        = b_input_layers b ++ Aux.input_names layer_vector rest /\
      (forall n, (forall l, In l rest -> kind l = "STATIC" -> name l <> n) ->
         PyDict.get (b_layer_map b') n = PyDict.get (b_layer_map b) n) /\
      (NoDup (map name rest) ->
       forall l, In l rest -> kind l = "STATIC" ->
         exists s,
           PyDict.get (b_layer_map b') (name l) = Some (Static s) /\
           StaticLayer.weight_dim s
             = (size l, Declared.input_dimension layer_vector l) /\
           StaticLayer.bias_dim s = size l /\
           StaticLayer.activation_function s = activation l /\
           StaticLayer.layer_name s = name l).
Proof.
  intros ND. induction rest as [|a rest IH]; intros Hk b l0 Hlv.
  - exists b. cbn [generate_layers]. unfold Aux.input_names. simpl.
    rewrite !app_nil_r. repeat split; auto. intros _ l [].
  - inversion Hk as [|? ? Hka Hk']; subst.
    cbn [generate_layers]. unfold generate_layer.
    rewrite input_names_cons.
    destruct (String.eqb (kind a) "STATIC") eqn:Es.
    + (* a StaticLayer is generated *)
      apply String.eqb_eq in Es.
      rewrite input_dimension_of_declared by exact ND.
      rewrite Hlv. cbn [andb].
      assert (Hdim : Aux.has_no_upstream layer_vector a = true ->
                     Declared.input_dimension layer_vector a = size a).
      { unfold Aux.has_no_upstream, Declared.input_dimension.
        destruct (Declared.upstream layer_vector (name a));
          [reflexivity|discriminate]. }
      destruct (Aux.has_no_upstream layer_vector a) eqn:Eu;
        cbn [append_level nth_error replace_nth bind];
        (match goal with
         | |- context [StaticLayer.init ?i ?o ?af ?nm ?g0] =>
             destruct (StaticLayer.init i o af nm g0) as [s g] eqn:Ei
         end);
        pose proof (static_init_fields Ei) as (Ew & Eb & Ea & En & _);
        cbn [bind];
        (match goal with
         | |- context [generate_layers _ _ rest ?b1] =>
             edestruct (IH Hk' b1) as (b' & Eg & Elv & Eil & Hother & Hthis);
             [cbn [b_level_vector]; reflexivity|]
         end);
        exists b'; (split; [exact Eg|]);
        cbn [b_input_layers b_layer_map] in *;
        (split; [rewrite Elv; rewrite <- ?app_assoc; reflexivity|]);
        (split; [rewrite Eil; rewrite <- ?app_assoc; reflexivity|]);
        (split;
         [intros n Hn;
          rewrite Hother by (intros; apply Hn; auto; now right);
          apply get_set_ne; apply Hn; auto; now left
         |intros ND' l Hl Hs; simpl in ND';
          inversion ND' as [|? ? Na NDr]; subst;
          destruct Hl as [->|Hl]; [|now apply Hthis];
          exists s; rewrite Hother, get_set_eq;
          [try rewrite (Hdim eq_refl); auto
          |intros l' Hl' _ E; apply Na; rewrite <- E; now apply in_map]]).
    + (* no layer is generated for this kind *)
      destruct (String.eqb (kind a) "DYNAMIC") eqn:Ed;
        [apply String.eqb_eq in Ed; contradiction|].
      cbn [bind andb app].
      destruct (IH Hk' b l0 Hlv) as (b' & Eg & Elv & Eil & Hother & Hthis).
      exists b'. split; [exact Eg|]. split; [exact Elv|]. split; [exact Eil|].
      split.
      * intros n Hn. apply Hother. intros; apply Hn; auto. now right.
      * intros ND' l Hl Hs. simpl in ND'.
        inversion ND' as [|? ? Na NDr]; subst.
        destruct Hl as [->|Hl]; [|now apply Hthis].
        rewrite Hs in Es. discriminate.
Qed.
End GenerateLayersFacts.

Section ConstructLayersTheorem.
Context {R : Type} `{Scalar R}.

Import ArtificialNeuralNetwork.

Lemma unique_name (layer_vector : list (LayerSpec R)) (l l' : LayerSpec R) :
  NoDup (map name layer_vector) ->
  In l layer_vector -> In l' layer_vector -> name l = name l' -> l = l'.
Proof.
  induction layer_vector as [|a lv IH]; intros ND Hl Hl' E; [easy|].
  simpl in ND. inversion ND as [|? ? Na ND']; subst.
  destruct Hl as [->|Hl], Hl' as [->|Hl']; auto.
  - exfalso. apply Na. rewrite E. now apply in_map.
  - exfalso. apply Na. rewrite <- E. now apply in_map.
Qed.

Lemma in_input_names (layer_vector rest : list (LayerSpec R)) (n : string) :
  In n (Aux.input_names layer_vector rest) <->
  exists l, In l rest /\ name l = n /\ kind l = "STATIC" /\
            Declared.upstream layer_vector (name l) = [].
Proof.
  unfold Aux.input_names. rewrite in_map_iff. split.
  - intros (l & E & Hl). apply filter_In in Hl. destruct Hl as [Hl C].
    apply andb_true_iff in C. destruct C as [Ck Cu].
    apply String.eqb_eq in Ck. unfold Aux.has_no_upstream in Cu.
    exists l. repeat split; auto.
    destruct (Declared.upstream layer_vector (name l)); [auto|discriminate].
  - intros (l & Hl & E & Ek & Eu). exists l. split; auto.
    apply filter_In. split; auto. apply andb_true_iff. split.
    + now apply String.eqb_eq.
    + unfold Aux.has_no_upstream. now rewrite Eu.
Qed.

(** C5, as the code has it.  For a layer vector with unique names and no
    layer of the kind "DYNAMIC", [_construct_layers] returns; every layer
    of the kind "STATIC" gets one StaticLayer whose input dimension is the
    sum of the sizes of its upstream sources, or its own size when it has
    none, in which case it is an input layer placed in level 0; a layer of
    any other kind gets no layer object and is no input layer; the input
    connections of a name are its upstream sources in declaration
    order. *)
Theorem construct_layers_static (layer_vector : list (LayerSpec R)) (dt : R)
    (g : RandomState R) :
  NoDup (map name layer_vector) ->
  Forall (fun l => kind l <> "DYNAMIC") layer_vector ->
  exists self,
    _construct_layers (attributes layer_vector dt g) layer_vector = Ok self /\
    (forall l, In l layer_vector -> kind l = "STATIC" ->
       exists s,
         PyDict.get (layer_map self) (name l) = Some (Static s) /\
         StaticLayer.weight_dim s
           = (size l, Declared.input_dimension layer_vector l)) /\
    (forall l, In l layer_vector -> kind l <> "STATIC" ->
       PyDict.get (layer_map self) (name l) = None /\
       ~ In (name l) (input_layers self)) /\
    (forall n,
       PyDict.get (input_connections self) n
       = match Declared.upstream layer_vector n with
         | [] => None
         | ups => Some ups
         end) /\
    (forall l, In l layer_vector -> kind l = "STATIC" ->
       Declared.upstream layer_vector (name l) = [] ->
       Declared.input_dimension layer_vector l = size l /\
       In (name l) (input_layers self) /\
       In (name l) (nth 0 (level_vector self) [])) /\
    (forall l, In l layer_vector ->
       Declared.upstream layer_vector (name l) <> [] ->
       Declared.input_dimension layer_vector l
         = list_sum (map (fun c => Declared.size_of layer_vector (fst c))
                         (Declared.upstream layer_vector (name l))) /\
       ~ In (name l) (input_layers self)).
Proof.
  intros ND Hk. unfold _construct_layers.
  change (record_connections layer_vector _)
    with (Aux.recorded layer_vector).
  destruct (generate_layers_static layer_vector dt ND Hk
              {| b_layer_map := PyDict.empty;
                 b_input_layers := input_layers (attributes layer_vector dt g);
                 b_level_vector := level_vector (attributes layer_vector dt g);
                 b_random := random_state (attributes layer_vector dt g) |}
              eq_refl)
    as (b' & Eg & Elv & Eil & Hother & Hthis).
  cbn [time_interval attributes] in *. rewrite Eg. cbn [bind].
  eexists. split; [reflexivity|].
  cbn [layer_map input_layers input_connections level_vector
       b_input_layers b_layer_map app] in *.
  split; [|split; [|split; [|split]]].
  - intros l Hl Hs. destruct (Hthis ND l Hl Hs) as (s & E & Ew & _).
    exists s. now split.
  - intros l Hl Hs. split.
    + rewrite Hother; [reflexivity|].
      intros l' Hl' Hs' E.
      apply (unique_name layer_vector l' l ND Hl' Hl) in E. congruence.
    + rewrite Eil. intros C. apply in_input_names in C.
      destruct C as (l' & Hl' & E & Hs' & _).
      apply (unique_name layer_vector l' l ND Hl' Hl) in E. congruence.
  - intros n. apply recorded_input.
  - intros l Hl Hs Hu. split; [|split].
    + unfold Declared.input_dimension. now rewrite Hu.
    + rewrite Eil. apply in_input_names. exists l. auto.
    + rewrite Elv. cbn [nth]. apply in_input_names. exists l. auto.
  - intros l Hl Hu. split.
    + unfold Declared.input_dimension.
      destruct (Declared.upstream layer_vector (name l)); [contradiction|].
      reflexivity.
    + rewrite Eil. intros C. apply in_input_names in C.
      destruct C as (l' & Hl' & E & _ & Hu').
      rewrite E in Hu'. contradiction.
Qed.
End ConstructLayersTheorem.

(** [construct_layers_static] at a vector of two layers of the kind
    "STATIC" and one of the kind "CTRNN". *)
Lemma construct_layers_witness :
  exists self,
    ArtificialNeuralNetwork._construct_layers
      (ArtificialNeuralNetwork.attributes Example.mixed 0.125%float Example.g0)
      Example.mixed = Ok self /\
    (exists s,
       PyDict.get (ArtificialNeuralNetwork.layer_map self) "hid"
         = Some (ArtificialNeuralNetwork.Static s) /\
       StaticLayer.weight_dim s = (3, 2)) /\
    PyDict.get (ArtificialNeuralNetwork.layer_map self) "out" = None /\
    In "in" (nth 0 (ArtificialNeuralNetwork.level_vector self) []).
Proof.
  assert (ND : NoDup (map (@ArtificialNeuralNetwork.name float) Example.mixed)).
  { repeat constructor; simpl; intuition discriminate. }
  assert (Hk : Forall (fun l => ArtificialNeuralNetwork.kind l <> "DYNAMIC")
                      Example.mixed).
  { repeat constructor; discriminate. }
  destruct (construct_layers_static 0.125%float Example.g0 ND Hk)
    as (self & E & Hstatic & Hother & _ & Hinput & _).
  exists self. split; [exact E|]. split; [|split].
  - destruct (Hstatic (Example.layer "hid" 3 "STATIC" "" ["out"] []))
      as (s & Es & Ew).
    + right. left. reflexivity.
    + reflexivity.
    + exists s. split; [exact Es|]. rewrite Ew. reflexivity.
  - apply (Hother (Example.layer "out" 1 "CTRNN" "" ["motor"] [])).
    + right. right. left. reflexivity.
    + discriminate.
  - apply (Hinput (Example.layer "in" 2 "STATIC" "s" ["hid"] [])).
    + left. reflexivity.
    + reflexivity.
    + reflexivity.
Defined.

(** For a layer of the kind "CTRNN" no layer object is created, and
    without upstream sources it is neither an input layer nor in level 0:
    C5 does not hold for the four kinds. *)
Lemma ctrnn_kind_is_not_instantiated :
  ~ (forall (layer_vector : list (ArtificialNeuralNetwork.LayerSpec float))
            (dt : float) (g : RandomState float)
            (l : ArtificialNeuralNetwork.LayerSpec float),
        In l layer_vector ->
        In (ArtificialNeuralNetwork.kind l)
           ["STATIC"; "DYNAMIC"; "CTRNN"; "RBF"] ->
        Declared.upstream layer_vector (ArtificialNeuralNetwork.name l) = [] ->
        exists self,
          ArtificialNeuralNetwork._construct_layers
            (ArtificialNeuralNetwork.attributes layer_vector dt g)
            layer_vector = Ok self /\
          PyDict.get (ArtificialNeuralNetwork.layer_map self)
                     (ArtificialNeuralNetwork.name l) <> None /\
          In (ArtificialNeuralNetwork.name l)
             (ArtificialNeuralNetwork.input_layers self) /\
          In (ArtificialNeuralNetwork.name l)
             (nth 0 (ArtificialNeuralNetwork.level_vector self) [])).
Proof.
  intros C.
  destruct (C Example.one_ctrnn 0.125%float Example.g0
              (Example.layer "c" 2 "CTRNN" "s" ["motor"] []))
    as (self & E & N & _).
  - left. reflexivity.
  - right. right. left. reflexivity.
  - reflexivity.
  - vm_compute in E. injection E as <-. apply N. reflexivity.
Qed.

(** ** _construct_graph *)

Section LevelFacts.

Import ArtificialNeuralNetwork.

Lemma length_replace_nth {A : Type} (l : list A) (i : nat) (x : A) :
  length (replace_nth l i x) = length l.
Proof.
  revert i. induction l as [|y l IH]; intros [|i]; simpl; auto.
Qed.

Lemma nth_replace_nth {A : Type} (l : list A) (i j : nat) (x d : A) :
  i < length l ->
  nth j (replace_nth l i x) d = if j =? i then x else nth j l d.
Proof.
  revert i j. induction l as [|y l IH]; intros i j Hi; simpl in Hi; [lia|].
  destruct i as [|i], j as [|j]; simpl; auto.
  apply IH. lia.
Qed.

Lemma nth_app_nil (lv : list (list string)) (j : nat) :
  nth j (lv ++ [[]]) [] = nth j lv [].
Proof.
  destruct (Nat.lt_ge_cases j (length lv)) as [Hj|Hj].
  - now rewrite app_nth1.
  - rewrite app_nth2, (nth_overflow lv) by lia.
    destruct (j - length lv) as [|[|m]]; reflexivity.
Qed.

Lemma append_level_spec (lv : list (list string)) (i : nat) (x : string) :
  i < length lv ->
  append_level lv i x = Ok (replace_nth lv i (nth i lv [] ++ [x])).
Proof.
  intros Hi. unfold append_level.
  destruct (nth_error lv i) as [l|] eqn:E.
  - now rewrite (nth_error_nth _ _ [] E).
  - apply nth_error_None in E. lia.
Qed.

Lemma push_level_spec (lv : list (list string)) (k : nat) (c : string) :
  k < length lv ->
  exists lv',
    push_level lv k c = Ok lv' /\
    length lv <= length lv' /\
    forall j n, Graph.in_level lv' j n <->
                Graph.in_level lv j n \/ (j = k + 1 /\ n = c).
Proof.
  intros Hk. unfold push_level, Graph.in_level.
  destruct (Nat.lt_ge_cases (k + 1) (length lv)) as [Hl|Hl].
  - rewrite append_level_spec by exact Hl. eexists. split; [reflexivity|].
    rewrite length_replace_nth. split; [lia|]. intros j n.
    rewrite nth_replace_nth by exact Hl.
    destruct (j =? k + 1) eqn:E.
    + apply Nat.eqb_eq in E. subst j. rewrite in_app_iff. simpl. intuition.
    + apply Nat.eqb_neq in E. intuition.
  - assert (E0 : append_level lv (k + 1) c = Raise IndexError).
    { unfold append_level.
      destruct (nth_error lv (k + 1)) eqn:E; [|reflexivity].
      assert (k + 1 < length lv) by (apply nth_error_Some; congruence).
      lia. }
    rewrite E0.
    rewrite append_level_spec by (rewrite length_app; simpl; lia).
    eexists. split; [reflexivity|].
    rewrite length_replace_nth, length_app. split; [lia|]. intros j n.
    rewrite nth_replace_nth by (rewrite length_app; simpl; lia).
    rewrite !nth_app_nil.
    destruct (j =? k + 1) eqn:E.
    + apply Nat.eqb_eq in E. subst j.
      rewrite (nth_overflow lv) by lia. simpl. intuition.
    + apply Nat.eqb_neq in E. intuition.
Qed.
End LevelFacts.

Section PushFacts.
Context {R : Type} `{Scalar R}.

Import ArtificialNeuralNetwork.

Lemma grows_refl (lv : list (list string)) : Graph.grows lv lv.
Proof. split; auto. Qed.

Lemma grows_trans (a b c : list (list string)) :
  Graph.grows a b -> Graph.grows b c -> Graph.grows a c.
Proof. intros [L1 M1] [L2 M2]. split; [lia|auto]. Qed.

Lemma push_outputs_pushes (self : t R) (k : nat) :
  Graph.pushes self k (push_outputs self k).
Proof.
  intros outs. induction outs as [|c outs IH]; intros lv done Hk Hd.
  - exists lv, done. split; [reflexivity|]. split; [apply grows_refl|].
    split; eauto.
  - cbn [push_outputs].
    destruct (str_in c (output_layers self)) eqn:Eh; cbn [negb].
    + destruct (IH lv done Hk) as (lv' & done' & E & G & M & D).
      { intros c' Hc'. apply Hd. now right. }
      exists lv', done'. split; [exact E|]. split; [exact G|].
      split; [|exact D].
      intros j n Hn. destruct (M j n Hn) as [?|(? & ? & ?)]; auto.
      right. repeat split; auto. now right.
    + destruct (Hd c (or_introl eq_refl) Eh) as [d Ed].
      rewrite (item_get _ _ Ed). cbn [bind].
      destruct d; cbn [negb].
      * destruct (IH lv done Hk) as (lv' & done' & E & G & M & D).
        { intros c' Hc'. apply Hd. now right. }
        exists lv', done'. split; [exact E|]. split; [exact G|].
        split; [|exact D].
        intros j n Hn. destruct (M j n Hn) as [?|(? & ? & ?)]; auto.
        right. repeat split; auto. now right.
      * destruct (push_level_spec lv c Hk) as (lv1 & E1 & L1 & M1).
        rewrite E1. cbn [bind].
        destruct (IH lv1 (PyDict.set done c true)) as (lv' & done' & E & G & M & D).
        { lia. }
        { intros c' Hc' Hh. rewrite get_set.
          destruct (String.eqb c c'); eauto. apply Hd; auto. now right. }
        exists lv', done'. split; [exact E|]. split; [|split].
        -- apply grows_trans with lv1; [|exact G].
           split; [exact L1|]. intros j n Hn. apply M1. now left.
        -- intros j n Hn. destruct (M j n Hn) as [Hn1|(? & ? & ?)].
           ++ apply M1 in Hn1. destruct Hn1 as [?|[-> ->]]; auto.
              right. repeat split; auto. now left.
           ++ right. repeat split; auto. now right.
        -- intros n d Hn. destruct (String.eqb c n) eqn:En.
           ++ apply String.eqb_eq in En. subst n.
              apply (D c true). apply get_set_eq.
           ++ apply String.eqb_neq in En. apply (D n d).
              now rewrite get_set_ne.
Qed.

Lemma push_outputs_forced_pushes (self : t R) (k : nat) :
  Graph.pushes self k (push_outputs_forced self k).
Proof.
  intros outs. induction outs as [|c outs IH]; intros lv done Hk Hd.
  - exists lv, done. split; [reflexivity|]. split; [apply grows_refl|].
    split; eauto.
  - cbn [push_outputs_forced].
    destruct (str_in c (output_layers self)) eqn:Eh; cbn [negb].
    + destruct (IH lv done Hk) as (lv' & done' & E & G & M & D).
      { intros c' Hc'. apply Hd. now right. }
      exists lv', done'. split; [exact E|]. split; [exact G|].
      split; [|exact D].
      intros j n Hn. destruct (M j n Hn) as [?|(? & ? & ?)]; auto.
      right. repeat split; auto. now right.
    + destruct (push_level_spec lv c Hk) as (lv1 & E1 & L1 & M1).
      rewrite E1. cbn [bind].
      destruct (IH lv1 done) as (lv' & done' & E & G & M & D).
      { lia. }
      { intros c' Hc' Hh. apply Hd; auto. now right. }
      exists lv', done'. split; [exact E|]. split; [|split; [|exact D]].
      * apply grows_trans with lv1; [|exact G].
        split; [exact L1|]. intros j n Hn. apply M1. now left.
      * intros j n Hn. destruct (M j n Hn) as [Hn1|(? & ? & ?)].
        -- apply M1 in Hn1. destruct Hn1 as [?|[-> ->]]; auto.
           right. repeat split; auto. now left.
        -- right. repeat split; auto. now right.
Qed.
End PushFacts.

Section GatherFacts.
Context {R : Type} `{Scalar R}.

Import ArtificialNeuralNetwork.

Lemma gather_inputs_spec (self : t R) (om : PyDict.t (tensor R))
    (layer : string) (conns : list (string * bool)) :
  (forall x, In x conns ->
     PyDict.get (state_matrix self) (fst x) = Some (variable (fst x))) ->
  (forall u node, PyDict.get om u = Some node ->
     exists i p, node = numpy_function u i p) ->
  forall input_vector queue,
  exists input_vector' m srcs,
    gather_inputs self om layer conns input_vector queue
      = Ok (input_vector', queue ++ repeat layer m) /\
    (m = 0 ->
     Graph.sources input_vector' = Graph.sources input_vector ++ srcs /\
     Forall2 Graph.resolves conns srcs /\
     forall u, In (u, true) srcs -> exists node, PyDict.get om u = Some node).
Proof.
  intros Hstate Hom. induction conns as [|c conns IH]; intros iv q.
  - exists iv, 0, []. cbn [gather_inputs repeat]. rewrite !app_nil_r.
    split; [reflexivity|]. intros _. split; [reflexivity|].
    split; [constructor|]. intros u [].
  - cbn [gather_inputs].
    assert (Hstate' : forall x, In x conns ->
              PyDict.get (state_matrix self) (fst x) = Some (variable (fst x)))
      by (intros; apply Hstate; now right).
    specialize (IH Hstate').
    destruct (snd c) eqn:Ed.
    + rewrite (item_get _ _ (Hstate c (or_introl eq_refl))). cbn [bind].
      destruct (IH (concat iv (variable (fst c))) q)
        as (iv' & m & srcs & E & Hm).
      exists iv', m, ((fst c, false) :: srcs). split; [exact E|].
      intros M. destruct (Hm M) as (Es & F & Hf). split; [|split].
      * rewrite Es. cbn [Graph.sources]. now rewrite <- app_assoc.
      * constructor; [|exact F]. split; auto.
      * intros u [C|Hu]; [discriminate|auto].
    + destruct (PyDict.get om (fst c)) as [node|] eqn:Eo.
      * destruct (Hom _ _ Eo) as (i & p & ->).
        destruct (IH (concat iv (numpy_function (fst c) i p)) q)
          as (iv' & m & srcs & E & Hm).
        exists iv', m, ((fst c, true) :: srcs). split; [exact E|].
        intros M. destruct (Hm M) as (Es & F & Hf). split; [|split].
        -- rewrite Es. cbn [Graph.sources]. now rewrite <- app_assoc.
        -- constructor; [|exact F]. split; [reflexivity|]. cbn. congruence.
        -- intros u [C|Hu]; [|auto]. injection C as <-. eauto.
      * destruct (IH iv (q ++ [layer])) as (iv' & m & srcs & E & _).
        exists iv', (S m), []. split.
        -- rewrite E. rewrite <- app_assoc. reflexivity.
        -- discriminate.
Qed.

Lemma gather_inputs_forced_spec (self : t R) (om : PyDict.t (tensor R))
    (conns : list (string * bool)) :
  (forall x, In x conns ->
     PyDict.get (state_matrix self) (fst x) = Some (variable (fst x))) ->
  (forall u node, PyDict.get om u = Some node ->
     exists i p, node = numpy_function u i p) ->
  forall input_vector,
  exists input_vector' srcs,
    gather_inputs_forced self om conns input_vector = Ok input_vector' /\
    Graph.sources input_vector' = Graph.sources input_vector ++ srcs /\
    Forall2 Graph.resolves conns srcs /\
    forall u, In (u, true) srcs -> exists node, PyDict.get om u = Some node.
Proof.
  intros Hstate Hom. induction conns as [|c conns IH]; intros iv.
  - exists iv, []. cbn [gather_inputs_forced]. rewrite app_nil_r.
    split; [reflexivity|]. split; [reflexivity|].
    split; [constructor|]. intros u [].
  - cbn [gather_inputs_forced].
    assert (Hstate' : forall x, In x conns ->
              PyDict.get (state_matrix self) (fst x) = Some (variable (fst x)))
      by (intros; apply Hstate; now right).
    specialize (IH Hstate').
    assert (Hs : forall d,
      exists iv' srcs,
        (s <- PyDict.item (state_matrix self) (fst c) ;;
         gather_inputs_forced self om conns (concat iv s)) = Ok iv' /\
        Graph.sources iv' = Graph.sources iv ++ srcs /\
        Forall2 Graph.resolves (((fst c), d) :: conns) srcs /\
        forall u, In (u, true) srcs -> exists node, PyDict.get om u = Some node).
    { intros d.
      rewrite (item_get _ _ (Hstate c (or_introl eq_refl))). cbn [bind].
      destruct (IH (concat iv (variable (fst c)))) as (iv' & srcs & E & Es & F & Hf).
      exists iv', ((fst c, false) :: srcs). split; [exact E|]. split; [|split].
      * rewrite Es. cbn [Graph.sources]. now rewrite <- app_assoc.
      * constructor; [|exact F]. split; auto.
      * intros u [C|Hu]; [discriminate|auto]. }
    destruct c as [cn cd]. cbn [fst snd] in *.
    destruct cd; [apply Hs|].
    destruct (PyDict.get om cn) as [node|] eqn:Eo; [|apply Hs].
    destruct (Hom _ _ Eo) as (i & p & ->).
    destruct (IH (concat iv (numpy_function cn i p)))
      as (iv' & srcs & E & Es & F & Hf).
    exists iv', ((cn, true) :: srcs). split; [exact E|]. split; [|split].
    + rewrite Es. cbn [Graph.sources]. now rewrite <- app_assoc.
    + constructor; [|exact F]. split; [reflexivity|]. cbn. intros X. discriminate X.
    + intros u [C|Hu]; [|auto]. injection C as <-. eauto.
Qed.
End GatherFacts.

Section VisitFacts.
Context {R : Type} `{Scalar R}.

Import ArtificialNeuralNetwork.

Lemma emit_spec (self : t R) (k : nat) (layer : string)
    (input_vector : tensor R) (st : locals R)
    (push : list string -> list (list string) -> PyDict.t bool ->
            result (list (list string) * PyDict.t bool)) (p : nat) :
  Graph.wf_net self ->
  Graph.inv self k st ->
  k < length (l_level_vector st) ->
  Graph.in_level (l_level_vector st) k layer ->
  PyDict.get (l_sensor_inputs st) layer = Some p ->
  Graph.pushes self k push ->
  Graph.matches (input_connections self) layer (Graph.sources input_vector) ->
  (forall u, In (u, true) (Graph.sources input_vector) ->
     exists node, PyDict.get (l_output_matrix st) u = Some node) ->
  exists st',
    emit self k layer input_vector st push = Ok st' /\
    Graph.inv self k st' /\
    Graph.grows (l_level_vector st) (l_level_vector st') /\
    new_error_queue st' = new_error_queue st.
Proof.
  intros [Wd Wo Wi Wl] [Imem Idone Inodes] Hk Hin Hp Hpush Hm Hf.
  destruct (Imem _ _ Hin) as [Hd _].
  destruct (Wd _ Hd) as ((l & El) & _ & _).
  unfold emit. rewrite (item_get _ _ El). cbn [bind].
  rewrite (item_get _ _ Hp). cbn [bind].
  pose proof Hd as Hd'. apply in_keys_get in Hd'. destruct Hd' as [outs Eo].
  rewrite (item_get _ _ Eo). cbn [bind].
  destruct (Hpush outs (l_level_vector st) (layers_done st) Hk)
    as (lv' & done' & E & [GL GM] & M & D).
  { intros c Hc Hh. apply Idone. now apply (Wo _ _ _ Eo Hc). }
  rewrite E. cbn [bind]. eexists. split; [reflexivity|].
  split; [|split; [split; assumption|reflexivity]].
  constructor; cbn [l_level_vector layers_done l_output_matrix].
  - intros j n Hn. destruct (M j n Hn) as [Ho|(-> & Hc & Hh)].
    + now apply Imem with j.
    + destruct (Wo _ _ _ Eo Hc) as [Hconns Hdecl]. split; auto.
  - intros n Hn. destruct (Idone _ Hn) as [d Ed]. now apply (D _ d).
  - intros v node Ev. rewrite get_set in Ev.
    destruct (String.eqb layer v) eqn:Ee.
    + apply String.eqb_eq in Ee. subst v. injection Ev as <-.
      exists input_vector, p. split; [reflexivity|]. split; [exact Hm|].
      exists k. split; [lia|]. split; [now apply GM|].
      intros u Hu. destruct (Hf u Hu) as [nu Enu].
      destruct (Inodes _ _ Enu) as (_ & _ & _ & _ & ju & Hju & Hlu & _).
      exists ju. split; [exact Hju|]. now apply GM.
    + destruct (Inodes _ _ Ev) as (i0 & p0 & -> & Hm0 & j' & Hj' & Hl' & Hu').
      exists i0, p0. split; [reflexivity|]. split; [exact Hm0|].
      exists j'. split; [exact Hj'|]. split; [now apply GM|].
      intros u Hu. destruct (Hu' u Hu) as (j & Hj & Hl).
      exists j. split; [exact Hj|]. now apply GM.
Qed.

Lemma inv_new_placeholder (self : t R) (k : nat) (st : locals R)
    (layer : string) :
  Graph.inv self k st -> Graph.inv self k (new_placeholder st layer).
Proof. intros [Imem Idone Inodes]. constructor; assumption. Qed.

Lemma inv_with_queue (self : t R) (k : nat) (st : locals R)
    (q : list string) :
  Graph.inv self k st -> Graph.inv self k (with_queue st q).
Proof. intros [Imem Idone Inodes]. constructor; assumption. Qed.

Lemma nodes_are_functions (self : t R) (k : nat) (st : locals R) :
  Graph.inv self k st ->
  forall u node, PyDict.get (l_output_matrix st) u = Some node ->
    exists i p, node = numpy_function u i p.
Proof.
  intros [_ _ Inodes] u node E.
  destruct (Inodes _ _ E) as (i & p & -> & _). eauto.
Qed.

Lemma states_are_variables (self : t R) (c : string)
    (conns : list (string * bool)) :
  Graph.wf_net self ->
  PyDict.get (input_connections self) c = Some conns ->
  forall x, In x conns ->
    PyDict.get (state_matrix self) (fst x) = Some (variable (fst x)).
Proof.
  intros [Wd _ Wi _] E x Hx. apply Wd. now apply (Wi c conns).
Qed.

(** One iteration of the loop over the queue keeps the invariant and
    raises nothing; what it appends to the new error queue is the layer
    itself. *)
Lemma visit_spec (self : t R) (k : nat) (st : locals R) (layer : string) :
  Graph.wf_net self ->
  Graph.inv self k st ->
  k < length (l_level_vector st) ->
  Graph.in_level (l_level_vector st) k layer ->
  exists st',
    visit self k st layer = Ok st' /\
    Graph.inv self k st' /\
    Graph.grows (l_level_vector st) (l_level_vector st') /\
    forall n, In n (new_error_queue st') ->
              In n (new_error_queue st) \/ n = layer.
Proof.
  intros W I Hk Hin. unfold visit.
  pose proof (inv_new_placeholder layer I) as I1.
  assert (Hp : PyDict.get (l_sensor_inputs (new_placeholder st layer)) layer
               = Some (l_placeholders st)) by apply get_set_eq.
  destruct (str_in layer (input_layers self)) eqn:Ei.
  - apply str_in_In in Ei.
    destruct W as [Wd Wo Wi Wl]. destruct (Wl _ Ei) as [Hd Hnone].
    destruct (Wd _ Hd) as (_ & (n & En) & _).
    rewrite (item_get _ _ En). cbn [bind].
    destruct (emit_spec layer (constant (np.zeros n))
                (Graph.Build_wf_net self Wd Wo Wi Wl) I1 Hk Hin Hp
                (push_outputs_pushes self (k := k)))
      as (st' & E & I' & G & Q).
    + unfold Graph.matches. now rewrite Hnone.
    + intros u [].
    + exists st'. split; [exact E|]. split; [exact I'|]. split; [exact G|].
      intros n0 Hn0. left. now rewrite Q in Hn0.
  - apply str_in_false in Ei.
    destruct I as [Imem Idone Inodes].
    destruct (Imem _ _ Hin) as [Hd [C|[conns Ec]]]; [contradiction|].
    rewrite (item_get _ _ Ec). cbn [bind].
    destruct (gather_inputs_spec self (l_output_matrix (new_placeholder st layer))
                layer conns (states_are_variables layer W Ec)
                (nodes_are_functions I1) (constant [])
                (new_error_queue (new_placeholder st layer)))
      as (iv & m & srcs & Eg & Hm).
    rewrite Eg. cbn [bind].
    destruct (length (new_error_queue (new_placeholder st layer)
                      ++ repeat layer m) =? 0) eqn:El; cbn [negb].
    + apply Nat.eqb_eq in El. rewrite length_app in El.
      assert (M0 : m = 0) by (rewrite repeat_length in El; lia).
      destruct (Hm M0) as (Es & F & Hf). cbn [Graph.sources app] in Es.
      destruct (emit_spec layer iv W
                  (inv_with_queue (new_error_queue (new_placeholder st layer)
                                   ++ repeat layer m) I1)
                  Hk Hin Hp (push_outputs_pushes self (k := k)))
        as (st' & E & I' & G & Q).
      * unfold Graph.matches. rewrite Ec, Es. exact F.
      * intros u Hu. rewrite Es in Hu. now apply Hf.
      * exists st'. split; [exact E|]. split; [exact I'|]. split; [exact G|].
        intros n0 Hn0. rewrite Q in Hn0. cbn [new_error_queue with_queue] in Hn0.
        apply in_app_iff in Hn0. destruct Hn0 as [?|Hr]; auto.
        right. now apply repeat_spec in Hr.
    + eexists. split; [reflexivity|]. split; [now apply inv_with_queue|].
      split; [apply grows_refl|].
      intros n0 Hn0. cbn [new_error_queue with_queue] in Hn0.
      apply in_app_iff in Hn0. destruct Hn0 as [?|Hr]; auto.
      right. now apply repeat_spec in Hr.
Qed.

Lemma emit_output (self : t R) (k : nat) (layer : string)
    (input_vector : tensor R) (st st' : locals R)
    (push : list string -> list (list string) -> PyDict.t bool ->
            result (list (list string) * PyDict.t bool)) :
  emit self k layer input_vector st push = Ok st' ->
  exists node,
    l_output_matrix st' = PyDict.set (l_output_matrix st) layer node.
Proof.
  intros E. unfold emit in E.
  destruct (PyDict.item (layer_map self) layer); [|discriminate].
  cbn [bind] in E.
  destruct (PyDict.item (l_sensor_inputs st) layer); [|discriminate].
  cbn [bind] in E.
  destruct (PyDict.item (output_connections self) layer) as [outs|];
    [|discriminate].
  cbn [bind] in E.
  destruct (push outs (l_level_vector st) (layers_done st)) as [[lv' d']|];
    [|discriminate].
  cbn [bind] in E. injection E as <-. cbn [l_output_matrix]. eauto.
Qed.

(** One iteration of the forced pass keeps the invariant and raises
    nothing; it leaves the new error queue as it is and enters the layer
    in the output matrix. *)
Lemma visit_forced_spec (self : t R) (k : nat) (st : locals R)
    (layer : string) :
  Graph.wf_net self ->
  Graph.inv self k st ->
  k < length (l_level_vector st) ->
  Graph.in_level (l_level_vector st) k layer ->
  exists st',
    visit_forced self k st layer = Ok st' /\
    Graph.inv self k st' /\
    Graph.grows (l_level_vector st) (l_level_vector st') /\
    new_error_queue st' = new_error_queue st /\
    exists node,
      l_output_matrix st' = PyDict.set (l_output_matrix st) layer node.
Proof.
  intros W I Hk Hin. unfold visit_forced.
  pose proof (inv_new_placeholder layer I) as I1.
  assert (Hp : PyDict.get (l_sensor_inputs (new_placeholder st layer)) layer
               = Some (l_placeholders st)) by apply get_set_eq.
  destruct (str_in layer (input_layers self)) eqn:Ei.
  - apply str_in_In in Ei.
    destruct W as [Wd Wo Wi Wl]. destruct (Wl _ Ei) as [Hd Hnone].
    destruct (Wd _ Hd) as (_ & (n & En) & _).
    rewrite (item_get _ _ En). cbn [bind].
    destruct (emit_spec layer (constant (np.zeros n))
                (Graph.Build_wf_net self Wd Wo Wi Wl) I1 Hk Hin Hp
                (push_outputs_forced_pushes self (k := k)))
      as (st' & E & I' & G & Q).
    + unfold Graph.matches. now rewrite Hnone.
    + intros u [].
    + exists st'. split; [exact E|]. split; [exact I'|]. split; [exact G|].
      split; [exact Q|]. apply (emit_output _ _ _ _ _ _ E).
  - apply str_in_false in Ei.
    destruct I as [Imem Idone Inodes].
    destruct (Imem _ _ Hin) as [Hd [C|[conns Ec]]]; [contradiction|].
    rewrite (item_get _ _ Ec). cbn [bind].
    destruct (gather_inputs_forced_spec self
                (l_output_matrix (new_placeholder st layer)) conns
                (states_are_variables layer W Ec)
                (nodes_are_functions I1) (constant []))
      as (iv & srcs & Eg & Es & F & Hf).
    rewrite Eg. cbn [bind]. cbn [Graph.sources app] in Es.
    destruct (emit_spec layer iv W I1 Hk Hin Hp
                (push_outputs_forced_pushes self (k := k)))
      as (st' & E & I' & G & Q).
    + unfold Graph.matches. rewrite Ec, Es. exact F.
    + intros u Hu. rewrite Es in Hu. now apply Hf.
    + exists st'. split; [exact E|]. split; [exact I'|]. split; [exact G|].
      split; [exact Q|]. apply (emit_output _ _ _ _ _ _ E).
Qed.
End VisitFacts.

Section LoopFacts.
Context {R : Type} `{Scalar R}.

Import ArtificialNeuralNetwork.




Lemma tick_done_keeps (error_queue : list string) (done : PyDict.t bool)
    (n : string) (d : bool) :
  PyDict.get done n = Some d ->
  exists d', PyDict.get (tick_done error_queue done) n = Some d'.
Proof.
  unfold tick_done. revert done d.
  induction error_queue as [|layer rest IH]; intros done d E; cbn [fold_left].
  - eauto.
  - destruct (String.eqb layer n) eqn:En.
    + apply String.eqb_eq in En. subst. eapply IH. apply get_set_eq.
    + apply String.eqb_neq in En. eapply IH. rewrite get_set_ne; eauto.
Qed.

Lemma inv_next_level (self : t R) (k : nat) (st : locals R) :
  Graph.inv self k st -> Graph.inv self (k + 1) st.
Proof.
  intros [Imem Idone Inodes]. constructor; auto.
  intros v node E.
  destruct (Inodes _ _ E) as (i & p & -> & Hm & j' & Hj' & Hrest).
  exists i, p. split; [reflexivity|]. split; [exact Hm|].
  exists j'. split; [lia|exact Hrest].
Qed.

End LoopFacts.

Section BuilderFacts.
Context {R : Type} `{Scalar R}.

Import ArtificialNeuralNetwork.


Lemma declared_names (layer_vector : list (LayerSpec R)) (n : string) :
  NoDup (map name layer_vector) ->
  (In n (PyDict.keys (c_output (Aux.recorded layer_vector))) <->
   In n (map name layer_vector)).
Proof.
  intros ND. rewrite in_keys_get. split.
  - intros [v Ev].
    destruct (in_dec string_dec n (map name layer_vector)) as [|N]; auto.
    unfold Aux.recorded in Ev.
    rewrite (proj2 (record_connections_other layer_vector _ n N)) in Ev.
    discriminate.
  - intros Hn. apply in_map_iff in Hn. destruct Hn as (l & <- & Hl).
    exists (outputs l). unfold Aux.recorded.
    apply (record_connections_declared layer_vector _ l ND Hl).
Qed.


Lemma upstream_of_output (layer_vector : list (LayerSpec R))
    (l : LayerSpec R) (c : string) :
  In l layer_vector -> In c (outputs l) ->
  Declared.upstream layer_vector c <> [].
Proof.
  intros Hl Hc E.
  assert (Hin : In (name l, str_in c (delayed l))
                   (Declared.upstream layer_vector c)).
  { unfold Declared.upstream. apply in_flat_map. exists l. split; auto.
    apply in_map_iff. exists c. split; auto.
    apply filter_In. split; auto. apply String.eqb_refl. }
  rewrite E in Hin. destruct Hin.
Qed.

End BuilderFacts.

Section StepFacts.
Context {R : Type} `{Scalar R}.

Import ArtificialNeuralNetwork.

Lemma in_level_lt (lv : list (list string)) (k : nat) (n : string) :
  Graph.in_level lv k n -> k < length lv.
Proof.
  unfold Graph.in_level. intros Hn.
  destruct (Nat.lt_ge_cases k (length lv)) as [|Hge]; [assumption|].
  rewrite nth_overflow in Hn by exact Hge. destruct Hn.
Qed.

(** The loop over the input connections in a pass: the layer enters the
    queue once for every missing source, and with no source missing the
    reads are the connections, non-delayed ones from this tick's output. *)
Lemma gather_inputs_reads (self : t R) (om : PyDict.t (tensor R))
    (layer : string) (conns : list (string * bool)) :
  (forall x, In x conns ->
     PyDict.get (state_matrix self) (fst x) = Some (variable (fst x))) ->
  (forall u node, PyDict.get om u = Some node ->
     exists i p, node = numpy_function u i p) ->
  forall input_vector queue,
  exists input_vector',
    gather_inputs self om layer conns input_vector queue
      = Ok (input_vector',
            queue ++ repeat layer (length (Graph.missing om conns))) /\
    (length (Graph.missing om conns) = 0 ->
     Graph.sources input_vector'
     = Graph.sources input_vector ++ Graph.fresh_reads conns).
Proof.
  intros Hstate Hom. induction conns as [|c conns IH]; intros iv q.
  - exists iv. cbn. rewrite !app_nil_r. auto.
  - cbn [gather_inputs Graph.missing Graph.fresh_reads filter map].
    assert (Hstate' : forall x, In x conns ->
              PyDict.get (state_matrix self) (fst x) = Some (variable (fst x)))
      by (intros; apply Hstate; now right).
    specialize (IH Hstate').
    destruct (snd c) eqn:Ed; cbn [negb andb].
    + rewrite (item_get _ _ (Hstate c (or_introl eq_refl))). cbn [bind].
      destruct (IH (concat iv (variable (fst c))) q) as (iv' & E & Hm).
      exists iv'. split; [exact E|]. intros M.
      rewrite (Hm M). cbn [Graph.sources]. now rewrite <- app_assoc.
    + assert (Eg : Graph.generated_in om (fst c)
                   = match PyDict.get om (fst c) with
                     | Some _ => true
                     | None => false
                     end) by reflexivity.
      destruct (PyDict.get om (fst c)) as [node|] eqn:Eo;
        rewrite Eg; cbn [negb].
      * destruct (Hom _ _ Eo) as (i & p & ->).
        destruct (IH (concat iv (numpy_function (fst c) i p)) q)
          as (iv' & E & Hm).
        exists iv'. split; [exact E|]. intros M.
        rewrite (Hm M). cbn [Graph.sources]. now rewrite <- app_assoc.
      * destruct (IH iv (q ++ [layer])) as (iv' & E & _).
        exists iv'. split.
        -- rewrite E. cbn [length repeat]. now rewrite <- app_assoc.
        -- discriminate.
Qed.

(** The loop over the input connections in the forced pass: a source is
    read from this tick's output when the connection is not delayed and
    the source has a node, and from the stored state otherwise. *)
Lemma gather_inputs_forced_reads (self : t R) (om : PyDict.t (tensor R))
    (conns : list (string * bool)) :
  (forall x, In x conns ->
     PyDict.get (state_matrix self) (fst x) = Some (variable (fst x))) ->
  (forall u node, PyDict.get om u = Some node ->
     exists i p, node = numpy_function u i p) ->
  forall input_vector,
  exists input_vector',
    gather_inputs_forced self om conns input_vector = Ok input_vector' /\
    Graph.sources input_vector'
    = Graph.sources input_vector ++ Graph.forced_reads om conns.
Proof.
  intros Hstate Hom. induction conns as [|c conns IH]; intros iv.
  - exists iv. cbn. rewrite app_nil_r. auto.
  - cbn [gather_inputs_forced Graph.forced_reads map].
    assert (Hstate' : forall x, In x conns ->
              PyDict.get (state_matrix self) (fst x) = Some (variable (fst x)))
      by (intros; apply Hstate; now right).
    specialize (IH Hstate').
    assert (Hs : exists iv',
        (s <- PyDict.item (state_matrix self) (fst c) ;;
         gather_inputs_forced self om conns (concat iv s)) = Ok iv' /\
        Graph.sources iv'
        = Graph.sources iv ++ (fst c, false) :: Graph.forced_reads om conns).
    { rewrite (item_get _ _ (Hstate c (or_introl eq_refl))). cbn [bind].
      destruct (IH (concat iv (variable (fst c)))) as (iv' & E & Es).
      exists iv'. split; [exact E|].
      rewrite Es. cbn [Graph.sources]. now rewrite <- app_assoc. }
    destruct (snd c) eqn:Ed; cbn [negb andb]; [exact Hs|].
    assert (Eg : Graph.generated_in om (fst c)
                 = match PyDict.get om (fst c) with
                   | Some _ => true
                   | None => false
                   end) by reflexivity.
    destruct (PyDict.get om (fst c)) as [node|] eqn:Eo;
      rewrite Eg; [|exact Hs].
    destruct (Hom _ _ Eo) as (i & p & ->).
    destruct (IH (concat iv (numpy_function (fst c) i p))) as (iv' & E & Es).
    exists iv'. split; [exact E|].
    rewrite Es. cbn [Graph.sources]. now rewrite <- app_assoc.
Qed.

(** What [emit] leaves in the output matrix, the count and the queue. *)
Lemma emit_exact (self : t R) (k : nat) (layer : string)
    (input_vector : tensor R) (st st' : locals R)
    (push : list string -> list (list string) -> PyDict.t bool ->
            result (list (list string) * PyDict.t bool)) (p : nat) :
  PyDict.get (l_sensor_inputs st) layer = Some p ->
  emit self k layer input_vector st push = Ok st' ->
  l_output_matrix st'
  = PyDict.set (l_output_matrix st) layer
      (numpy_function layer input_vector (placeholder p)) /\
  layers_generated st' = layers_generated st + 1 /\
  new_error_queue st' = new_error_queue st.
Proof.
  intros Hp E. unfold emit in E.
  destruct (PyDict.item (layer_map self) layer); [|discriminate].
  cbn [bind] in E. rewrite (item_get _ _ Hp) in E. cbn [bind] in E.
  destruct (PyDict.item (output_connections self) layer) as [outs|];
    [|discriminate].
  cbn [bind] in E.
  destruct (push outs (l_level_vector st) (layers_done st)) as [[lv' d']|];
    [|discriminate].
  cbn [bind] in E. injection E as <-. cbn. auto.
Qed.

(** The connections of a member of a level. *)
Lemma member_connections (self : t R) (k : nat) (st : locals R)
    (layer : string) :
  Graph.wf_net self ->
  Graph.inv self k st ->
  Graph.in_level (l_level_vector st) k layer ->
  (str_in layer (input_layers self) = true /\
   Graph.connections self layer = []) \/
  (str_in layer (input_layers self) = false /\
   PyDict.get (input_connections self) layer
   = Some (Graph.connections self layer)).
Proof.
  intros [Wd Wo Wi Wl] [Imem _ _] Hin. unfold Graph.connections.
  destruct (str_in layer (input_layers self)) eqn:Ei.
  - left. split; [reflexivity|]. apply str_in_In in Ei.
    destruct (Wl _ Ei) as [_ ->]. reflexivity.
  - right. split; [reflexivity|]. apply str_in_false in Ei.
    destruct (Imem _ _ Hin) as [_ [C|[conns Ec]]]; [contradiction|].
    now rewrite Ec.
Qed.

(** One iteration of a pass over the frontier does what
    [Graph.pass_step] says. *)
Lemma visit_exact (self : t R) (k : nat) (st st' : locals R)
    (layer : string) :
  Graph.wf_net self ->
  Graph.inv self k st ->
  Graph.in_level (l_level_vector st) k layer ->
  visit self k st layer = Ok st' ->
  Graph.pass_step self st layer st'.
Proof.
  intros W I Hin E. unfold Graph.pass_step.
  assert (Hp : PyDict.get (l_sensor_inputs (new_placeholder st layer)) layer
               = Some (l_placeholders st)) by apply get_set_eq.
  unfold visit in E.
  destruct (member_connections layer W I Hin) as [[Ei Ec]|[Ei Ec]];
    rewrite Ei in E |- *; cbn [orb].
  - rewrite Ec.
    destruct (PyDict.item (neuron_map self) layer) as [n|]; [|discriminate].
    cbn [bind] in E.
    destruct (emit_exact _ _ _ _ _ _ Hp E) as (Eo & Eg & Eq).
    exists (constant (np.zeros n)). split; [reflexivity|].
    split; [exact Eo|]. split; [exact Eg|exact Eq].
  - rewrite (item_get _ _ Ec) in E. cbn [bind] in E.
    destruct (gather_inputs_reads self
                (l_output_matrix (new_placeholder st layer)) layer _
                (states_are_variables layer W Ec)
                (nodes_are_functions (inv_new_placeholder layer I))
                (constant []) (new_error_queue (new_placeholder st layer)))
      as (iv & Eg & Hm).
    rewrite Eg in E. cbn [bind] in E.
    cbn [l_output_matrix new_error_queue new_placeholder] in *.
    rewrite length_app, repeat_length in E.
    destruct (length (new_error_queue st)) as [|a] eqn:La;
      cbn [Nat.eqb andb].
    + destruct (length (Graph.missing (l_output_matrix st)
                          (Graph.connections self layer))) as [|b] eqn:Lb;
        cbn [Nat.add Nat.eqb negb] in E |- *.
      * destruct (emit_exact self k layer iv
                    (with_queue (new_placeholder st layer)
                       (new_error_queue st ++ repeat layer 0))
                    (push_outputs self k) Hp E) as (Eo & Ec' & Eq).
        exists iv. split; [now rewrite (Hm eq_refl)|].
        split; [exact Eo|]. split; [exact Ec'|].
        rewrite Eq. cbn [new_error_queue with_queue repeat].
        now rewrite app_nil_r.
      * injection E as <-. cbn. auto.
    + cbn [Nat.add Nat.eqb negb] in E. injection E as <-. cbn. auto.
Qed.

(** One iteration of the forced pass does what [Graph.forced_step]
    says. *)
Lemma visit_forced_exact (self : t R) (k : nat) (st st' : locals R)
    (layer : string) :
  Graph.wf_net self ->
  Graph.inv self k st ->
  Graph.in_level (l_level_vector st) k layer ->
  visit_forced self k st layer = Ok st' ->
  Graph.forced_step self st layer st'.
Proof.
  intros W I Hin E. unfold Graph.forced_step.
  assert (Hp : PyDict.get (l_sensor_inputs (new_placeholder st layer)) layer
               = Some (l_placeholders st)) by apply get_set_eq.
  unfold visit_forced in E.
  destruct (member_connections layer W I Hin) as [[Ei Ec]|[Ei Ec]];
    rewrite Ei in E.
  - rewrite Ec.
    destruct (PyDict.item (neuron_map self) layer) as [n|]; [|discriminate].
    cbn [bind] in E.
    destruct (emit_exact _ _ _ _ _ _ Hp E) as (Eo & Eg & Eq).
    exists (constant (np.zeros n)). split; [reflexivity|].
    split; [exact Eo|]. split; [exact Eg|exact Eq].
  - rewrite (item_get _ _ Ec) in E. cbn [bind] in E.
    destruct (gather_inputs_forced_reads self
                (l_output_matrix (new_placeholder st layer)) _
                (states_are_variables layer W Ec)
                (nodes_are_functions (inv_new_placeholder layer I))
                (constant []))
      as (iv & Eg & Es).
    rewrite Eg in E. cbn [bind] in E.
    destruct (emit_exact _ _ _ _ _ _ Hp E) as (Eo & Ec' & Eq).
    exists iv. split; [exact Es|].
    split; [exact Eo|]. split; [exact Ec'|exact Eq].
Qed.

(** The invariant holds all through the loops. *)
Lemma reached_inv (self : t R) (k : nat) (st : locals R) :
  Graph.wf_net self ->
  Graph.inv self 0 (entry self) ->
  Graph.reached self k st ->
  Graph.inv self k st.
Proof.
  intros W I0. induction 1 as [|k st q _ I Eq|k st _ I|k st st' v _ I Hin E
                               |k st st' v _ I Hin E|k st _ I].
  - exact I0.
  - destruct I as [Imem Idone Inodes]. constructor; auto.
    intros n Hn. cbn [layers_done with_done].
    destruct (Idone n Hn) as [d Ed]. now apply tick_done_keeps with d.
  - now apply inv_with_queue.
  - destruct (visit_spec v W I (in_level_lt _ _ _ Hin) Hin)
      as (st1 & E1 & I1 & _).
    rewrite E in E1. injection E1 as <-. exact I1.
  - destruct (visit_forced_spec v W I (in_level_lt _ _ _ Hin) Hin)
      as (st1 & E1 & I1 & _).
    rewrite E in E1. injection E1 as <-. exact I1.
  - now apply inv_next_level.
Qed.
End StepFacts.

Section BuilderTheorem.
Context {R : Type} `{Scalar R}.

Import ArtificialNeuralNetwork.

End BuilderTheorem.



(** The levels of the network without cycles, and two networks on which
    the construction does not return a leveling: with the cycle next to a
    layer that is ready, the ready layer is skipped and the construction
    ends in the [IndexError] of the level lookup. *)
Lemma builder_examples :
  ArtificialNeuralNetwork.level_vector (Example.built Example.dag)
    = [["A"]; ["B"; "C"]] /\
  Example.network Example.stuck = Some (Raise IndexError) /\
  Example.network
    [Example.layer "A" 1 "DYNAMIC" "s" ["B"] [];
     Example.layer "B" 1 "STATIC" "" ["motor"] []]
  = Some (Raise (TypeError "object cannot be interpreted as an integer")).
Proof.
  split; [|split]; vm_compute; reflexivity.
Qed.

(** * Further properties of the layers *)

Section TimeDelayFacts.
Context {R : Type} `{Scalar R}.

Lemma firstn_app_firstn (A : Type) (n : nat) (a b : list A) :
  firstn n (a ++ firstn n b) = firstn n (a ++ b).
Proof.
  rewrite !firstn_app. f_equal. rewrite firstn_firstn. f_equal. lia.
Qed.

Lemma map_seq_nth (A : Type) (g : R -> A) (x : list R) (d : R) :
  map (fun c => g (nth c x d)) (seq 0 (length x)) = map g x.
Proof.
  induction x as [|a x IH]; simpl; [reflexivity|].
  f_equal. rewrite <- seq_shift, map_map. exact IH.
Qed.

Lemma delay_init_shaped (i d : nat) (g g' : RandomState R)
    (td : TimeDelay.t R) :
  TimeDelay.init i (PyInt d) g = Ok (td, g') ->
  Reach.delay_shaped d i td /\
  TimeDelay.input_matrix td = np.zeros2 (d, i).
Proof.
  unfold TimeDelay.init, random_rand2, random_rand. simpl.
  intros E. injection E as <- _. unfold Reach.delay_shaped. simpl.
  rewrite length_map, length_seq, repeat_length. repeat split; lia.
Qed.

Lemma delay_forward_step (d i : nat) (td : TimeDelay.t R) (x : list R) :
  Reach.delay_shaped d i td -> length x = i ->
  exists out td',
    TimeDelay.forward_propagate td x = Ok (out, td') /\
    Reach.delay_shaped d i td' /\
    TimeDelay.weight_vector td' = TimeDelay.weight_vector td /\
    np.elems (TimeDelay.input_matrix td')
    = firstn (d * i) (x ++ np.elems (TimeDelay.input_matrix td)) /\
    np.dot2 (TimeDelay.weight_vector td) (TimeDelay.input_matrix td')
    = Ok {| np.shape := (1, i); np.elems := out |}.
Proof.
  intros (Hwd & Hid & Hws & Hwl & Hms & Hml) Hx.
  unfold TimeDelay.forward_propagate, np.insert_row0, np.delete_row.
  rewrite Hid, Hms. simpl. rewrite Hx, Nat.eqb_refl. simpl.
  rewrite Nat.sub_0_r.
  replace (d <? S d) with true by (symmetry; apply Nat.ltb_lt; lia).
  simpl.
  assert (Esk : skipn (i + d * i) (x ++ np.elems (TimeDelay.input_matrix td))
                = []).
  { apply skipn_all2. rewrite length_app. lia. }
  rewrite Esk, app_nil_r.
  unfold np.dot2. simpl. rewrite Hws. simpl. rewrite Nat.eqb_refl.
  eexists. eexists. split; [reflexivity|].
  simpl. split; [|split; [reflexivity|split; [reflexivity|]]].
  - unfold Reach.delay_shaped. simpl.
    repeat split; auto.
    rewrite length_firstn, length_app. lia.
  - rewrite Nat.eqb_refl. reflexivity.
Qed.
End TimeDelayFacts.

Section TimeDelayWindow.
Context {R : Type} `{Scalar R}.

(** X1.  A TimeDelay constructed with the delay [d] and the input
    dimension [i] accepts every sequence of input vectors of length [i];
    after them its input matrix holds the last [d] inputs, newest first,
    on top of what is left of the initial zeros, and its weight vector is
    the one it had. *)
Theorem delay_window (i d : nat) (g g' : RandomState R)
    (td : TimeDelay.t R) (inputs : list (list R)) :
  TimeDelay.init i (PyInt d) g = Ok (td, g') ->
  Forall (fun x => length x = i) inputs ->
  exists td',
    Reach.delay_run td inputs = Ok td' /\
    np.shape (TimeDelay.input_matrix td') = (d, i) /\
    np.elems (TimeDelay.input_matrix td')
    = firstn (d * i) (concat (rev inputs) ++ np.zeros (d * i)) /\
    TimeDelay.weight_vector td' = TimeDelay.weight_vector td.
Proof.
  intros E Hin. apply delay_init_shaped in E. destruct E as [Hs Hz].
  assert (G : forall td0, Reach.delay_shaped d i td0 ->
            exists td',
              Reach.delay_run td0 inputs = Ok td' /\
              Reach.delay_shaped d i td' /\
              np.elems (TimeDelay.input_matrix td')
              = firstn (d * i) (concat (rev inputs)
                                ++ np.elems (TimeDelay.input_matrix td0)) /\
              TimeDelay.weight_vector td' = TimeDelay.weight_vector td0).
  { clear Hs Hz td. induction Hin as [|x rest Hx Hrest IH]; intros td0 Hs.
    - exists td0. simpl. split; [reflexivity|]. split; [exact Hs|].
      split; [|reflexivity].
      destruct Hs as (_ & _ & _ & _ & _ & Hl).
      rewrite <- Hl. symmetry. apply firstn_all.
    - destruct (delay_forward_step x Hs Hx)
        as (out & td1 & E1 & Hs1 & Hw1 & He1 & _).
      destruct (IH td1 Hs1) as (td' & E' & Hs' & He' & Hw').
      exists td'. simpl. rewrite E1. simpl.
      split; [exact E'|]. split; [exact Hs'|]. split.
      + rewrite He', He1, firstn_app_firstn.
        rewrite concat_app. simpl. rewrite app_nil_r, <- app_assoc.
        reflexivity.
      + now rewrite Hw'. }
  destruct (G td Hs) as (td' & E' & Hs' & He' & Hw').
  exists td'. split; [exact E'|]. split.
  - destruct Hs' as (_ & _ & _ & _ & Hsh & _). exact Hsh.
  - split; [|exact Hw']. rewrite He', Hz. reflexivity.
Qed.

(** X2.  A TimeDelay with the shapes of the delay [d] and the input
    dimension [i] returns a vector of length [i] for an input vector of
    length [i] and keeps its shapes; for an input vector of another
    length it raises the [ValueError] of its check. *)
Theorem delay_forward_checks_input (d i : nat) (td : TimeDelay.t R)
    (x : list R) :
  Reach.delay_shaped d i td ->
  (length x = i ->
   exists out td',
     TimeDelay.forward_propagate td x = Ok (out, td') /\
     length out = i /\ Reach.delay_shaped d i td') /\
  (length x <> i ->
   TimeDelay.forward_propagate td x
   = Raise (ValueError "The dimensions of the input vector do not match!")).
Proof.
  intros Hs. split.
  - intros Hx.
    destruct (delay_forward_step x Hs Hx) as (out & td' & E & Hs' & _ & _ & D).
    exists out, td'. split; [exact E|]. split; [|exact Hs'].
    destruct Hs as (_ & _ & Hws & _).
    unfold np.dot2 in D. rewrite Hws in D. simpl in D.
    destruct Hs' as (_ & _ & _ & _ & Hms' & _). rewrite Hms' in D.
    simpl in D. rewrite Nat.eqb_refl in D. injection D as D.
    rewrite <- D. unfold np.rows. rewrite Hws. simpl.
    rewrite app_nil_r, length_map, length_seq. reflexivity.
  - intros Hx. destruct Hs as (_ & Hid & _).
    unfold TimeDelay.forward_propagate. rewrite Hid. simpl.
    apply Nat.eqb_neq in Hx. rewrite Hx. reflexivity.
Qed.

(** X3.  With the delay one the TimeDelay scales its input: every element
    of the output is the weight times the element of the input, plus
    zero. *)
Theorem delay_one_scales_input (i : nat) (td : TimeDelay.t R) (w : R)
    (x : list R) :
  Reach.delay_shaped 1 i td ->
  np.elems (TimeDelay.weight_vector td) = [w] ->
  length x = i ->
  exists td',
    TimeDelay.forward_propagate td x
    = Ok (map (fun a => sadd (smul w a) szero) x, td') /\
    np.elems (TimeDelay.input_matrix td') = x.
Proof.
  intros Hs Hw Hx.
  destruct (delay_forward_step x Hs Hx) as (out & td' & E & Hs' & _ & He & D).
  assert (Ex : np.elems (TimeDelay.input_matrix td') = x).
  { rewrite He, firstn_app, Nat.mul_1_l, Hx, Nat.sub_diag, <- Hx. simpl.
    rewrite app_nil_r. apply firstn_all. }
  exists td'. split; [|exact Ex]. rewrite E. do 2 f_equal.
  destruct Hs as (_ & _ & Hws & _).
  destruct Hs' as (_ & _ & _ & _ & Hms' & _).
  unfold np.dot2 in D. rewrite Hws, Hms' in D. simpl in D.
  injection D as D. rewrite <- D.
  unfold np.rows, np.row, np.col, np.rows, np.row.
  rewrite Hws, Hms', Hw, Ex. simpl.
  rewrite app_nil_r, <- Hx, firstn_all.
  apply (map_seq_nth (fun a => sadd (smul w a) szero)).
Qed.
End TimeDelayWindow.

(** A TimeDelay with the delay two holds the last two of three inputs. *)
Lemma delay_window_witness :
  exists td td',
    Example.delay2 2 = Ok td /\
    Reach.delay_run td [[1; 2]; [3; 4]; [5; 6]]%float = Ok td' /\
    np.elems (TimeDelay.input_matrix td') = [5; 6; 3; 4]%float.
Proof.
  eexists.
  destruct (@delay_window float float_scalar 2 2 Example.g0 _ _
              [[1; 2]; [3; 4]; [5; 6]]%float eq_refl)
    as (td' & E & _ & W & _).
  { repeat constructor. }
  exists td'. split; [reflexivity|]. split; [exact E|]. exact W.
Defined.

Lemma delay_forward_checks_input_witness :
  exists td,
    Example.delay2 3 = Ok td /\
    (exists out td',
       TimeDelay.forward_propagate td [1; 2]%float = Ok (out, td') /\
       length out = 2) /\
    TimeDelay.forward_propagate td [1; 2; 3]%float
    = Raise (ValueError "The dimensions of the input vector do not match!").
Proof.
  eexists. split; [reflexivity|].
  assert (Hs : Reach.delay_shaped 3 2
                 (fst (let '(w, g1) := random_rand2 (1, 3) Example.g0 in
                       ({| TimeDelay.weight_dim := (1, 3);
                           TimeDelay.input_matrix_dim := (3, 2);
                           TimeDelay.weight_vector := w;
                           TimeDelay.input_matrix := np.zeros2 (3, 2) |}, g1))))
    by (repeat split).
  destruct (delay_forward_checks_input [1; 2]%float Hs) as [A _].
  destruct (delay_forward_checks_input [1; 2; 3]%float Hs) as [_ B].
  split.
  - destruct (A eq_refl) as (out & td' & E & L & _).
    exists out, td'. split; [exact E | exact L].
  - apply B. discriminate.
Defined.

(** The weight 3 and the delay one: [[4, -5]] becomes [[12, -15]]. *)
Lemma delay_one_scales_input_witness :
  exists td td',
    Example.delay_scaled 3 = Ok td /\
    TimeDelay.forward_propagate td [4; -5]%Z = Ok ([12; -15]%Z, td').
Proof.
  destruct (@delay_one_scales_input Z Z_scalar 2
              {| TimeDelay.weight_dim := (1, 1);
                 TimeDelay.input_matrix_dim := (1, 2);
                 TimeDelay.weight_vector :=
                   {| np.shape := (1, 1); np.elems := [3%Z] |};
                 TimeDelay.input_matrix := np.zeros2 (1, 2) |}
              3%Z [4; -5]%Z)
    as (td' & E & _).
  - repeat split.
  - reflexivity.
  - reflexivity.
  - eexists. exists td'. split; [reflexivity|]. exact E.
Defined.

Section ReachableLayers.
Context {R : Type} `{Scalar R}.

Lemma static_reach_shaped (l : StaticLayer.t R) :
  Reach.static l -> Reach.static_shaped l.
Proof.
  induction 1 as [i o af nm g | l l' w _ IH Hw E | l l' b _ IH E
                 | l b th _ IH].
  - unfold StaticLayer.init, random_rand2, random_rand, Reach.static_shaped,
      Reach.consistent. simpl.
    rewrite !length_map, !length_seq. auto.
  - unfold StaticLayer.set_weight_matrix in E.
    destruct (fst (np.shape w) =? fst (StaticLayer.weight_dim l)) eqn:E1;
      [|discriminate].
    destruct (snd (np.shape w) =? snd (StaticLayer.weight_dim l)) eqn:E2;
      [|discriminate].
    simpl in E. injection E as <-.
    apply Nat.eqb_eq in E1, E2.
    destruct IH as (_ & _ & Hb & Hl).
    unfold Reach.static_shaped. simpl. repeat split; auto.
    destruct (np.shape w), (StaticLayer.weight_dim l). simpl in *. congruence.
  - unfold StaticLayer.set_bias_vector in E.
    destruct (length b =? StaticLayer.bias_dim l) eqn:E1; [|discriminate].
    simpl in E. injection E as <-. apply Nat.eqb_eq in E1.
    destruct IH as (Hs & Hc & Hb & Hl).
    unfold Reach.static_shaped. simpl. auto.
  - exact IH.
Qed.

Lemma ctrnn_reach_shaped (l : CTRNNLayer.t R) :
  Reach.ctrnn l ->
  Reach.ctrnn_shaped l /\
  (forall b th v,
      length (ActivationFunction.compute
                (CTRNNLayer.activation_function l) b th v) = length v).
Proof.
  induction 1 as [i o dt tc af nm g g' l Ha E | l l' w _ IH Hw E
                 | l l' b _ IH E | l l' tc _ IH E | l tc e _ IH E
                 | l b th _ IH | l l' x out _ IH E].
  - unfold CTRNNLayer.init, random_rand2, random_rand in E. simpl in E.
    destruct (length (CTRNNLayer.weights_of dt tc) =? o) eqn:E1;
      [|discriminate].
    simpl in E. injection E as <- _. apply Nat.eqb_eq in E1.
    unfold Reach.ctrnn_shaped, Reach.consistent. simpl.
    rewrite !length_map, !length_seq.
    unfold np.zeros. rewrite repeat_length.
    repeat split; auto.
  - unfold CTRNNLayer.set_weight_matrix in E.
    destruct (fst (np.shape w) =? fst (CTRNNLayer.weight_dim l)) eqn:E1;
      [|discriminate].
    destruct (snd (np.shape w) =? snd (CTRNNLayer.weight_dim l)) eqn:E2;
      [|discriminate].
    simpl in E. injection E as <-. apply Nat.eqb_eq in E1, E2.
    destruct IH as ((_ & _ & H1 & H2 & H3 & H4 & H5) & Ha).
    unfold Reach.ctrnn_shaped. simpl. repeat split; auto.
    destruct (np.shape w), (CTRNNLayer.weight_dim l). simpl in *. congruence.
  - unfold CTRNNLayer.set_bias_vector in E.
    destruct (length b =? CTRNNLayer.bias_dim l) eqn:E1; [|discriminate].
    simpl in E. injection E as <-. apply Nat.eqb_eq in E1.
    destruct IH as ((H0 & Hc & H1 & H2 & H3 & H4 & H5) & Ha).
    unfold Reach.ctrnn_shaped. simpl. repeat split; auto. congruence.
  - unfold CTRNNLayer.set_time_constant in E.
    destruct (length tc =? CTRNNLayer.time_dim l) eqn:E1; [|discriminate].
    simpl in E. injection E as <-. apply Nat.eqb_eq in E1.
    destruct IH as ((H0 & Hc & H1 & H2 & H3 & H4 & H5) & Ha).
    unfold Reach.ctrnn_shaped, CTRNNLayer.weights_of. simpl.
    rewrite length_map. repeat split; auto. congruence.
  - exact IH.
  - destruct IH as (Hs & Ha). split; [exact Hs|]. exact Ha.
  - destruct IH as ((H0 & Hc & H1 & H2 & H3 & H4 & H5) & Ha).
    destruct (Nat.eq_dec (length x) (snd (CTRNNLayer.weight_dim l)))
      as [Hx|Hx].
    + assert (Hc' : forall v,
                 length (ActivationFunction.calculate_activation
                           (CTRNNLayer.activation_function l) v) = length v).
      { intros v. apply Ha. }
      pose proof (@euler_step_equation _ _ l x H0 H3 H4 H5 Hc' Hx) as Q.
      simpl in Q. rewrite Q in E. injection E as <- <-.
      unfold Reach.ctrnn_shaped. simpl. repeat split; auto.
      unfold Spec.euler. now rewrite length_map, length_seq.
    + unfold CTRNNLayer.euler_step in E. apply Nat.eqb_neq in Hx.
      rewrite Hx in E. discriminate.
Qed.
End ReachableLayers.

Section ReachableForward.
Context {R : Type} `{Scalar R}.

(** X4.  A StaticLayer that comes from its constructor through
    [set_weight_matrix], [set_bias_vector] and [set_activation_parameters]
    never fails inside numpy: [forward_propagate] returns the activation of
    [W·x + b] for an input of the declared length and raises the
    [ValueError] of its own check for any other input, and
    [return_parameters] has the length [o·i + o + 2]. *)
Theorem static_reachable_forward (l : StaticLayer.t R) (x : list R) :
  Reach.static l ->
  (length x = snd (StaticLayer.weight_dim l) ->
   StaticLayer.forward_propagate l x
   = Ok (ActivationFunction.calculate_activation
           (StaticLayer.activation_function l)
           (Spec.affine (StaticLayer.weight_matrix l) x
                        (StaticLayer.bias_vector l)))) /\
  (length x <> snd (StaticLayer.weight_dim l) ->
   StaticLayer.forward_propagate l x
   = Raise (ValueError "The dimensions of input vector do not match!")) /\
  length (StaticLayer.return_parameters l)
  = fst (StaticLayer.weight_dim l) * snd (StaticLayer.weight_dim l)
    + fst (StaticLayer.weight_dim l) + 2.
Proof.
  intros Hr. apply static_reach_shaped in Hr.
  destruct Hr as (Hs & Hc & Hb & Hl). split; [|split].
  - intros Hx. unfold StaticLayer.forward_propagate.
    rewrite Hx, Nat.eqb_refl. simpl.
    rewrite dot_rows by (now rewrite Hs). simpl.
    rewrite rows_add_affine by (rewrite Hs; congruence). reflexivity.
  - intros Hx. unfold StaticLayer.forward_propagate.
    apply Nat.eqb_neq in Hx. rewrite Hx. reflexivity.
  - unfold StaticLayer.return_parameters, np.flatten,
      StaticLayer.get_weight_matrix, StaticLayer.get_bias_vector,
      StaticLayer.get_activation_parameters,
      ActivationFunction.get_parameters.
    simpl. rewrite !length_app. simpl.
    unfold Reach.consistent in Hc. rewrite Hc, Hs, Hl, Hb. lia.
Qed.

(** X5.  A CTRNNLayer that comes from its constructor through its
    setters (a refused [set_time_constant] included) and through
    [euler_step], with an activation function that keeps the length of
    its argument, never fails inside numpy: [euler_step] returns a vector
    of the output dimension for an input of the declared length and
    stores it as the previous output; for any other input it raises the
    [ValueError] of its own check. *)
Theorem ctrnn_reachable_step (l : CTRNNLayer.t R) (x : list R) :
  Reach.ctrnn l ->
  (length x = snd (CTRNNLayer.weight_dim l) ->
   exists out l',
     CTRNNLayer.euler_step l x = Ok (out, l') /\
     length out = fst (CTRNNLayer.weight_dim l) /\
     CTRNNLayer.previous_output l' = out) /\
  (length x <> snd (CTRNNLayer.weight_dim l) ->
   CTRNNLayer.euler_step l x
   = Raise (ValueError "The dimensions of input vector do not match!")).
Proof.
  intros Hr. apply ctrnn_reach_shaped in Hr.
  destruct Hr as ((H0 & Hc & H1 & H2 & H3 & H4 & H5) & Ha).
  split.
  - intros Hx.
    assert (Hc' : forall v,
               length (ActivationFunction.calculate_activation
                         (CTRNNLayer.activation_function l) v) = length v).
    { intros v. apply Ha. }
    pose proof (@euler_step_equation _ _ l x H0 H3 H4 H5 Hc' Hx) as Q.
    simpl in Q. rewrite Q. eexists. eexists. split; [reflexivity|].
    split; [|reflexivity].
    unfold Spec.euler. now rewrite length_map, length_seq.
  - intros Hx. unfold CTRNNLayer.euler_step.
    apply Nat.eqb_neq in Hx. rewrite Hx. reflexivity.
Qed.

End ReachableForward.

(** The StaticLayer with [W = [[1, 1]]] and [b = [0]], set through the
    setters: a vector of two is mapped, a vector of three is refused. *)
Lemma static_reachable_forward_witness :
  exists l, Example.static21 = Ok l /\
    StaticLayer.forward_propagate l [3; 4]%float = Ok [7%float] /\
    StaticLayer.forward_propagate l [3; 4; 5]%float
    = Raise (ValueError "The dimensions of input vector do not match!") /\
    length (StaticLayer.return_parameters l) = 5.
Proof.
  eexists. split; [reflexivity|].
  assert (Hr : Reach.static
                 {| StaticLayer.layer_name := "L2";
                    StaticLayer.weight_dim := (1, 2);
                    StaticLayer.bias_dim := 1;
                    StaticLayer.weight_matrix :=
                      {| np.shape := (1, 2); np.elems := [1; 1]%float |};
                    StaticLayer.bias_vector := [0%float];
                    StaticLayer.activation_function := Example.identity |}).
  { eapply Reach.static_set_bias with (b := [0%float]).
    - eapply Reach.static_set_weight
        with (w := {| np.shape := (1, 2); np.elems := [1; 1]%float |}).
      + apply (Reach.static_init 2 1 Example.identity "L2" Example.g0).
      + reflexivity.
      + reflexivity.
    - reflexivity. }
  destruct (static_reachable_forward [3; 4]%float Hr) as (A & _ & C).
  destruct (static_reachable_forward [3; 4; 5]%float Hr) as (_ & B & _).
  split; [exact (A eq_refl)|]. split; [|exact C].
  apply B. discriminate.
Defined.

(** The CTRNN layer with [τ = [1.0]], [Δt = 0.5], [W = [[1]]] and
    [b = [0]]: a vector of one is accepted, the empty vector is refused. *)
Lemma ctrnn_reachable_step_witness :
  exists l, Example.ctrnn = Ok l /\
    (exists out l',
       CTRNNLayer.euler_step l [2%float] = Ok (out, l') /\ length out = 1) /\
    CTRNNLayer.euler_step l []
    = Raise (ValueError "The dimensions of input vector do not match!").
Proof.
  eexists. split; [reflexivity|].
  match goal with
  | |- context [CTRNNLayer.euler_step ?l []] => assert (Hr : Reach.ctrnn l)
  end.
  { eapply Reach.ctrnn_set_bias with (b := [0%float]).
    - eapply Reach.ctrnn_set_weight
        with (w := {| np.shape := (1, 1); np.elems := [1%float] |}).
      + eapply Reach.ctrnn_init
          with (i := 1) (o := 1) (dt := 0.5%float) (tc := [1%float])
               (af := Example.identity) (nm := "ctrnn") (g := Example.g0).
        * intros b th v. reflexivity.
        * reflexivity.
      + reflexivity.
      + reflexivity.
    - reflexivity. }
  destruct (ctrnn_reachable_step [2%float] Hr) as (A & _).
  destruct (ctrnn_reachable_step [] Hr) as (_ & B).
  split.
  - destruct (A eq_refl) as (out & l' & E & L & _).
    exists out, l'. split; [exact E | exact L].
  - apply B. discriminate.
Defined.

Section DynamicParameters.
Context {R : Type} `{Scalar R}.

Lemma slice_length (v : list R) (lo hi : nat) :
  length (np.slice v lo hi) = Nat.min (hi - lo) (length v - lo).
Proof. unfold np.slice. now rewrite length_firstn, length_skipn. Qed.

Lemma firstn_slice (v : list R) (a b : nat) :
  firstn (a + b) v = firstn a v ++ np.slice v a (a + b).
Proof.
  unfold np.slice. replace (a + b - a) with b by lia.
  revert v. induction a as [|a IH]; intros [|x v]; simpl;
    rewrite ?firstn_nil; try reflexivity.
  f_equal. apply IH.
Qed.

Lemma firstn_index (v : list R) (n : nat) (x : R) :
  np.index v n = Ok x -> firstn (n + 1) v = firstn n v ++ [x].
Proof.
  unfold np.index. revert v. induction n as [|n IH]; intros [|y v]; simpl;
    try discriminate.
  - intros E. injection E as ->. reflexivity.
  - intros E. f_equal. apply IH. exact E.
Qed.

Lemma index_some (v : list R) (n : nat) :
  n < length v -> exists x, np.index v n = Ok x.
Proof.
  intros Hn. unfold np.index. destruct (nth_error v n) as [x|] eqn:E.
  - now exists x.
  - apply nth_error_None in E. lia.
Qed.

Lemma index_none (v : list R) (n : nat) :
  length v <= n -> np.index v n = Raise IndexError.
Proof.
  intros Hn. unfold np.index. apply nth_error_None in Hn. now rewrite Hn.
Qed.

Lemma set_delay_keeps_recurrent (self self' : DynamicLayer.t R)
    (w : np.matrix R) :
  DynamicLayer.set_delay_weight_vector self w = Ok self' ->
  DynamicLayer.recurrent_system self' = DynamicLayer.recurrent_system self.
Proof.
  unfold DynamicLayer.set_delay_weight_vector.
  destruct (negb _); [discriminate|].
  destruct (TimeDelay.set_weight_vector _ _); simpl; [|discriminate].
  intros E. injection E as <-. reflexivity.
Qed.

(** X7.  [DynamicLayer.update_parameters] asks for the dimensions of a
    recurrent weight matrix without saying which: on a layer that has a
    recurrent system it raises the [ValueError] of a vector too short,
    whatever the vector. *)
Theorem dynamic_update_with_recurrence_raises (self : DynamicLayer.t R)
    (v : list R) :
  DynamicLayer.recurrent_system self <> [] ->
  DynamicLayer.update_parameters self v = Raise (ValueError too_short).
Proof.
  intros Hrec. unfold DynamicLayer.update_parameters.
  assert (E : exists e, DynamicLayer.update_parameters_body self v = Raise e).
  { unfold DynamicLayer.update_parameters_body.
    destruct (np.reshape2 _ _) as [dw|e]; simpl; [|now exists e].
    destruct (DynamicLayer.set_delay_weight_vector self dw) as [self1|e]
      eqn:E1; simpl; [|now exists e].
    apply set_delay_keeps_recurrent in E1. rewrite E1.
    destruct (DynamicLayer.recurrent_system self) as [|r rs];
      [now elim Hrec|].
    simpl. eexists. reflexivity. }
  destruct E as [e E]. rewrite E. reflexivity.
Qed.
End DynamicParameters.

Section DynamicWithoutRecurrence.
Context {R : Type} `{Scalar R}.

Lemma dynamic_body_without_recurrence (self : DynamicLayer.t R)
    (v : list R) :
  DynamicLayer.recurrent_system self = [] ->
  let dd := DynamicLayer.get_delay_weight_dim self in
  let wd := DynamicLayer.weight_dim self in
  let di := fst dd * snd dd in
  let wi := fst wd * snd wd in
  let bd := DynamicLayer.bias_dim self in
  let n := di + wi + bd + 2 in
  (length v < n ->
   exists e, DynamicLayer.update_parameters_body self v = Raise e) /\
  (n <= length v ->
   exists a0 a1,
     np.index v (di + wi + bd) = Ok a0 /\
     np.index v (di + wi + bd + 1) = Ok a1 /\
     DynamicLayer.update_parameters_body self v
     = Ok (DynamicLayer.set_activation_parameters
             (DynamicLayer.with_bias_vector
                (DynamicLayer.with_weight_matrix
                   (DynamicLayer.with_delay_system self
                      {| TimeDelay.weight_dim := dd;
                         TimeDelay.input_matrix_dim :=
                           TimeDelay.input_matrix_dim
                             (DynamicLayer.delay_system self);
                         TimeDelay.weight_vector :=
                           {| np.shape := dd;
                              np.elems := np.slice v 0 di |};
                         TimeDelay.input_matrix :=
                           TimeDelay.input_matrix
                             (DynamicLayer.delay_system self) |})
                   {| np.shape := wd;
                      np.elems := np.slice v di (di + wi) |})
                (np.slice v (di + wi) (di + wi + bd)))
             a0 a1, n)).
Proof.
  destruct self as [nm [o i] bd W b [[d1 d2] imd dw im] rs [cmp be th]].
  simpl. intros ->.
  unfold DynamicLayer.get_delay_weight_dim, TimeDelay.get_weight_vector_dim.
  simpl.
  unfold DynamicLayer.update_parameters_body,
    DynamicLayer.get_delay_weight_dim, TimeDelay.get_weight_vector_dim,
    np.reshape2, np.reshape1.
  simpl.
  rewrite !slice_length.
  set (di := d1 * d2). set (wi := o * i).
  destruct (Nat.min (di - 0) (length v - 0) =? di) eqn:E1; simpl.
  2: { split; [eexists; reflexivity|].
       intros Hn. apply Nat.eqb_neq in E1. lia. }
  apply Nat.eqb_eq in E1.
  unfold DynamicLayer.set_delay_weight_vector,
    TimeDelay.get_weight_vector_dim, TimeDelay.set_weight_vector.
  simpl. rewrite !Nat.eqb_refl. simpl.
  fold di wi. rewrite slice_length.
  destruct (Nat.min (di + wi - di) (length v - di) =? wi) eqn:E2; simpl.
  2: { split; [eexists; reflexivity|].
       intros Hn. apply Nat.eqb_neq in E2. lia. }
  apply Nat.eqb_eq in E2.
  unfold DynamicLayer.set_weight_matrix. simpl.
  rewrite !Nat.eqb_refl. simpl.
  rewrite slice_length.
  destruct (Nat.min (di + wi + bd - (di + wi)) (length v - (di + wi)) =? bd)
    eqn:E3; simpl.
  2: { split; [eexists; reflexivity|].
       intros Hn. apply Nat.eqb_neq in E3. lia. }
  unfold DynamicLayer.set_bias_vector. simpl.
  rewrite slice_length, E3. simpl.
  apply Nat.eqb_eq in E3.
  split.
  - intros Hn.
    destruct (np.index v (di + wi + bd)) as [a0|e] eqn:I0; simpl;
      [|eexists; reflexivity].
    rewrite index_none.
    + simpl. eexists. reflexivity.
    + unfold np.index in I0.
      destruct (nth_error v (di + wi + bd)) eqn:I; [|discriminate].
      lia.
  - intros Hn.
    destruct (index_some v (n := di + wi + bd)) as [a0 I0]; [lia|].
    destruct (index_some v (n := di + wi + bd + 1)) as [a1 I1]; [lia|].
    exists a0, a1. rewrite I0. simpl. rewrite I1. simpl.
    split; [reflexivity|]. split; reflexivity.
Qed.
End DynamicWithoutRecurrence.

Section DynamicUpdate.
Context {R : Type} `{Scalar R}.

(** X8.  On a DynamicLayer without recurrent systems [update_parameters]
    needs [n = d + o·i + o + 2] elements (delay weights, static weights,
    bias, the two activation parameters): a shorter vector raises the
    [ValueError]; a vector of [n] or more is accepted, with the warning
    exactly when it is longer, and the parameters of the layer are then
    the first [n] elements, in the layout [return_parameters] builds; the
    dimensions and the delayed inputs are kept. *)
Theorem dynamic_update_without_recurrence (self : DynamicLayer.t R)
    (v : list R) :
  DynamicLayer.recurrent_system self = [] ->
  let dd := DynamicLayer.get_delay_weight_dim self in
  let wd := DynamicLayer.weight_dim self in
  let n := fst dd * snd dd + fst wd * snd wd
           + DynamicLayer.bias_dim self + 2 in
  (length v < n ->
   DynamicLayer.update_parameters self v = Raise (ValueError too_short)) /\
  (n <= length v ->
   exists self',
     DynamicLayer.update_parameters self v
     = Ok (self', if n <? length v then [too_long] else []) /\
     DynamicLayer.return_parameters_output self' = Ok (firstn n v) /\
     DynamicLayer.weight_dim self' = wd /\
     DynamicLayer.bias_dim self' = DynamicLayer.bias_dim self /\
     DynamicLayer.get_delay_weight_dim self' = dd /\
     TimeDelay.input_matrix (DynamicLayer.delay_system self')
     = TimeDelay.input_matrix (DynamicLayer.delay_system self) /\
     DynamicLayer.recurrent_system self' = []).
Proof.
  intros Hrec dd wd n.
  destruct (dynamic_body_without_recurrence self v Hrec) as [A B].
  fold dd wd in A, B. split.
  - intros Hn. destruct (A Hn) as [e E].
    unfold DynamicLayer.update_parameters. rewrite E. reflexivity.
  - intros Hn. destruct (B Hn) as (a0 & a1 & I0 & I1 & E).
    unfold DynamicLayer.update_parameters. rewrite E. simpl.
    eexists. split; [reflexivity|].
    split; [|repeat split; assumption].
    unfold DynamicLayer.return_parameters_output. simpl. rewrite Hrec.
    simpl. f_equal. unfold n.
    replace (fst dd * snd dd + fst wd * snd wd
             + DynamicLayer.bias_dim self + 2)
      with (fst dd * snd dd + fst wd * snd wd
            + DynamicLayer.bias_dim self + 1 + 1) by lia.
    rewrite (firstn_index _ _ I1), (firstn_index _ _ I0).
    rewrite !firstn_slice. unfold np.flatten. simpl.
    rewrite <- !app_assoc. f_equal.
    unfold np.slice. simpl. now rewrite Nat.sub_0_r.
Qed.
End DynamicUpdate.

Section DynamicRoundTrip.
Context {R : Type} `{Scalar R}.

(** X9.  On a DynamicLayer without recurrent systems whose arrays have
    the declared shapes, the vector that [return_parameters] builds (and
    does not return) is accepted by [update_parameters] without a
    warning and leaves the layer as it is. *)
Theorem dynamic_round_trip (self : DynamicLayer.t R) (p : list R) :
  DynamicLayer.recurrent_system self = [] ->
  np.shape (DynamicLayer.weight_matrix self) = DynamicLayer.weight_dim self ->
  Reach.consistent (DynamicLayer.weight_matrix self) ->
  length (DynamicLayer.bias_vector self) = DynamicLayer.bias_dim self ->
  np.shape (DynamicLayer.get_delay_weight_vector self)
  = DynamicLayer.get_delay_weight_dim self ->
  Reach.consistent (DynamicLayer.get_delay_weight_vector self) ->
  DynamicLayer.return_parameters_output self = Ok p ->
  DynamicLayer.update_parameters self p = Ok (self, []).
Proof.
  intros Hrec HW HWc Hb Hd Hdc E.
  destruct (dynamic_body_without_recurrence self p Hrec) as [_ B].
  destruct self as [nm [o i] bd [Ws We] b [[d1 d2] imd [ds de] im] rs
                    [cmp be th]].
  unfold Reach.consistent, DynamicLayer.get_delay_weight_vector,
    DynamicLayer.get_delay_weight_dim, TimeDelay.get_weight_vector,
    TimeDelay.get_weight_vector_dim in *.
  simpl in *. subst rs Ws ds. simpl in *.
  unfold DynamicLayer.return_parameters_output in E. simpl in E.
  injection E as <-.
  unfold np.flatten, DynamicLayer.get_activation_parameters,
    DynamicLayer.get_weight_matrix, DynamicLayer.get_bias_vector,
    ActivationFunction.get_parameters in *.
  simpl in *.
  assert (Hlen : length (de ++ We ++ b ++ [be; th])
                 = d1 * d2 + o * i + bd + 2).
  { rewrite !length_app. simpl. lia. }
  destruct B as (a0 & a1 & I0 & I1 & B); [lia|].
  unfold DynamicLayer.update_parameters. rewrite B. simpl.
  unfold warn_if_longer. rewrite Hlen, Nat.ltb_irrefl.
  assert (E0 : np.index (de ++ We ++ b ++ [be; th]) (d1 * d2 + o * i + bd)
               = Ok be).
  { replace (de ++ We ++ b ++ [be; th])
      with ((de ++ We ++ b) ++ be :: [th])
      by (now rewrite <- !app_assoc).
    apply index_app. rewrite !length_app. lia. }
  assert (E1 : np.index (de ++ We ++ b ++ [be; th])
                 (d1 * d2 + o * i + bd + 1) = Ok th).
  { replace (de ++ We ++ b ++ [be; th])
      with ((de ++ We ++ b ++ [be]) ++ th :: [])
      by (now rewrite <- !app_assoc).
    apply index_app. rewrite !length_app. simpl. lia. }
  rewrite E0 in I0. rewrite E1 in I1.
  injection I0 as <-. injection I1 as <-.
  assert (S0 : np.slice (de ++ We ++ b ++ [be; th]) 0 (d1 * d2) = de).
  { rewrite <- Hdc. apply (slice_app_left de). }
  assert (S1 : np.slice (de ++ We ++ b ++ [be; th]) (d1 * d2)
                 (d1 * d2 + o * i) = We).
  { rewrite <- HWc. apply slice_app_right. now rewrite Hdc. }
  assert (S2 : np.slice (de ++ We ++ b ++ [be; th]) (d1 * d2 + o * i)
                 (d1 * d2 + o * i + bd) = b).
  { rewrite app_assoc, <- Hb. apply slice_app_right.
    rewrite length_app. lia. }
  rewrite S0, S1, S2. reflexivity.
Qed.
End DynamicRoundTrip.

(** A DynamicLayer with a recurrent system refuses every vector: the
    empty one, and one of the length of its parameters. *)
Lemma dynamic_update_with_recurrence_witness :
  exists d, Example.dynamic_recurrent = Ok d /\
    DynamicLayer.update_parameters d [] = Raise (ValueError too_short) /\
    DynamicLayer.update_parameters d [1; 2; 3; 4; 5; 6]%float
    = Raise (ValueError too_short).
Proof.
  eexists. split; [reflexivity|]. split.
  - apply dynamic_update_with_recurrence_raises. discriminate.
  - apply dynamic_update_with_recurrence_raises. discriminate.
Defined.

(** Seven parameters: six elements are refused, eight are accepted with
    the warning and the first seven are kept. *)
Lemma dynamic_update_without_recurrence_witness :
  exists d, Example.dynamic_plain = Ok d /\
    DynamicLayer.update_parameters d [1; 2; 3; 4; 5; 6]%float
    = Raise (ValueError too_short) /\
    exists d',
      DynamicLayer.update_parameters d [1; 2; 3; 4; 5; 6; 7; 8]%float
      = Ok (d', [too_long]) /\
      DynamicLayer.return_parameters_output d'
      = Ok [1; 2; 3; 4; 5; 6; 7]%float.
Proof.
  eexists. split; [reflexivity|].
  match goal with
  | |- context [DynamicLayer.update_parameters ?d [_; _; _; _; _; _]] =>
      pose proof (proj1 (dynamic_update_without_recurrence d
                           [1; 2; 3; 4; 5; 6]%float eq_refl)) as A;
      pose proof (proj2 (dynamic_update_without_recurrence d
                           [1; 2; 3; 4; 5; 6; 7; 8]%float eq_refl)) as B
  end.
  split.
  - apply A. simpl. lia.
  - destruct B as (d' & E & P & _).
    + simpl. lia.
    + exists d'. split; [exact E | exact P].
Defined.

Lemma dynamic_round_trip_witness :
  exists d p, Example.dynamic_plain = Ok d /\
    DynamicLayer.return_parameters_output d = Ok p /\
    length p = 7 /\
    DynamicLayer.update_parameters d p = Ok (d, []).
Proof.
  eexists. eexists. split; [reflexivity|]. split; [reflexivity|].
  split; [reflexivity|].
  apply dynamic_round_trip; reflexivity.
Defined.

(** * Further properties of the network *)

Section DynamicKind.
Context {R : Type} `{Scalar R}.

Import ArtificialNeuralNetwork.

Lemma input_dimension_of_returns (c : connections) (l : LayerSpec R)
    (b : built R) :
  b_level_vector b <> [] ->
  exists d il lv,
    input_dimension_of c l b = Ok (d, il, lv) /\ lv <> [].
Proof.
  intros Hlv. unfold input_dimension_of.
  destruct (conns <- PyDict.item (c_input c) (name l) ;;
            sum_sizes (c_neuron_map c) conns 0) as [d|e].
  - eexists. eexists. eexists. split; [reflexivity | exact Hlv].
  - unfold append_level.
    destruct (b_level_vector b) as [|l0 lv]; [now elim Hlv|].
    simpl. eexists. eexists. eexists. split; [reflexivity | discriminate].
Qed.

Lemma generate_layers_dynamic (dt : R) (c : connections)
    (layer_vector : list (LayerSpec R)) :
  (exists l, In l layer_vector /\ kind l = "DYNAMIC") ->
  forall b, b_level_vector b <> [] ->
    generate_layers dt c layer_vector b
    = Raise (TypeError "object cannot be interpreted as an integer").
Proof.
  induction layer_vector as [|l rest IH]; intros (d & Hin & Hk) b Hlv.
  - destruct Hin.
  - cbn [generate_layers]. unfold generate_layer.
    destruct (input_dimension_of_returns c l b Hlv)
      as (dim & il & lv & E & Hlv').
    destruct (String.eqb (kind l) "STATIC") eqn:Es.
    + rewrite E. cbn [bind].
      destruct (StaticLayer.init dim (size l) (activation l) (name l)
                  (b_random b)) as [s g1].
      cbn [bind]. apply IH; [|exact Hlv'].
      exists d. split; [|exact Hk].
      destruct Hin as [->|Hin]; [|exact Hin].
      apply String.eqb_eq in Es. rewrite Hk in Es. discriminate.
    + destruct (String.eqb (kind l) "DYNAMIC") eqn:Ed.
      * rewrite E. cbn [bind]. reflexivity.
      * cbn [bind]. apply IH; [|exact Hlv].
        exists d. split; [|exact Hk].
        destruct Hin as [->|Hin]; [|exact Hin].
        rewrite Hk in Ed. discriminate.
Qed.

(** X10.  A layer vector with a layer of the kind "DYNAMIC" builds no
    network: [_construct_layers] passes the activation function where
    [DynamicLayer] expects the delay, and the constructor raises
    [TypeError], whatever the other layers are. *)
Theorem dynamic_kind_raises (layer_vector : list (LayerSpec R)) (dt : R)
    (g : RandomState R) (fuel : nat) :
  (exists l, In l layer_vector /\ kind l = "DYNAMIC") ->
  init fuel layer_vector dt g
  = Some (Raise (TypeError "object cannot be interpreted as an integer")).
Proof.
  intros Hd. unfold init, _construct_layers.
  rewrite generate_layers_dynamic; [reflexivity | exact Hd |].
  simpl. discriminate.
Qed.
End DynamicKind.

(** A DYNAMIC layer between two STATIC layers. *)
Lemma dynamic_kind_raises_witness :
  Example.network Example.with_dynamic
  = Some (Raise (TypeError "object cannot be interpreted as an integer")).
Proof.
  apply dynamic_kind_raises.
  exists (Example.layer "hid" 3 "DYNAMIC" "" ["out"] []).
  split; [right; left; reflexivity | reflexivity].
Defined.

Section NoInputLayer.
Context {R : Type} `{Scalar R}.

Import ArtificialNeuralNetwork.

Lemma input_names_none (layer_vector rest : list (LayerSpec R)) :
  (forall l, In l rest -> Declared.upstream layer_vector (name l) <> []) ->
  Aux.input_names layer_vector rest = [].
Proof.
  intros Hup. unfold Aux.input_names.
  induction rest as [|l rest IH]; [reflexivity|].
  simpl. unfold Aux.has_no_upstream at 1.
  destruct (Declared.upstream layer_vector (name l)) eqn:E.
  - elim (Hup l (or_introl eq_refl)). exact E.
  - rewrite andb_false_r. apply IH. intros l' Hl'. apply Hup. now right.
Qed.

(** X11.  A layer vector (unique names, no "DYNAMIC" layer, not empty) in
    which every layer is among the outputs of some layer has no input
    layer: level 0 stays empty, and the construction ends in the
    [IndexError] of the lookup of level 1. *)
Theorem no_input_layer_raises (layer_vector : list (LayerSpec R)) (dt : R)
    (g : RandomState R) (fuel : nat) :
  NoDup (map name layer_vector) ->
  Forall (fun l => kind l <> "DYNAMIC") layer_vector ->
  layer_vector <> [] ->
  (forall l, In l layer_vector ->
     exists src, In src layer_vector /\ In (name l) (outputs src)) ->
  2 <= fuel ->
  init fuel layer_vector dt g = Some (Raise IndexError).
Proof.
  intros Hnd Hk Hne Hup Hfuel.
  assert (Hup' : forall l, In l layer_vector ->
                   Declared.upstream layer_vector (name l) <> []).
  { intros l Hl. destruct (Hup l Hl) as (src & Hs & Ho).
    exact (upstream_of_output layer_vector src (name l) Hs Ho). }
  destruct (generate_layers_static layer_vector dt Hnd Hk
              {| b_layer_map := PyDict.empty;
                 b_input_layers := [];
                 b_level_vector := [[]];
                 b_random := g |} eq_refl)
    as (b' & E & Elv & _).
  rewrite (input_names_none layer_vector layer_vector Hup') in Elv.
  unfold init, _construct_layers.
  change (record_connections layer_vector _) with (Aux.recorded layer_vector).
  cbn [attributes time_interval input_layers level_vector random_state].
  rewrite E. cbn [bind].
  unfold _construct_graph.
  destruct fuel as [|[|fuel]]; try lia.
  destruct layer_vector as [|l0 rest]; [now elim Hne|].
  cbn [levels entry number_of_layers layers_generated l_level_vector
       level_vector length Nat.eqb attributes].
  rewrite Elv. reflexivity.
Qed.
End NoInputLayer.

(** Two layers that feed each other. *)
Lemma no_input_layer_raises_witness :
  Example.network Example.ring = Some (Raise IndexError).
Proof.
  apply no_input_layer_raises.
  - repeat constructor; simpl; intuition discriminate.
  - repeat constructor; discriminate.
  - discriminate.
  - intros l [<-|[<-|[]]].
    + exists (Example.layer "B" 1 "STATIC" "" ["A"; "motor"] []).
      split; [right; left; reflexivity | left; reflexivity].
    + exists (Example.layer "A" 1 "STATIC" "s" ["B"] []).
      split; [left; reflexivity | left; reflexivity].
  - lia.
Defined.

Section HardwareLayers.
Context {R : Type} `{Scalar R}.

Import ArtificialNeuralNetwork.

Lemma keys_set {V : Type} (d : PyDict.t V) (k : string) (v : V) :
  (forall x, In x (PyDict.keys (PyDict.set d k v))
             <-> x = k \/ In x (PyDict.keys d)) /\
  (NoDup (PyDict.keys d) -> NoDup (PyDict.keys (PyDict.set d k v))).
Proof.
  induction d as [|[k' v'] d [IHin IHnd]]; simpl.
  - split.
    + intros x. split; [intros [E|[]]; auto | intros [E|[]]; auto].
    + intros _. constructor; [intros [] | constructor].
  - destruct (String.eqb k' k) eqn:E; simpl.
    + apply String.eqb_eq in E. subst k'. split; [|auto].
      intros x. split; [auto|]. intros [->|Hx]; auto.
    + split.
      * intros x. rewrite IHin. split;
          [intros [E'|[E'|E']]; auto | intros [E'|[E'|E']]; auto].
      * intros Hnd. inversion Hnd as [|a l Hn Hd]; subst.
        constructor; [|auto]. rewrite IHin. intros [->|Hx]; auto.
        now rewrite String.eqb_refl in E.
Qed.

Lemma invert_outputs_nodup (layer : LayerSpec R) (outs : list string)
    (ic : PyDict.t (list (string * bool))) :
  NoDup (PyDict.keys ic) ->
  NoDup (PyDict.keys (invert_outputs layer outs ic)).
Proof.
  revert ic. induction outs as [|o outs IH]; intros ic Hnd; simpl; auto.
  apply IH. destruct (PyDict.get ic o); now apply keys_set.
Qed.

Lemma record_connections_nodup (layer_vector : list (LayerSpec R))
    (c : connections) :
  NoDup (PyDict.keys (c_input c)) ->
  NoDup (PyDict.keys (c_input (record_connections layer_vector c))).
Proof.
  revert c. induction layer_vector as [|l rest IH]; intros c Hnd; simpl; auto.
  apply IH. simpl. now apply invert_outputs_nodup.
Qed.

Lemma upstream_is_output (layer_vector : list (LayerSpec R)) (n : string) :
  Declared.upstream layer_vector n <> [] ->
  exists src, In src layer_vector /\ In n (outputs src).
Proof.
  unfold Declared.upstream.
  induction layer_vector as [|l rest IH]; simpl; [congruence|].
  destruct (filter (String.eqb n) (outputs l)) as [|x xs] eqn:E.
  - simpl. intros Hne. destruct (IH Hne) as (src & Hs & Ho).
    exists src. split; [now right | exact Ho].
  - intros _. exists l. split; [now left|].
    assert (Hx : In x (filter (String.eqb n) (outputs l)))
      by (rewrite E; now left).
    apply filter_In in Hx. destruct Hx as [Hx Ex].
    apply String.eqb_eq in Ex. now subst x.
Qed.

(** X12.  After [_construct_layers] on a layer vector with unique names,
    the output (hardware) layers are exactly the names that some layer
    lists among its outputs and that no layer carries, each of them
    once. *)
Theorem output_layers_are_hardware (layer_vector : list (LayerSpec R))
    (dt : R) (g : RandomState R) (self : t R) :
  NoDup (map name layer_vector) ->
  _construct_layers (attributes layer_vector dt g) layer_vector = Ok self ->
  (forall n, In n (output_layers self) <->
     (exists l, In l layer_vector /\ In n (outputs l)) /\
     ~ In n (map name layer_vector)) /\
  NoDup (output_layers self).
Proof.
  intros Hnd E. unfold _construct_layers in E.
  change (record_connections layer_vector _)
    with (Aux.recorded layer_vector) in E.
  destruct (generate_layers _ _ _ _) as [b|e]; [|discriminate].
  cbn [bind] in E. injection E as <-.
  cbn [output_layers attributes app]. unfold hardware_layers. split.
  - intros n. rewrite filter_In, in_keys_get, recorded_input.
    rewrite negb_true_iff, str_in_false, declared_names by exact Hnd.
    split; intros [A B]; (split; [|exact B]).
    + apply upstream_is_output.
      destruct (Declared.upstream layer_vector n);
        [destruct A; discriminate | discriminate].
    + destruct A as (l & Hl & Ho).
      pose proof (upstream_of_output layer_vector l n Hl Ho) as Hne.
      destruct (Declared.upstream layer_vector n) as [|u us];
        [now elim Hne|].
      eexists. reflexivity.
  - apply NoDup_filter. apply record_connections_nodup. constructor.
Qed.
End HardwareLayers.

(** "left" and "right" are hardware, "B" is not; "right" is listed
    once. *)
Lemma output_layers_are_hardware_witness :
  exists self,
    ArtificialNeuralNetwork._construct_layers
      (ArtificialNeuralNetwork.attributes Example.two_motors 0.125%float
         Example.g0) Example.two_motors = Ok self /\
    ArtificialNeuralNetwork.output_layers self = ["left"; "right"] /\
    (In "right" (ArtificialNeuralNetwork.output_layers self) <->
     (exists l, In l Example.two_motors /\
                In "right" (ArtificialNeuralNetwork.outputs l)) /\
     ~ In "right" (map (@ArtificialNeuralNetwork.name float)
                       Example.two_motors)).
Proof.
  eexists. split; [reflexivity|]. split; [reflexivity|].
  refine (proj1 (output_layers_are_hardware Example.two_motors 0.125%float
                   Example.g0 _ eq_refl) "right").
  repeat constructor; simpl; intuition discriminate.
Defined.

Section LoadParameters.
Context {R : Type} `{Scalar R}.

Import ArtificialNeuralNetwork.


End LoadParameters.


Section SensorValues.
Context {R : Type} `{Scalar R}.

Import ArtificialNeuralNetwork.

Lemma feed_layers_value (self : t R) (input_dict : PyDict.t (list R))
    (l : LayerSpec R) (p : nat) (v : list R) (layers : list (LayerSpec R)) :
  (forall l', In l' layers ->
     exists p' n', PyDict.get (sensor_inputs self) (name l') = Some p' /\
                   PyDict.get (neuron_map self) (name l') = Some n') ->
  PyDict.get input_dict (sensor l) = Some v ->
  PyDict.get (sensor_inputs self) (name l) = Some p ->
  (forall l', In l' layers ->
     PyDict.get (sensor_inputs self) (name l') = Some p -> l' = l) ->
  forall f0,
    In l layers \/ feed_get f0 p = Some v ->
    exists f, feed_layers self input_dict layers f0 = Ok f /\
              feed_get f p = Some v.
Proof.
  intros Hall Hv Hp. induction layers as [|a layers IH];
    intros Hinj f0 Hin.
  - destruct Hin as [[]|Hin]. exists f0. now split.
  - destruct (Hall a (or_introl eq_refl)) as (p' & n' & Ep' & En').
    cbn [feed_layers]. rewrite (feed_layer_writes self input_dict f0 a Ep' En').
    cbn [bind]. apply IH.
    + intros l' Hl'. apply Hall. now right.
    + intros l' Hl'. apply Hinj. now right.
    + destruct (Nat.eq_dec p' p) as [->|Np].
      * right. assert (a = l) by (apply Hinj; [now left|assumption]).
        subst a. rewrite Hv. apply feed_get_set_eq.
      * rewrite feed_get_set_ne by exact Np.
        destruct Hin as [[->|Hin]|Hin]; auto. congruence.
Qed.

(** X15.  When every layer of the network has its placeholder and its
    size, a layer whose sensor name is a key of the input dictionary is
    fed the value stored there as it is: the length of the value is not
    compared with the size of the layer, and the layer need not be an
    input layer.  Two layers with one sensor name are fed one value. *)
Theorem sensor_value_is_fed (self : t R) (input_dict : PyDict.t (list R))
    (l : LayerSpec R) (p : nat) (v : list R) :
  (forall l', In l' (order_of_execution self) ->
     exists p' n', PyDict.get (sensor_inputs self) (name l') = Some p' /\
                   PyDict.get (neuron_map self) (name l') = Some n') ->
  In l (order_of_execution self) ->
  PyDict.get input_dict (sensor l) = Some v ->
  PyDict.get (sensor_inputs self) (name l) = Some p ->
  (forall l', In l' (order_of_execution self) ->
     PyDict.get (sensor_inputs self) (name l') = Some p -> l' = l) ->
  exists f,
    forward_propagate_sensor_input self input_dict = Ok f /\
    feed_get f p = Some v.
Proof.
  intros Hall Hin Hv Hp Hinj. unfold forward_propagate_sensor_input.
  eapply feed_layers_value; eauto.
Qed.
End SensorValues.

(** The hidden layer "hid" of one neuron names the sensor of the input
    layer: both are fed the two readings. *)
Lemma sensor_value_is_fed_witness :
  Example.network Example.shared_sensor
    = Some (Ok (Example.built Example.shared_sensor)) /\
  exists f,
    ArtificialNeuralNetwork.forward_propagate_sensor_input
      (Example.built Example.shared_sensor) [("IR", [7; 8]%float)] = Ok f /\
    ArtificialNeuralNetwork.feed_get f 1 = Some [7; 8]%float.
Proof.
  split; [vm_compute; reflexivity|].
  assert (Ho : ArtificialNeuralNetwork.order_of_execution
                 (Example.built Example.shared_sensor)
               = Example.shared_sensor)
    by (vm_compute; reflexivity).
  apply (@sensor_value_is_fed float float_scalar
           (Example.built Example.shared_sensor) [("IR", [7; 8]%float)]
           (Example.layer "hid" 1 "STATIC" "IR" ["motor"] [])).
  - intros l' Hl'. rewrite Ho in Hl'.
    destruct Hl' as [<-|[<-|[]]]; eexists; eexists; split;
      vm_compute; reflexivity.
  - rewrite Ho. right. left. reflexivity.
  - reflexivity.
  - vm_compute. reflexivity.
  - intros l' Hl' E. rewrite Ho in Hl'.
    destruct Hl' as [<-|[<-|[]]]; [|reflexivity].
    vm_compute in E. discriminate E.
Defined.

Section NumberedNames.
Context {R : Type} `{Scalar R}.

Import ArtificialNeuralNetwork.

(** X16.  On every network built from a non-empty layer vector (unique
    names, no "DYNAMIC" layer) in which no layer is called "layer_0",
    [return_parameters_as_vector] returns nothing: it looks for the key
    "layer_0" in the layer map and raises [KeyError]. *)
Theorem return_parameters_needs_numbered_names
    (layer_vector : list (LayerSpec R)) (dt : R) (g : RandomState R)
    (fuel : nat) (self : t R) :
  NoDup (map name layer_vector) ->
  Forall (fun l => kind l <> "DYNAMIC") layer_vector ->
  layer_vector <> [] ->
  ~ In "layer_0" (map name layer_vector) ->
  init fuel layer_vector dt g = Some (Ok self) ->
  return_parameters_as_vector self = Raise (KeyError "layer_0").
Proof.
  intros Hnd Hk Hne Hno Hinit.
  destruct (generate_layers_static layer_vector dt Hnd Hk
              {| b_layer_map := PyDict.empty;
                 b_input_layers := [];
                 b_level_vector := [[]];
                 b_random := g |} eq_refl)
    as (b' & E & _ & Eil & Hmap & _).
  unfold init, _construct_layers in Hinit.
  change (record_connections layer_vector _)
    with (Aux.recorded layer_vector) in Hinit.
  cbn [attributes time_interval input_layers level_vector random_state]
    in Hinit.
  rewrite E in Hinit. cbn [bind] in Hinit.
  unfold _construct_graph in Hinit.
  destruct (levels fuel _ 0 _) as [[st|e]|]; try discriminate.
  injection Hinit as <-.
  unfold return_parameters_as_vector, store.
  cbn [number_of_layers attributes].
  destruct layer_vector as [|l0 rest]; [now elim Hne|].
  cbn [length seq return_parameters_loop input_layers layer_map].
  change (String.append "layer_" (str 0)) with "layer_0".
  assert (Ein : str_in "layer_0" (b_input_layers b') = false).
  { apply str_in_false. rewrite Eil. cbn [app]. intros Hin.
    apply in_input_names in Hin. destruct Hin as (l & Hl & En & _).
    apply Hno. rewrite <- En. now apply in_map. }
  rewrite Ein. cbn [negb].
  assert (Em : PyDict.get (b_layer_map b') "layer_0" = None).
  { rewrite Hmap; [reflexivity|].
    intros l Hl _ En. apply Hno. rewrite <- En. now apply in_map. }
  unfold PyDict.item. rewrite Em. reflexivity.
Qed.
End NumberedNames.

(** The network of "in" and "out". *)
Lemma return_parameters_needs_numbered_names_witness :
  ArtificialNeuralNetwork.return_parameters_as_vector
    (Example.built Example.in_out)
  = Raise (KeyError "layer_0").
Proof.
  apply (@return_parameters_needs_numbered_names float float_scalar
           Example.in_out 0.125%float Example.g0 32).
  - repeat constructor; simpl; intuition discriminate.
  - repeat constructor; discriminate.
  - discriminate.
  - simpl. intuition discriminate.
  - vm_compute. reflexivity.
Defined.

(** * Properties of the infrared interface *)

Section InfraredFacts.
Context {R : Type} `{Scalar R}.
Variable int_of_str : string -> result Z.
Variable float_of_int : Z -> R.
Variable nano : R.

Lemma setitem_slot (i : Z) (x : R) :
  (-8 <= i < 8)%Z ->
  Infrared.list_setitem (repeat szero 8) i x
  = Ok (replace_nth (repeat szero 8) (Z.to_nat (i mod 8)) x).
Proof.
  intros Hi. unfold Infrared.list_setitem.
  rewrite repeat_length.
  change (Z.of_nat 8) with 8%Z.
  destruct ((0 <=? i) && (i <? 8))%Z eqn:E.
  - apply andb_true_iff in E. destruct E as [E1 E2].
    apply Z.leb_le in E1. apply Z.ltb_lt in E2.
    rewrite Z.mod_small by lia. reflexivity.
  - assert (Hn : (i < 0)%Z).
    { apply andb_false_iff in E. destruct E as [E|E].
      - apply Z.leb_gt in E. exact E.
      - apply Z.ltb_ge in E. lia. }
    replace ((- (8) <=? i) && (i <? 0))%Z with true.
    + do 2 f_equal. f_equal.
      rewrite <- (Z.mod_small (i + 8) 8) by lia.
      rewrite <- Z.add_mod_idemp_r, Z.mod_same, Z.add_0_r by lia.
      reflexivity.
    + symmetry. apply andb_true_iff. split.
      * apply Z.leb_le. lia.
      * apply Z.ltb_lt. exact Hn.
Qed.

Lemma setitem_out_of_range (i : Z) (x : R) :
  (i < -8 \/ 8 <= i)%Z ->
  Infrared.list_setitem (repeat szero 8) i x = Raise IndexError.
Proof.
  intros Hi. unfold Infrared.list_setitem.
  rewrite repeat_length.
  change (Z.of_nat 8) with 8%Z.
  replace ((0 <=? i) && (i <? 8))%Z with false.
  - replace ((- (8) <=? i) && (i <? 0))%Z with false; [reflexivity|].
    symmetry. apply andb_false_iff.
    destruct Hi as [Hi|Hi]; [left; apply Z.leb_gt | right; apply Z.ltb_ge];
      lia.
  - symmetry. apply andb_false_iff.
    destruct Hi as [Hi|Hi]; [left; apply Z.leb_gt | right; apply Z.ltb_ge];
      lia.
Qed.

Lemma nth_repeat_zero (n j : nat) : nth j (repeat (szero : R) n) szero = szero.
Proof.
  revert j. induction n as [|n IH]; intros [|j]; simpl; auto.
Qed.

(** What a message whose frame id reads as [i] is converted to, for an
    index in the range of the list. *)
Lemma message_slot (infra : Infrared.Range R) (i : Z) :
  int_of_str (Infrared.from3 (Infrared.frame_id infra)) = Ok i ->
  (-7 <= i <= 8)%Z ->
  exists d,
    Infrared.message2InfraredData int_of_str float_of_int nano infra = Ok d /\
    length (Infrared.values d) = 8 /\
    forall j,
      nth j (Infrared.values d) szero
      = if j =? Z.to_nat ((i - 1) mod 8) then Infrared.range infra
        else szero.
Proof.
  intros Ei Hi. unfold Infrared.message2InfraredData.
  rewrite Ei. cbn [bind Infrared.InfraredData_init Infrared.values].
  unfold Infrared.ARRAY_LENGTH.
  rewrite setitem_slot by lia. cbn [bind].
  eexists. split; [reflexivity|]. cbn [Infrared.values].
  assert (Hm : Z.to_nat ((i - 1) mod 8) < 8).
  { pose proof (Z.mod_pos_bound (i - 1) 8 ltac:(lia)). lia. }
  split.
  - rewrite length_replace_nth. apply repeat_length.
  - intros j. rewrite nth_replace_nth by (rewrite repeat_length; exact Hm).
    destruct (j =? Z.to_nat ((i - 1) mod 8)); [reflexivity|].
    apply nth_repeat_zero.
Qed.
End InfraredFacts.

Section InfraredTheorems.
Context {R : Type} `{Scalar R}.
Variable int_of_str : string -> result Z.
Variable float_of_int : Z -> R.
Variable nano : R.

(** X17.  A message whose frame id, after its first three characters,
    reads as the sensor number [k] between 1 and 8 is converted to an
    array of eight values that holds the range of the message in slot
    [k - 1] and zero in every other slot: the readings of the other
    sensors are not in it. *)
Theorem infrared_message_sets_one_slot (infra : Infrared.Range R) (k : nat) :
  int_of_str (Infrared.from3 (Infrared.frame_id infra)) = Ok (Z.of_nat k) ->
  1 <= k <= 8 ->
  exists d,
    Infrared.message2InfraredData int_of_str float_of_int nano infra = Ok d /\
    length (Infrared.values d) = 8 /\
    nth (k - 1) (Infrared.values d) szero = Infrared.range infra /\
    forall j, j <> k - 1 -> nth j (Infrared.values d) szero = szero.
Proof.
  intros Ei Hk.
  destruct (message_slot int_of_str float_of_int nano infra Ei)
    as (d & Ed & Hl & Hn); [lia|].
  assert (Em : Z.to_nat ((Z.of_nat k - 1) mod 8) = k - 1).
  { rewrite Z.mod_small by lia. lia. }
  exists d. split; [exact Ed|]. split; [exact Hl|]. split.
  - rewrite Hn, Em, Nat.eqb_refl. reflexivity.
  - intros j Hj. rewrite Hn, Em.
    apply Nat.eqb_neq in Hj. rewrite Hj. reflexivity.
Qed.

(** X18.  The index is not checked against the number of sensors.  A
    frame id that reads as an integer [i] from -7 to 0 is accepted, and
    its range lands in slot [i + 7], counted from the end of the list (the
    id 0 writes the last slot); an integer above 8 or below -7 raises
    [IndexError]. *)
Theorem infrared_index_edges (infra : Infrared.Range R) (i : Z) :
  int_of_str (Infrared.from3 (Infrared.frame_id infra)) = Ok i ->
  ((-7 <= i <= 0)%Z ->
   exists d,
     Infrared.message2InfraredData int_of_str float_of_int nano infra = Ok d /\
     nth (Z.to_nat (i + 7)) (Infrared.values d) szero = Infrared.range infra /\
     forall j, j <> Z.to_nat (i + 7) ->
               nth j (Infrared.values d) szero = szero) /\
  ((i < -7 \/ 8 < i)%Z ->
   Infrared.message2InfraredData int_of_str float_of_int nano infra
   = Raise IndexError).
Proof.
  intros Ei. split.
  - intros Hi.
    destruct (message_slot int_of_str float_of_int nano infra Ei)
      as (d & Ed & Hl & Hn); [lia|].
    assert (Em : Z.to_nat ((i - 1) mod 8) = Z.to_nat (i + 7)).
    { f_equal. rewrite <- (Z.mod_small (i + 7) 8) by lia.
      replace (i + 7)%Z with (i - 1 + 1 * 8)%Z by lia.
      now rewrite Z.mod_add by lia. }
    exists d. split; [exact Ed|]. split.
    + rewrite Hn, Em, Nat.eqb_refl. reflexivity.
    + intros j Hj. rewrite Hn, Em.
      apply Nat.eqb_neq in Hj. rewrite Hj. reflexivity.
  - intros Hi. unfold Infrared.message2InfraredData.
    rewrite Ei. cbn [bind Infrared.InfraredData_init Infrared.values].
    unfold Infrared.ARRAY_LENGTH.
    rewrite setitem_out_of_range by lia. reflexivity.
Qed.

Lemma nth_replace_other {A : Type} (l : list A) (i j : nat) (x d : A) :
  j <> i -> nth j (replace_nth l i x) d = nth j l d.
Proof.
  revert i j. induction l as [|y l IH]; intros [|i] [|j] N; simpl; auto;
    congruence.
Qed.

Lemma setitem_one_slot (l vs : list R) (i : Z) (x : R) :
  Infrared.list_setitem l i x = Ok vs ->
  exists slot, forall j, j <> slot -> nth j vs szero = nth j l szero.
Proof.
  unfold Infrared.list_setitem.
  destruct (_ && _)%bool.
  - intros E. injection E as <-. exists (Z.to_nat i). intros j Hj.
    apply nth_replace_other. exact Hj.
  - destruct (_ && _)%bool; [|discriminate].
    intros E. injection E as <-.
    exists (Z.to_nat (i + Z.of_nat (length l))). intros j Hj.
    apply nth_replace_other. exact Hj.
Qed.

Lemma converted_one_slot (m : Infrared.Range R) (d : Infrared.InfraredData R) :
  Infrared.message2InfraredData int_of_str float_of_int nano m = Ok d ->
  exists slot,
    forall j, j <> slot -> nth j (Infrared.values d) szero = szero.
Proof.
  unfold Infrared.message2InfraredData.
  destruct (int_of_str _) as [i|e]; [|discriminate].
  cbn [bind Infrared.InfraredData_init Infrared.values].
  destruct (Infrared.list_setitem _ _ _) as [vs|e] eqn:E; [|discriminate].
  cbn [bind]. intros Ed. injection Ed as <-. cbn [Infrared.values].
  destruct (setitem_one_slot _ _ _ E) as [slot Hs].
  exists slot. intros j Hj. rewrite (Hs j Hj). apply nth_repeat_zero.
Qed.

(** X19.  The listener keeps the last message only: after the callbacks
    for a sequence of messages, [getSensorData] returns the conversion of
    the last one, whatever came before, so the array it returns has one
    slot at most that is not zero: it never holds the readings of two
    sensors. *)
Theorem listener_keeps_last_message (self self' : Infrared.ListenerInfrared R)
    (messages : list (Infrared.Range R)) (last : Infrared.Range R) :
  Infrared.callbacks int_of_str float_of_int nano self (messages ++ [last])
  = Ok self' ->
  Infrared.message2InfraredData int_of_str float_of_int nano last
  = Ok (Infrared.getSensorData self') /\
  Infrared.topic self' = Infrared.topic self /\
  exists slot,
    forall j, j <> slot ->
      nth j (Infrared.values (Infrared.getSensorData self')) szero = szero.
Proof.
  intros E.
  assert (G : Infrared.message2InfraredData int_of_str float_of_int nano last
              = Ok (Infrared.getSensorData self') /\
              Infrared.topic self' = Infrared.topic self).
  { revert self E. induction messages as [|m rest IH]; intros self E.
    - cbn [app Infrared.callbacks] in E. unfold Infrared.callback in E.
      destruct (Infrared.message2InfraredData int_of_str float_of_int nano
                  last) as [d|e] eqn:Ed; [|discriminate].
      cbn [bind] in E. injection E as <-. split; reflexivity.
    - cbn [app Infrared.callbacks] in E.
      destruct (Infrared.callback int_of_str float_of_int nano self m)
        as [self1|e] eqn:E1; [|discriminate].
      cbn [bind] in E. destruct (IH self1 E) as (A & B).
      split; [exact A|].
      rewrite B. unfold Infrared.callback in E1.
      destruct (Infrared.message2InfraredData int_of_str float_of_int nano m);
        [|discriminate].
      cbn [bind] in E1. injection E1 as <-. reflexivity. }
  destruct G as [A B]. split; [exact A|]. split; [exact B|].
  exact (converted_one_slot _ A).
Qed.
End InfraredTheorems.

(** The sensor 3 reports 0.25 m at 5.5 s. *)
Lemma infrared_message_sets_one_slot_witness :
  exists d,
    Infrared.message2InfraredData Example.int_of_str Example.float_of_int
      Example.nano (Example.ir_message "ir_3" 0.25%float) = Ok d /\
    Infrared.values d = [0; 0; 0.25; 0; 0; 0; 0; 0]%float /\
    Infrared.timeStamp d = 5.5%float.
Proof.
  destruct (@infrared_message_sets_one_slot float float_scalar
              Example.int_of_str Example.float_of_int Example.nano
              (Example.ir_message "ir_3" 0.25%float) 3 eq_refl)
    as (d & E & _); [lia|].
  exists d. split; [exact E|].
  vm_compute in E. injection E as <-. split; reflexivity.
Defined.

(** The frame id "ir_0" writes the last slot; "ir_9" raises. *)
Lemma infrared_index_edges_witness :
  (exists d,
     Infrared.message2InfraredData Example.int_of_str Example.float_of_int
       Example.nano (Example.ir_message "ir_0" 0.25%float) = Ok d /\
     Infrared.values d = [0; 0; 0; 0; 0; 0; 0; 0.25]%float) /\
  Infrared.message2InfraredData Example.int_of_str Example.float_of_int
    Example.nano (Example.ir_message "ir_9" 0.25%float) = Raise IndexError.
Proof.
  split.
  - destruct (proj1 (@infrared_index_edges float float_scalar
                       Example.int_of_str Example.float_of_int Example.nano
                       (Example.ir_message "ir_0" 0.25%float) 0%Z eq_refl))
      as (d & E & _); [lia|].
    exists d. split; [exact E|].
    vm_compute in E. injection E as <-. reflexivity.
  - apply (proj2 (@infrared_index_edges float float_scalar
                    Example.int_of_str Example.float_of_int Example.nano
                    (Example.ir_message "ir_9" 0.25%float) 9%Z eq_refl)).
    lia.
Defined.

(** After the messages of the sensors 3 and 5, the reading of the
    sensor 3 is gone. *)
Lemma listener_keeps_last_message_witness :
  exists self',
    Infrared.callbacks Example.int_of_str Example.float_of_int Example.nano
      (Infrared.ListenerInfrared_init "/infrared")
      [Example.ir_message "ir_3" 0.25%float;
       Example.ir_message "ir_5" 0.5%float] = Ok self' /\
    Infrared.message2InfraredData Example.int_of_str Example.float_of_int
      Example.nano (Example.ir_message "ir_5" 0.5%float)
    = Ok (Infrared.getSensorData self') /\
    Infrared.values (Infrared.getSensorData self')
    = [0; 0; 0; 0; 0.5; 0; 0; 0]%float.
Proof.
  eexists. split; [reflexivity|]. split; [|reflexivity].
  apply (proj1 (@listener_keeps_last_message float float_scalar
                  Example.int_of_str Example.float_of_int Example.nano
                  (Infrared.ListenerInfrared_init "/infrared") _
                  [Example.ir_message "ir_3" 0.25%float]
                  (Example.ir_message "ir_5" 0.5%float) eq_refl)).
Defined.

(** * The forward pass of the DynamicLayer *)

Section DynamicForwardFacts.
Context {R : Type} `{Scalar R}.

Lemma delay_forward_length (d i : nat) (td td' : TimeDelay.t R)
    (x out : list R) :
  Reach.delay_shaped d i td -> length x = i ->
  TimeDelay.forward_propagate td x = Ok (out, td') ->
  length out = i /\ Reach.delay_shaped d i td'.
Proof.
  intros Hs Hx E.
  destruct (delay_forward_step x Hs Hx) as (out0 & td0 & E0 & Hs' & _ & _ & D).
  rewrite E0 in E. injection E as <- <-. split; [|exact Hs'].
  destruct Hs as (_ & _ & Hws & _).
  unfold np.dot2 in D. rewrite Hws in D. simpl in D.
  destruct Hs' as (_ & _ & _ & _ & Hms' & _). rewrite Hms' in D.
  simpl in D. rewrite Nat.eqb_refl in D. injection D as D.
  rewrite <- D. unfold np.rows. rewrite Hws. simpl.
  rewrite app_nil_r, length_map, length_seq. reflexivity.
Qed.

Lemma add_recurrent_sum (o : nat) (rs : list (TimeRecurrence.t R)) :
  Forall (Reach.recurrence_shaped o) rs ->
  forall s, length s = o ->
    DynamicLayer.add_recurrent rs s = Ok (Reach.recurrent_sum rs s) /\
    length (Reach.recurrent_sum rs s) = o.
Proof.
  induction 1 as [|r rs (Ho & Hsh & Hu) _ IH]; intros s Hs.
  - split; [reflexivity | exact Hs].
  - cbn [DynamicLayer.add_recurrent Reach.recurrent_sum fold_left].
    unfold TimeRecurrence.forward_propagate, np.dot.
    rewrite Hsh, Hu, Nat.eqb_refl. cbn [bind].
    assert (Hl : length s
                 = length (map (fun row =>
                                  np.inner row (TimeRecurrence.input_vector r))
                               (np.rows (TimeRecurrence.weight_matrix r)))).
    { rewrite length_map, rows_length, Hsh. congruence. }
    unfold np.add. rewrite (elementwise_same_length sadd _ _ Hl). cbn [bind].
    apply IH. rewrite map2_length by exact Hl. exact Hs.
Qed.

Lemma dynamic_forward_equation (l : DynamicLayer.t R) (x : list R) :
  Reach.dynamic_shaped l ->
  length x = snd (DynamicLayer.weight_dim l) ->
  exists delayed ds',
    TimeDelay.forward_propagate (DynamicLayer.delay_system l) x
    = Ok (delayed, ds') /\
    (exists d, Reach.delay_shaped d (snd (DynamicLayer.weight_dim l)) ds') /\
    DynamicLayer.forward_propagate l x
    = Ok (ActivationFunction.calculate_activation
            (DynamicLayer.activation_function l)
            (Reach.recurrent_sum (DynamicLayer.recurrent_system l)
               (Spec.affine (DynamicLayer.weight_matrix l) delayed
                            (DynamicLayer.bias_vector l))),
          DynamicLayer.with_delay_system l ds').
Proof.
  intros (HW & Hbd & Hb & (d & Hd) & Hrs) Hx.
  destruct (delay_forward_step x Hd Hx) as (delayed & ds' & E & _).
  destruct (delay_forward_length x Hd Hx E) as [Hl Hd'].
  exists delayed, ds'. split; [exact E|]. split; [now exists d|].
  unfold DynamicLayer.forward_propagate.
  rewrite Hx, Nat.eqb_refl. cbn [negb]. rewrite E. cbn [bind].
  cbn [DynamicLayer.with_delay_system DynamicLayer.weight_matrix
       DynamicLayer.bias_vector DynamicLayer.recurrent_system
       DynamicLayer.activation_function].
  rewrite dot_rows by (rewrite HW; exact Hl). cbn [bind].
  rewrite rows_add_affine by (rewrite HW; exact Hb). cbn [bind].
  destruct (add_recurrent_sum Hrs
              (Spec.affine (DynamicLayer.weight_matrix l) delayed
                           (DynamicLayer.bias_vector l))) as [Ea _].
  { rewrite affine_length, HW. reflexivity. }
  rewrite Ea. reflexivity.
Qed.
End DynamicForwardFacts.

Section DynamicReach.
Context {R : Type} `{Scalar R}.

Lemma init_recurrent_shaped (o : nat) (dims : list nat) :
  forall (g g' : RandomState R) (rs : list (TimeRecurrence.t R)),
    DynamicLayer.init_recurrent (map PyInt dims) o g = Ok (rs, g') ->
    Forall (Reach.recurrence_shaped o) rs.
Proof.
  induction dims as [|d dims IH]; intros g g' rs E.
  - cbn in E. injection E as <- _. constructor.
  - cbn [map DynamicLayer.init_recurrent] in E.
    unfold TimeRecurrence.init, random_rand2, random_rand in E.
    cbn [fst snd] in E.
    destruct (DynamicLayer.init_recurrent (map PyInt dims) o _)
      as [[rs0 g0]|e] eqn:E0; [|discriminate].
    cbn [bind] in E. injection E as <- _.
    constructor; [|exact (IH _ _ _ E0)].
    unfold Reach.recurrence_shaped. cbn.
    unfold np.zeros. rewrite repeat_length. auto.
Qed.

Lemma Forall_replace_nth {A : Type} (P : A -> Prop) (l : list A) (i : nat)
    (x : A) :
  Forall P l -> P x -> Forall P (replace_nth l i x).
Proof.
  intros Hl Hx. revert i. induction Hl as [|y l Hy Hl IH]; intros [|i];
    simpl; constructor; auto.
Qed.

Lemma recurrent_item_shaped (o : nat) (l : DynamicLayer.t R) (index : nat)
    (r : TimeRecurrence.t R) :
  Forall (Reach.recurrence_shaped o) (DynamicLayer.recurrent_system l) ->
  DynamicLayer.recurrent_item l index = Ok r ->
  Reach.recurrence_shaped o r.
Proof.
  intros Hrs E. unfold DynamicLayer.recurrent_item in E.
  destruct (nth_error (DynamicLayer.recurrent_system l) index) as [r0|] eqn:En;
    [|discriminate].
  injection E as <-. rewrite Forall_forall in Hrs. apply Hrs.
  eapply nth_error_In. exact En.
Qed.

Lemma shape_checked (w : np.matrix R) (dim : nat * nat) :
  negb ((fst (np.shape w) =? fst dim) && (snd (np.shape w) =? snd dim))
  = false ->
  np.shape w = dim.
Proof.
  intros E. apply negb_false_iff, andb_true_iff in E. destruct E as [E1 E2].
  apply Nat.eqb_eq in E1, E2.
  destruct (np.shape w), dim. simpl in *. congruence.
Qed.

Lemma dynamic_reach_shaped (l : DynamicLayer.t R) :
  Reach.dynamic l -> Reach.dynamic_shaped l.
Proof.
  induction 1 as [i o d dims af nm g g' l E
                 | l l' w _ IH Hw E | l l' b _ IH E | l l' w _ IH Hw E
                 | l l' w index _ IH Hw E | l l' v index _ IH E
                 | l b th _ IH | l l' x out _ IH E].
  - unfold DynamicLayer.init, random_rand2, random_rand in E.
    cbn [fst snd] in E.
    destruct (TimeDelay.init i (PyInt d) _) as [[delay g3]|e] eqn:Ed;
      [|discriminate].
    cbn [bind DynamicLayer.iterate] in E.
    destruct (DynamicLayer.init_recurrent (map PyInt dims) o g3)
      as [[rs g4]|e] eqn:Er; [|discriminate].
    cbn [bind] in E. injection E as <- _.
    unfold Reach.dynamic_shaped. cbn.
    rewrite length_map, length_seq.
    split; [reflexivity|]. split; [reflexivity|]. split; [reflexivity|].
    split.
    + exists d. exact (proj1 (delay_init_shaped Ed)).
    + exact (init_recurrent_shaped _ _ _ Er).
  - unfold DynamicLayer.set_weight_matrix in E.
    destruct (negb _) eqn:Ec; [discriminate|]. injection E as <-.
    apply shape_checked in Ec.
    destruct IH as (_ & H1 & H2 & H3 & H4).
    unfold Reach.dynamic_shaped. cbn. auto.
  - unfold DynamicLayer.set_bias_vector in E.
    destruct (length b =? DynamicLayer.bias_dim l) eqn:Ec; [|discriminate].
    cbn in E. injection E as <-. apply Nat.eqb_eq in Ec.
    destruct IH as (H0 & H1 & H2 & H3 & H4).
    unfold Reach.dynamic_shaped. cbn. repeat split; auto. congruence.
  - unfold DynamicLayer.set_delay_weight_vector in E.
    destruct (negb _) eqn:Ec; [discriminate|].
    unfold TimeDelay.set_weight_vector in E.
    destruct (negb _) eqn:Ec'; [discriminate|].
    cbn [bind] in E. injection E as <-. clear Ec. rename Ec' into Ec.
    apply shape_checked in Ec.
    destruct IH as (H0 & H1 & H2 & (d & Hd) & H4).
    unfold Reach.dynamic_shaped. cbn. repeat split; auto.
    exists d. destruct Hd as (D1 & D2 & D3 & D4 & D5 & D6).
    unfold TimeDelay.get_weight_vector_dim in Ec. rewrite D1 in Ec.
    unfold Reach.delay_shaped. cbn. repeat split; auto.
    unfold Reach.consistent in Hw. rewrite Hw, Ec. cbn. lia.
  - unfold DynamicLayer.set_recurrent_weight_matrix in E.
    destruct (DynamicLayer.recurrent_item l index) as [r|e] eqn:Er;
      [|discriminate].
    cbn [bind] in E.
    destruct (negb _) eqn:Ec; [discriminate|].
    unfold TimeRecurrence.set_weight_matrix in E.
    unfold TimeRecurrence.get_weight_matrix_dim in Ec.
    rewrite Ec in E. cbn [bind] in E. injection E as <-.
    apply shape_checked in Ec.
    destruct IH as (H0 & H1 & H2 & H3 & H4).
    destruct (recurrent_item_shaped _ _ H4 Er) as (R1 & R2 & R3).
    unfold Reach.dynamic_shaped. cbn. repeat split; auto.
    apply Forall_replace_nth; [exact H4|].
    unfold Reach.recurrence_shaped. cbn. auto.
  - unfold DynamicLayer.set_recurrent_input in E.
    destruct (DynamicLayer.recurrent_item l index) as [r|e] eqn:Er;
      [|discriminate].
    cbn [bind] in E.
    destruct (negb _) eqn:Ec; [discriminate|].
    unfold TimeRecurrence.set_input_vector in E.
    destruct (length v =? snd (TimeRecurrence.weight_dim r)) eqn:Ec';
      [|discriminate].
    cbn in E. injection E as <-. apply Nat.eqb_eq in Ec'.
    destruct IH as (H0 & H1 & H2 & H3 & H4).
    destruct (recurrent_item_shaped _ _ H4 Er) as (R1 & R2 & R3).
    unfold Reach.dynamic_shaped. cbn. repeat split; auto.
    apply Forall_replace_nth; [exact H4|].
    unfold Reach.recurrence_shaped. cbn. auto.
  - exact IH.
  - destruct (Nat.eq_dec (length x) (snd (DynamicLayer.weight_dim l)))
      as [Hx|Hx].
    + destruct (dynamic_forward_equation x IH Hx)
        as (delayed & ds' & _ & Hd' & Ef).
      rewrite Ef in E. injection E as _ <-.
      destruct IH as (H0 & H1 & H2 & H3 & H4).
      unfold Reach.dynamic_shaped. cbn. auto.
    + unfold DynamicLayer.forward_propagate in E.
      apply Nat.eqb_neq in Hx. rewrite Hx in E. discriminate.
Qed.
End DynamicReach.

Section DynamicForward.
Context {R : Type} `{Scalar R}.

(** X20.  A DynamicLayer constructed with an integer delay and integer
    recurrent dimensions, and changed only through its setters and
    through [forward_propagate], never fails inside numpy.  For an input
    of the declared length [forward_propagate] passes the input through
    the delay system, and returns the activation of [W·delayed + b] plus,
    for every recurrent system in order, the product of its weight
    matrix and its stored input vector; only the delay system changes.
    For any other input it raises the [ValueError] of its own check. *)
Theorem dynamic_reachable_forward (l : DynamicLayer.t R) (x : list R) :
  Reach.dynamic l ->
  (length x = snd (DynamicLayer.weight_dim l) ->
   exists delayed ds',
     TimeDelay.forward_propagate (DynamicLayer.delay_system l) x
     = Ok (delayed, ds') /\
     DynamicLayer.forward_propagate l x
     = Ok (ActivationFunction.calculate_activation
             (DynamicLayer.activation_function l)
             (Reach.recurrent_sum (DynamicLayer.recurrent_system l)
                (Spec.affine (DynamicLayer.weight_matrix l) delayed
                             (DynamicLayer.bias_vector l))),
           DynamicLayer.with_delay_system l ds')) /\
  (length x <> snd (DynamicLayer.weight_dim l) ->
   DynamicLayer.forward_propagate l x
   = Raise (ValueError
       "THe input dimensions do not match as specified earlier!")).
Proof.
  intros Hr. apply dynamic_reach_shaped in Hr. split.
  - intros Hx.
    destruct (dynamic_forward_equation x Hr Hx)
      as (delayed & ds' & Ed & _ & Ef).
    exists delayed, ds'. split; [exact Ed | exact Ef].
  - intros Hx. unfold DynamicLayer.forward_propagate.
    apply Nat.eqb_neq in Hx. rewrite Hx. reflexivity.
Qed.
End DynamicForward.

(** One input, one output, the delay one, one recurrent system and every
    weight 0.25: the input [[2]] gives [0.25·(0.25·2) + 0.25 + 0.25·0]. *)
Lemma dynamic_reachable_forward_witness :
  exists l, Example.dynamic_recurrent = Ok l /\
    (exists l',
       DynamicLayer.forward_propagate l [2%float] = Ok ([0.375%float], l')) /\
    DynamicLayer.forward_propagate l []
    = Raise (ValueError
        "THe input dimensions do not match as specified earlier!").
Proof.
  eexists. split; [reflexivity|].
  match goal with
  | |- context [DynamicLayer.forward_propagate ?l []] =>
      assert (Hr : Reach.dynamic l)
  end.
  { eapply Reach.dynamic_init
      with (i := 1) (o := 1) (d := 1) (dims := [1])
           (af := Example.identity) (nm := "dyn") (g := Example.g0).
    reflexivity. }
  destruct (dynamic_reachable_forward [2%float] Hr) as (A & _).
  destruct (dynamic_reachable_forward [] Hr) as (_ & B).
  split.
  - destruct (A eq_refl) as (delayed & ds' & Ed & E).
    vm_compute in Ed. injection Ed as <- <-.
    eexists. rewrite E. vm_compute. reflexivity.
  - apply B. discriminate.
Defined.

(** * Networks of input layers *)

Section InputOnlyFacts.
Context {R : Type} `{Scalar R}.

Import ArtificialNeuralNetwork.

Variable self : t R.
Variable layer_vector : list (LayerSpec R).
Hypothesis Hnd : NoDup (map name layer_vector).
Hypothesis Hin : forall l, In l layer_vector ->
  str_in (name l) (input_layers self) = true.
Hypothesis Hnm : forall l, In l layer_vector ->
  PyDict.get (neuron_map self) (name l) = Some (size l).
Hypothesis Hlm : forall l, In l layer_vector ->
  exists s, PyDict.get (layer_map self) (name l) = Some s.
Hypothesis Hoc : forall l, In l layer_vector ->
  PyDict.get (output_connections self) (name l) = Some (outputs l).
Hypothesis Hhw : forall l c, In l layer_vector -> In c (outputs l) ->
  str_in c (output_layers self) = true.

Lemma push_outputs_hardware (k : nat) (outs : list string)
    (lv : list (list string)) (done : PyDict.t bool) :
  (forall c, In c outs -> str_in c (output_layers self) = true) ->
  push_outputs self k outs lv done = Ok (lv, done).
Proof.
  induction outs as [|c outs IH]; intros Hc; [reflexivity|].
  cbn [push_outputs]. rewrite (Hc c (or_introl eq_refl)). cbn [negb].
  apply IH. intros c' Hc'. apply Hc. now right.
Qed.

Lemma visit_input (lv : list (list string)) (pre : list (LayerSpec R))
    (l : LayerSpec R) (st : locals R) :
  In l layer_vector ->
  (forall l', In l' pre -> name l' <> name l) ->
  InputOnly.generated lv pre st ->
  exists st',
    visit self 0 st (name l) = Ok st' /\
    InputOnly.generated lv (pre ++ [l]) st'.
Proof.
  intros Hl Hfresh (Hp & Hg & Hq & Hlv & Hpre).
  unfold visit. rewrite (Hin l Hl).
  unfold PyDict.item at 1. rewrite (Hnm l Hl). cbn [bind].
  unfold emit. destruct (Hlm l Hl) as [s Es].
  unfold PyDict.item at 1. rewrite Es. cbn [bind].
  unfold PyDict.item at 1. cbn [new_placeholder l_sensor_inputs].
  rewrite get_set_eq. cbn [bind].
  unfold PyDict.item at 1. rewrite (Hoc l Hl). cbn [bind].
  rewrite push_outputs_hardware by (intros c Hc; exact (Hhw l c Hl Hc)).
  cbn [bind]. eexists. split; [reflexivity|].
  unfold InputOnly.generated.
  cbn [l_placeholders layers_generated new_error_queue l_level_vector
       l_sensor_inputs l_output_matrix new_placeholder].
  rewrite length_app. cbn [length].
  split; [lia|]. split; [lia|]. split; [exact Hq|]. split; [exact Hlv|].
  intros k l' Hk.
  destruct (Nat.lt_ge_cases k (length pre)) as [Hlt|Hge].
  - rewrite nth_error_app1 in Hk by exact Hlt.
    assert (Hne : name l <> name l').
    { intros C. apply (Hfresh l'); [eapply nth_error_In; exact Hk | now symmetry]. }
    rewrite !get_set_ne by exact Hne. now apply Hpre.
  - rewrite nth_error_app2 in Hk by exact Hge.
    destruct (k - length pre) as [|j] eqn:Ej.
    + cbn in Hk. injection Hk as <-.
      rewrite !get_set_eq. assert (k = length pre) by lia. subst k.
      rewrite Hp. split; reflexivity.
    + cbn in Hk. destruct j; discriminate.
Qed.

Lemma pass_inputs (lv : list (list string)) (todo : list (LayerSpec R)) :
  forall (pre : list (LayerSpec R)) (st : locals R),
    layer_vector = pre ++ todo ->
    InputOnly.generated lv pre st ->
    exists st',
      pass self 0 (map name todo) st = Ok st' /\
      InputOnly.generated lv layer_vector st'.
Proof.
  induction todo as [|l todo IH]; intros pre st E Hst.
  - rewrite app_nil_r in E. subst pre. exists st. split; [reflexivity|exact Hst].
  - assert (Hl : In l layer_vector).
    { rewrite E. apply in_or_app. right. now left. }
    assert (Hfresh : forall l', In l' pre -> name l' <> name l).
    { intros l' Hl' C. rewrite E, map_app in Hnd. cbn [map] in Hnd.
      apply NoDup_remove_2 in Hnd. apply Hnd.
      apply in_or_app. left. rewrite <- C. now apply in_map. }
    destruct (@visit_input lv pre l st Hl Hfresh Hst) as (st1 & E1 & Hst1).
    cbn [map pass]. rewrite E1. cbn [bind].
    apply (IH (pre ++ [l]) st1); [|exact Hst1].
    rewrite <- app_assoc. exact E.
Qed.
End InputOnlyFacts.

Section InputOnlyTheorem.
Context {R : Type} `{Scalar R}.

Import ArtificialNeuralNetwork.

Lemma input_names_all (layer_vector rest : list (LayerSpec R)) :
  (forall l, In l rest ->
     kind l = "STATIC" /\ Declared.upstream layer_vector (name l) = []) ->
  Aux.input_names layer_vector rest = map name rest.
Proof.
  induction rest as [|a rest IH]; intros Hall; [reflexivity|].
  rewrite input_names_cons.
  destruct (Hall a (or_introl eq_refl)) as [Ek Eu].
  unfold Aux.has_no_upstream. rewrite Ek, Eu. cbn.
  f_equal. apply IH. intros l Hl. apply Hall. now right.
Qed.

Lemma drain_done (fuel : nat) (self : t R) (k : nat) (st : locals R) :
  drain (S fuel) self k [] st = Some (Ok st).
Proof. reflexivity. Qed.

(** X21.  A layer vector (unique names, every layer "STATIC") in which no
    layer is among the outputs of a layer, such as sensor layers that
    drive the motors directly, is built in one pass: the construction
    returns, level 0 holds the layers in declaration order, every layer is
    an input layer, the layer at position [k] has the placeholder [k] for
    its sensor, and its node applies the layer to a constant zero vector
    of its size and to that placeholder. *)
Theorem input_only_network_builds (layer_vector : list (LayerSpec R))
    (dt : R) (g : RandomState R) (fuel : nat) :
  NoDup (map name layer_vector) ->
  Forall (fun l => kind l = "STATIC") layer_vector ->
  (forall l src, In l layer_vector -> In src layer_vector ->
                 ~ In (name l) (outputs src)) ->
  3 <= fuel ->
  exists self,
    init fuel layer_vector dt g = Some (Ok self) /\
    level_vector self = [map name layer_vector] /\
    input_layers self = map name layer_vector /\
    forall k l, nth_error layer_vector k = Some l ->
      PyDict.get (sensor_inputs self) (name l) = Some k /\
      PyDict.get (output_matrix self) (name l)
      = Some (InputOnly.input_node l k).
Proof.
  intros Hnd Hk Hno Hfuel.
  assert (Hk' : Forall (fun l => kind l <> "DYNAMIC") layer_vector).
  { eapply Forall_impl; [|exact Hk]. cbn. intros l ->. discriminate. }
  assert (Hup : forall l, In l layer_vector ->
                  Declared.upstream layer_vector (name l) = []).
  { intros l Hl.
    destruct (Declared.upstream layer_vector (name l)) eqn:E; [reflexivity|].
    destruct (upstream_is_output layer_vector (name l)) as (src & Hs & Ho).
    - rewrite E. discriminate.
    - elim (Hno l src Hl Hs Ho). }
  destruct (generate_layers_static layer_vector dt Hnd Hk'
              {| b_layer_map := PyDict.empty;
                 b_input_layers := [];
                 b_level_vector := [[]];
                 b_random := g |} eq_refl)
    as (b' & E & Elv & Eil & _ & Hstatic).
  rewrite input_names_all in Elv, Eil.
  2,3: (intros l Hl; split; [|now apply Hup];
        rewrite Forall_forall in Hk; now apply Hk).
  cbn [app b_input_layers] in Elv, Eil.
  unfold init, _construct_layers.
  change (record_connections layer_vector _) with (Aux.recorded layer_vector).
  cbn [attributes time_interval input_layers level_vector random_state].
  rewrite E. cbn [bind].
  match goal with
  | |- context [_construct_graph fuel ?s] => set (self0 := s)
  end.
  assert (Hself :
    exists st,
      levels fuel self0 0 (entry self0) = Some (Ok st) /\
      InputOnly.generated [map name layer_vector] layer_vector st).
  { destruct fuel as [|[|[|fuel]]]; try lia.
    assert (Hn : number_of_layers self0 = length layer_vector)
      by reflexivity.
    assert (Hentry : l_level_vector (entry self0) = [map name layer_vector])
      by exact Elv.
    assert (Hstart : InputOnly.generated [map name layer_vector] []
                       (with_queue
                          (with_done (with_queue (entry self0) [])
                             (tick_done (map name layer_vector)
                                (layers_done (entry self0)))) [])).
    { unfold InputOnly.generated.
      split; [reflexivity|]. split; [reflexivity|]. split; [reflexivity|].
      split; [exact Elv|]. intros [|k] l Hk0; discriminate Hk0. }
    destruct (@pass_inputs R H self0 layer_vector Hnd) with
      (lv := [map name layer_vector]) (todo := layer_vector)
      (pre := @nil (LayerSpec R))
      (st := with_queue
               (with_done (with_queue (entry self0) [])
                  (tick_done (map name layer_vector)
                     (layers_done (entry self0)))) [])
      as (st2 & E2 & Hst2).
    - intros l Hl. apply str_in_In.
      change (input_layers self0) with (b_input_layers b').
      rewrite Eil. now apply in_map.
    - intros l Hl.
      exact (proj1 (record_connections_declared layer_vector _ l Hnd Hl)).
    - intros l Hl. rewrite Forall_forall in Hk.
      destruct (Hstatic Hnd l Hl (Hk l Hl)) as (s & Es & _).
      exists (Static s). exact Es.
    - intros l Hl.
      exact (proj2 (record_connections_declared layer_vector _ l Hnd Hl)).
    - intros l c Hl Hc. apply str_in_In.
      change (output_layers self0)
        with (hardware_layers (Aux.recorded layer_vector)).
      unfold hardware_layers. apply filter_In. split.
      + apply in_keys_get. rewrite recorded_input.
        pose proof (upstream_of_output layer_vector l c Hl Hc) as Hne.
        destruct (Declared.upstream layer_vector c); [now elim Hne|].
        eexists. reflexivity.
      + apply negb_true_iff, str_in_false.
        rewrite declared_names by exact Hnd. intros Hc'.
        apply in_map_iff in Hc'. destruct Hc' as (l' & En & Hl').
        apply (Hno l' l Hl' Hl). now rewrite En.
    - reflexivity.
    - exact Hstart.
    - destruct layer_vector as [|l0 rest] eqn:Elayers.
      + exists (entry self0). split; [reflexivity|].
        unfold InputOnly.generated.
        split; [reflexivity|]. split; [reflexivity|]. split; [reflexivity|].
        split; [exact Elv|]. intros [|k] l Hk0; discriminate Hk0.
      + exists st2. split; [|exact Hst2].
        destruct Hst2 as (_ & Hg2 & Hq2 & _).
        cbn [levels]. rewrite Hn, Hentry.
        cbn [entry layers_generated length Nat.eqb nth_error drain map].
        cbn [map] in E2. rewrite E2, Hq2.
        cbn [names_eqb length Nat.eqb].
        rewrite Hg2. cbn [length]. rewrite Nat.eqb_refl.
        reflexivity. }
  destruct Hself as (st & Est & Hp & Hg & Hq & Hlv & Hnodes).
  unfold _construct_graph. rewrite Est.
  eexists. split; [reflexivity|].
  cbn [store level_vector input_layers sensor_inputs output_matrix].
  split; [exact Hlv|]. split; [exact Eil|]. exact Hnodes.
Qed.
End InputOnlyTheorem.

(** Two sensor layers that drive the motors. *)
Lemma input_only_network_builds_witness :
  exists self,
    Example.network Example.sensors_to_motors = Some (Ok self) /\
    ArtificialNeuralNetwork.level_vector self = [["left_eye"; "right_eye"]] /\
    PyDict.get (ArtificialNeuralNetwork.sensor_inputs self) "right_eye"
    = Some 1.
Proof.
  destruct (@input_only_network_builds float float_scalar
              Example.sensors_to_motors 0.125%float Example.g0 32)
    as (self & E & Elv & _ & Hn).
  - repeat constructor; simpl; intuition discriminate.
  - repeat constructor.
  - intros l src [<-|[<-|[]]] [<-|[<-|[]]]; simpl; intuition discriminate.
  - lia.
  - exists self. split; [exact E|]. split; [exact Elv|].
    exact (proj1 (Hn 1 (Example.layer "right_eye" 2 "STATIC" "IR_right"
                          ["left_motor"; "right_motor"] []) eq_refl)).
Defined.
